(** * OpenImuCameraCalibrator: the three applications, embedded and checked

    A shallow embedding of
      - applications/calibrate_camera.cc
      - applications/continuous_time_imu_to_camera_calibration_new.cc
      - applications/create_imu_camera_charuco.cc

    Conventions of the embedding.
      - The value of a C++ [double] is a rational ([Q]).  The sums of the
        window test of create_imu_camera_charuco.cc are rounded to binary64
        ([double], [fadd], [fsub]); the other arithmetic on doubles, the
        products by [1e9] among it, is taken exactly.  Where the source
        divides a double by a possibly zero count the three IEEE outcomes
        (finite, infinite, not-a-number) are kept apart in the type [dbl].
      - [int64_t] and [int] are [Z]; the narrowing conversion to [int] is
        written out ([to_int]).  A double is converted to [int64_t] by
        truncation toward zero ([to_int64]), which is the conversion of the
        code for the values whose truncation is an [int64_t]
        ([in_int64_range]).
      - A null dereference, an out-of-range [operator[]] or a function that
        flows off its end has no defined result: [None] in the functions of
        calibrate_camera.cc, [Undefined] in the outcome of a [main].
      - [std::unordered_map] is stdpp's [gmap]; a Theia reconstruction is an
        association list whose order is the order of [ViewIds()] /
        [TrackIds()]. *)

From Stdlib Require Import ZArith QArith Qround Qabs Lia Lqa Permutation.
From stdpp Require Import base option list gmap strings pretty sorting.

Open Scope Z_scope.

(** ** Numbers *)

Module Num.

(** [static_cast<int64_t>(double)]: truncation toward zero.  The result is
    that of the conversion for a value whose truncation is an [int64_t],
    see [in_int64_range]; outside that range the conversion is not defined
    in C++. *)
Definition to_int64 (x : Q) : Z := Z.quot (Qnum x) (Zpos (Qden x)).

(** The truncation of [x] is a value of [int64_t]. *)
Definition in_int64_range (x : Q) : Prop := - 2 ^ 63 <= to_int64 x < 2 ^ 63.

(** [int64_t] to [double]. *)
Definition of_int64 (z : Z) : Q := inject_Z z.

(** Narrowing of an [int64_t] to a 32-bit [int]: reduction modulo 2^32 into
    the signed range. *)
Definition to_int (z : Z) : Z := (z + 2 ^ 31) mod 2 ^ 32 - 2 ^ 31.

(** [1e9].  A product of a time by [1e9] is taken exactly; the product of
    the code is the double nearest to it. *)
Definition e9 : Q := inject_Z 1000000000.

Definition Qltb (a b : Q) : bool := negb (Qle_bool b a).
Definition Qgeb (a b : Q) : bool := Qle_bool b a.

(** *** Rounding to binary64

    The value of a [double] is a rational.  [double x] is the [double]
    nearest to [x], the one with the even significand of two that are as
    near (the rounding of IEEE 754 arithmetic and of decimal literals), for
    [x] below the largest [double] in magnitude. *)

(** floor(log2 a) for a positive [a]. *)
Definition binade (a : Q) : Z :=
  let e0 := Z.log2 (Qnum a) - Z.log2 (Zpos (Qden a)) in
  if Qle_bool (2 ^ e0) a then e0 else e0 - 1.

(** The integer nearest to a non-negative [m], the even one of two that are
    as near. *)
Definition round_even (m : Q) : Z :=
  let r := Qfloor m in
  match (m - inject_Z r ?= 1 # 2)%Q with
  | Lt => r
  | Gt => r + 1
  | Eq => if Z.even r then r else r + 1
  end.

(** A significand of 53 bits; the spacing is 2^-1074 below 2^-1022. *)
Definition double (x : Q) : Q :=
  if Qeq_bool x 0 then 0%Q
  else
    let a := Qabs x in
    let q := Z.max (binade a - 52) (-1074) in
    let y := Qred (inject_Z (round_even (a / 2 ^ q)) * 2 ^ q) in
    if Qle_bool 0 x then y else Qopp y.

(** [a + b] and [a - b] on doubles. *)
Definition fadd (a b : Q) : Q := double (a + b).
Definition fsub (a b : Q) : Q := double (a - b).

(** [std::max] on doubles. *)
Definition dmax (a b : Q) : Q := if Qltb a b then b else a.

(** The result of a double division whose divisor may be zero. *)
Inductive dbl : Type :=
| Finite (q : Q)
| Inf (negative : bool)
| NaN.

(** [x / n] for a double [x] and a [size_t] count [n] converted to double. *)
Definition ddiv (x : Q) (n : nat) : dbl :=
  match n with
  | O => if Qeq_bool x 0 then NaN else Inf (Qltb x 0)
  | S _ => Finite (x / inject_Z (Z.of_nat n))
  end.

(** Sum of a list of doubles. *)
Definition Qsum (l : list Q) : Q := foldr Qplus 0%Q l.

End Num.
Export Num.

(** ** Vectors and rotations (Eigen, Sophus) *)

Module Geometry.

Record Vec2 : Type := mkVec2 { v2x : Q; v2y : Q }.
Record Vec3 : Type := mkVec3 { v3x : Q; v3y : Q; v3z : Q }.
Record Vec4 : Type := mkVec4 { v4x : Q; v4y : Q; v4z : Q; v4w : Q }.

Definition vsub2 (a b : Vec2) : Vec2 :=
  mkVec2 (v2x a - v2x b)%Q (v2y a - v2y b)%Q.

Definition vadd (a b : Vec3) : Vec3 :=
  mkVec3 (v3x a + v3x b)%Q (v3y a + v3y b)%Q (v3z a + v3z b)%Q.

Definition vneg (a : Vec3) : Vec3 :=
  mkVec3 (- v3x a)%Q (- v3y a)%Q (- v3z a)%Q.

Definition vzero : Vec3 := mkVec3 0 0 0.

(** Component-wise equality of doubles. *)
Definition veq (a b : Vec3) : Prop :=
  (v3x a == v3x b)%Q /\ (v3y a == v3y b)%Q /\ (v3z a == v3z b)%Q.

(** A 3x3 matrix, by rows. *)
Record Mat3 : Type := mkMat3 { row1 : Vec3; row2 : Vec3; row3 : Vec3 }.

Definition dot (a b : Vec3) : Q :=
  (v3x a * v3x b + v3y a * v3y b + v3z a * v3z b)%Q.

Definition mat_vec (m : Mat3) (v : Vec3) : Vec3 :=
  mkVec3 (dot (row1 m) v) (dot (row2 m) v) (dot (row3 m) v).

Definition transpose (m : Mat3) : Mat3 :=
  mkMat3 (mkVec3 (v3x (row1 m)) (v3x (row2 m)) (v3x (row3 m)))
         (mkVec3 (v3y (row1 m)) (v3y (row2 m)) (v3y (row3 m)))
         (mkVec3 (v3z (row1 m)) (v3z (row2 m)) (v3z (row3 m))).

Definition mat_mul (a b : Mat3) : Mat3 :=
  let bt := transpose b in
  mkMat3 (mkVec3 (dot (row1 a) (row1 bt)) (dot (row1 a) (row2 bt)) (dot (row1 a) (row3 bt)))
         (mkVec3 (dot (row2 a) (row1 bt)) (dot (row2 a) (row2 bt)) (dot (row2 a) (row3 bt)))
         (mkVec3 (dot (row3 a) (row1 bt)) (dot (row3 a) (row2 bt)) (dot (row3 a) (row3 bt))).

Definition mat_id : Mat3 :=
  mkMat3 (mkVec3 1 0 0) (mkVec3 0 1 0) (mkVec3 0 0 1).

(** [Sophus::SE3<double>]: a rotation and a translation.  The rotation is
    kept as its matrix; the inverse of a rotation is its transpose. *)
Record SE3 : Type := mkSE3 { so3 : Mat3; translation : Vec3 }.

(** [a * b] *)
Definition se3_mul (a b : SE3) : SE3 :=
  mkSE3 (mat_mul (so3 a) (so3 b))
        (vadd (mat_vec (so3 a) (translation b)) (translation a)).

(** [a.inverse()] *)
Definition se3_inverse (a : SE3) : SE3 :=
  mkSE3 (transpose (so3 a))
        (vneg (mat_vec (transpose (so3 a)) (translation a))).

End Geometry.
Export Geometry.

(** ** The parts of a Theia reconstruction the applications read *)

Module Theia.

Definition ViewId := Z.
Definition TrackId := Z.
Definition Feature := Vec2.

Record Camera : Type := mkCamera {
  (** [GetOrientationAsRotationMatrix()] *)
  cam_orientation : Mat3;
  (** [GetPosition()] *)
  cam_position : Vec3;
  cam_intrinsics : list Q;
  cam_image_width : Z;
  cam_image_height : Z
}.

Record View : Type := mkView {
  (** [std::stod(view.Name())]: the name of a view is its time stamp in
      seconds. *)
  view_timestamp : Q;
  (** the observations of the view, in the order of [TrackIds()] *)
  view_features : list (TrackId * Feature);
  view_camera : Camera
}.

Record Track : Type := mkTrack {
  track_point : Vec4;
  (** [ViewIds()]: the views that observe the track *)
  track_views : list ViewId
}.

Record Reconstruction : Type := mkReconstruction {
  recon_views : list (ViewId * View);
  recon_tracks : list (TrackId * Track)
}.

(** Lookup in an association list keyed by an id. *)
Fixpoint assoc {A : Type} (k : Z) (l : list (Z * A)) : option A :=
  match l with
  | [] => None
  | (k', a) :: l' => if Z.eqb k k' then Some a else assoc k l'
  end.

Definition ViewIds (r : Reconstruction) : list ViewId := map fst (recon_views r).
Definition TrackIds (r : Reconstruction) : list TrackId := map fst (recon_tracks r).
Definition NumViews (r : Reconstruction) : nat := length (recon_views r).

(** [r.View(id)], [None] for the null pointer. *)
Definition GetView (r : Reconstruction) (id : ViewId) : option View :=
  assoc id (recon_views r).
(** [r.Track(id)], [None] for the null pointer. *)
Definition GetTrack (r : Reconstruction) (id : TrackId) : option Track :=
  assoc id (recon_tracks r).

Definition ViewTrackIds (v : View) : list TrackId := map fst (view_features v).
(** [v.GetFeature(id)], [None] for the null pointer. *)
Definition GetFeature (v : View) (id : TrackId) : option Feature :=
  assoc id (view_features v).

End Theia.
Export Theia.

(** ** applications/calibrate_camera.cc *)

Module CalibrateCamera.

(** The values of [theia::CameraIntrinsicsModelType] that the file uses.
    The enumeration is declared by Theia; its values are a parameter. *)
Record ModelTypeEnum : Type := mkModelTypeEnum {
  DOUBLE_SPHERE : Z;
  DIVISION_UNDISTORTION : Z;
  PINHOLE : Z
}.

(** The numbering of Theia's header: PINHOLE = 0, ...,
    DIVISION_UNDISTORTION = 4, DOUBLE_SPHERE = 5. *)
Definition theia_model_types : ModelTypeEnum :=
  mkModelTypeEnum 5 4 0.

(** [CameraIDToString].  The second and the third condition test the
    enumeration constant itself, not the argument.  When no branch is taken
    control flows off the end of the function: [None]. *)
Definition CameraIDToString (E : ModelTypeEnum) (theia_enum : Z) : option string :=
  if theia_enum =? DOUBLE_SPHERE E then Some "DOUBLE_SPHERE"%string
  else if negb (DIVISION_UNDISTORTION E =? 0) then Some "DIVISION_UNDISTORTION"%string
  else if negb (PINHOLE E =? 0) then Some "PINHOLE"%string
  else None.

Section ReprojError.

(** [Camera::ProjectPoint] (Theia) and [Eigen]'s [norm()]. *)
Variable ProjectPoint : Camera -> Vec4 -> Vec2.
Variable norm : Vec2 -> Q.

(** The summand of one track, the norm of [pt - feat].  [None] when the
    feature or the track pointer is null. *)
Definition track_error (recon : Reconstruction) (v : View) (tid : TrackId) : option Q :=
  feat ← GetFeature v tid;
  track ← GetTrack recon tid;
  Some (norm (vsub2 (ProjectPoint (view_camera v) (track_point track)) feat)).

(** The loop [for (t = 0; t < track_ids.size(); ++t)]. *)
Fixpoint accumulate_error (recon : Reconstruction) (v : View)
         (track_ids : list TrackId) (view_reproj_error : Q) : option Q :=
  match track_ids with
  | [] => Some view_reproj_error
  | tid :: rest =>
      e ← track_error recon v tid;
      accumulate_error recon v rest (view_reproj_error + e)%Q
  end.

(** [GetReprojErrorOfView]. *)
Definition GetReprojErrorOfView (recon : Reconstruction) (v_id : ViewId) : option dbl :=
  v ← GetView recon v_id;
  let track_ids := ViewTrackIds v in
  view_reproj_error ← accumulate_error recon v track_ids 0%Q;
  Some (ddiv view_reproj_error (length track_ids)).

End ReprojError.

(** *** The options of the bundle adjustments (lines 400-411, 432-437) *)

Inductive OptimizeIntrinsicsType : Type :=
| FOCAL_LENGTH
| PRINCIPAL_POINTS
| RADIAL_DISTORTION.

Inductive LossFunctionType : Type := HUBER.

Record BundleAdjustmentOptions : Type := mkBundleAdjustmentOptions {
  fix_tracks : bool;
  verbose : bool;
  loss_function_type : LossFunctionType;
  robust_loss_width : Q;
  (** the flags that are or-ed together *)
  intrinsics_to_optimize : list OptimizeIntrinsicsType
}.

Definition has_distortion (camera_model_to_calibrate : string) : bool :=
  String.eqb camera_model_to_calibrate "DIVISION_UNDISTORTION"
  || String.eqb camera_model_to_calibrate "DOUBLE_SPHERE".

(** [ba_options] at the first call of [BundleAdjustReconstruction]. *)
Definition ba_options_first (camera_model_to_calibrate : string) : BundleAdjustmentOptions :=
  mkBundleAdjustmentOptions true true HUBER (1345 # 1000)
    (FOCAL_LENGTH ::
     if has_distortion camera_model_to_calibrate then [RADIAL_DISTORTION] else []).

(** [ba_options] at the second and the third call: only
    [intrinsics_to_optimize] is assigned again. *)
Definition ba_options_second (camera_model_to_calibrate : string) : BundleAdjustmentOptions :=
  let o := ba_options_first camera_model_to_calibrate in
  mkBundleAdjustmentOptions (fix_tracks o) (verbose o) (loss_function_type o)
    (robust_loss_width o)
    (PRINCIPAL_POINTS ::
     if has_distortion camera_model_to_calibrate then [RADIAL_DISTORTION] else []).

End CalibrateCamera.

(** ** Outcome of running a [main] *)

Module Run.

Inductive outcome (A : Type) : Type :=
| Fatal (msg : string)   (** a [CHECK] failed: the message is logged and the process aborts *)
| Undefined              (** undefined behaviour *)
| Thrown (what : string) (** an exception left [main] *)
| Returned (a : A).      (** [main] reached a [return 0] *)
Arguments Fatal {A} msg.
Arguments Undefined {A}.
Arguments Thrown {A} what.
Arguments Returned {A} a.

Definition bind {A B : Type} (m : outcome A) (k : A -> outcome B) : outcome B :=
  match m with
  | Fatal msg => Fatal msg
  | Undefined => Undefined
  | Thrown w => Thrown w
  | Returned a => k a
  end.

#[global] Instance outcome_ret : MRet outcome := fun A a => Returned a.
#[global] Instance outcome_bind : MBind outcome := fun A B k m => bind m k.

(** [CHECK(Read...(path, out)) << msg]: the reader returns false ([None]) on
    a missing or unreadable file. *)
Definition CHECK {A : Type} (read : option A) (msg : string) : outcome A :=
  match read with
  | Some a => Returned a
  | None => Fatal msg
  end.

(** [CHECK(cond) << msg] *)
Definition CHECK_cond (cond : bool) (msg : string) : outcome unit :=
  if cond then Returned tt else Fatal msg.

(** A dereference or an indexing that is defined only when the value is
    there. *)
Definition defined {A : Type} (o : option A) : outcome A :=
  match o with
  | Some a => Returned a
  | None => Undefined
  end.

Definition is_fatal {A : Type} (o : outcome A) : bool :=
  match o with Fatal _ => true | _ => false end.

End Run.
Export Run.

(** ** The readers of OpenCameraCalibrator/utils and imu (headers only) *)

Module Readers.

(** [CameraTelemetryData]: each stream is a vector of samples and a vector
    of time stamps filled in lockstep; a sample is kept here with its time
    stamp, [(timestamp_ms[i], measurement[i])]. *)
Record CameraTelemetryData : Type := mkTelemetry {
  accelerometer : list (Q * Vec3);
  gyroscope : list (Q * Vec3)
}.

Record SplineWeightingData : Type := mkWeighting {
  dt_r3 : Q;
  dt_so3 : Q;
  var_r3 : Q;
  var_so3 : Q
}.

(** What each reader returns for a path: [None] when it returns false. The
    initial rotation [imu2cam] is kept as its rotation matrix. *)
Record Files : Type := mkFiles {
  (** gyroscope bias, accelerometer bias *)
  ReadIMUBias : string -> option (Vec3 * Vec3);
  ReadReconstruction : string -> option Reconstruction;
  ReadGoProTelemetry : string -> option CameraTelemetryData;
  (** [imu2cam], [time_offset_imu_to_cam] *)
  ReadIMU2CamInit : string -> option (Mat3 * Q);
  ReadSplineErrorWeighting : string -> option SplineWeightingData;
  (** [ReadDetectorParameters]: only success matters here *)
  ReadDetectorParameters : string -> bool
}.

End Readers.
Export Readers.

(** ** applications/continuous_time_imu_to_camera_calibration_new.cc *)

Module ContinuousTime.

Record Flags : Type := mkFlags {
  FLAGS_gopro_telemetry_json : string;
  FLAGS_input_calibration_dataset : string;
  FLAGS_gyro_to_cam_initial_calibration : string;
  FLAGS_imu_bias_file : string;
  FLAGS_spline_error_weighting_json : string;
  FLAGS_output_path : string;
  FLAGS_max_t : Q
}.

(** [TimeCamId]: frame id in nanoseconds, camera id. *)
Definition TimeCamId : Type := Z * Z.

Record CalibCornerData : Type := mkCornerData {
  corners : list Feature;
  track_ids : list TrackId
}.

Record CalibInitPoseData : Type := mkInitPose { T_a_c : SE3 }.

(** The spline order. *)
Definition N : Z := 5.

(** *** Time window *)

(** [std::minmax_element]: the first smallest and the last largest element.
    [None] on an empty range, where the source indexes [timestamps] out of
    range. *)
Fixpoint minmax_from (mn mx : Q) (l : list Q) : Q * Q :=
  match l with
  | [] => (mn, mx)
  | x :: l' =>
      minmax_from (if Qltb x mn then x else mn)
                  (if Qltb x mx then mx else x) l'
  end.

Definition minmax_element (l : list Q) : option (Q * Q) :=
  match l with
  | [] => None
  | x :: l' => Some (minmax_from x x l')
  end.

(** The guard of line 123, negated: the view is used. *)
Definition pose_in_window (t0 tend timestamp : Q) : bool :=
  negb (Qgeb timestamp tend || Qltb timestamp t0).

(** The time stamp handed to the spline for an IMU sample (lines 218, 232). *)
Definition imu_time (timestamp_ms time_offset_imu_to_cam : Q) : Q :=
  ((timestamp_ms / inject_Z 1000 + time_offset_imu_to_cam) * e9)%Q.

(** The guard of lines 220 and 234, negated: the sample is used. *)
Definition sample_in_window (start_t_ns end_t_ns : Z) (t : Q) : bool :=
  negb (Qltb t (of_int64 start_t_ns) || Qgeb t (of_int64 end_t_ns)).

(** The guard of line 198. *)
Definition frame_in_window (start_t_ns end_t_ns : Z) (frame_id : Z) : bool :=
  (start_t_ns <=? frame_id) && (frame_id <? end_t_ns).

(** *** The corner and pose tables (lines 118-138) *)

Definition corner_data_of (v : View) : option CalibCornerData :=
  let trackIds := ViewTrackIds v in
  cs ← mapM (GetFeature v) trackIds;
  Some (mkCornerData cs trackIds).

Definition pose_data_of (v : View) : CalibInitPoseData :=
  mkInitPose (mkSE3 (transpose (cam_orientation (view_camera v)))
                    (cam_position (view_camera v))).

Definition key_of (timestamp : Q) : TimeCamId := (to_int64 (timestamp * e9), 0).

Fixpoint fill_tables (t0 tend : Q) (views : list (ViewId * View))
         (calib_corners : gmap TimeCamId CalibCornerData)
         (calib_init_poses : gmap TimeCamId CalibInitPoseData)
  : option (gmap TimeCamId CalibCornerData * gmap TimeCamId CalibInitPoseData) :=
  match views with
  | [] => Some (calib_corners, calib_init_poses)
  | (_, view) :: rest =>
      let timestamp := view_timestamp view in
      if pose_in_window t0 tend timestamp then
        let t_c_id := key_of timestamp in
        corner_data ← corner_data_of view;
        fill_tables t0 tend rest
                    (<[t_c_id := corner_data]> calib_corners)
                    (<[t_c_id := pose_data_of view]> calib_init_poses)
      else fill_tables t0 tend rest calib_corners calib_init_poses
  end.

(** *** Gravity (lines 140-171) *)

(** [g_initialized] and [g_a_init].  A default-constructed Eigen vector has
    indeterminate content: [None]. *)
Record GravityInit : Type := mkGravityInit {
  g_initialized : bool;
  g_a_init : option Vec3
}.

Definition gravity_start : GravityInit := mkGravityInit false None.

Definition within_tolerance (accl_t_ns timestamp_ns : Z) : bool :=
  Z.abs (accl_t_ns - timestamp_ns) <? 3000000.

(** The inner loop over the accelerometer samples; it stops at the first
    sample inside the tolerance. *)
Fixpoint scan_accel (T_a_i : SE3) (accl_bias : Vec3) (timestamp_ns : Z)
         (samples : list (Q * Vec3)) (st : GravityInit) : GravityInit :=
  match samples with
  | [] => st
  | (timestamp_ms, acc) :: rest =>
      if g_initialized st then st
      else
        let ad := vadd acc accl_bias in
        let accl_t_ns := to_int64 (timestamp_ms * e9) in
        if within_tolerance accl_t_ns timestamp_ns
        then mkGravityInit true (Some (mat_vec (so3 T_a_i) ad))
        else scan_accel T_a_i accl_bias timestamp_ns rest st
  end.

(** The outer loop over all time stamps. *)
Fixpoint seed_gravity (T_i_c_init : SE3) (accl_bias : Vec3)
         (calib_init_poses : gmap TimeCamId CalibInitPoseData)
         (samples : list (Q * Vec3))
         (timestamps : list Q) (st : GravityInit) : GravityInit :=
  match timestamps with
  | [] => st
  | timestamp :: rest =>
      let timestamp_ns := to_int64 (timestamp * e9) in
      let st' :=
        match calib_init_poses !! (timestamp_ns, 0) with
        | Some pose =>
            let T_a_i := se3_mul (T_a_c pose) (se3_inverse T_i_c_init) in
            if g_initialized st then st
            else scan_accel T_a_i accl_bias timestamp_ns samples st
        | None => st
        end in
      seed_gravity T_i_c_init accl_bias calib_init_poses samples rest st'
  end.

(** *** Knot counts (lines 177-178) *)

Definition num_knots (start_t_ns end_t_ns dt_ns : Z) : Z :=
  to_int (Z.quot (end_t_ns - start_t_ns) dt_ns + N).

(** The knot count in the words of the specification:
    ceil((endTime - startTime) / dt) + order. *)
Definition spec_num_knots (startTime endTime dt : Q) : Z :=
  Qceiling ((endTime - startTime) / dt) + N.

(** Rounded-up quotient of integers. *)
Definition ceil_div (a b : Z) : Z := - ((- a) / b).

(** *** The estimator object, as [main] sets it up

    [CeresCalibrationSplineSplit<N>] belongs to basalt_spline, which is not
    part of the three applications.  The object is represented by what
    [main] hands to it. *)

Record CornersMeasurement : Type := mkCornersMeasurement {
  cm_corners : CalibCornerData;
  cm_camera : Camera;
  cm_cam_id : Z;
  cm_frame_id : Z
}.

Record ImuMeasurement : Type := mkImuMeasurement {
  im_value : Vec3;
  im_time : Q;
  im_variance : Q
}.

Record CalibSpline : Type := mkCalibSpline {
  cs_dt_so3_ns : Z;
  cs_dt_r3_ns : Z;
  cs_start_t_ns : Z;
  cs_calib : Reconstruction;
  cs_T_i_c : SE3;
  (** the argument of [setG]; [None] is an indeterminate vector *)
  cs_g : option Vec3;
  cs_T_w_i_init : SE3;
  cs_num_knots_so3 : Z;
  cs_num_knots_r3 : Z;
  cs_corners : list CornersMeasurement;
  cs_accel : list ImuMeasurement;
  cs_gyro : list ImuMeasurement
}.

(** What [main] has built when it calls [optimize()] and then returns 0. *)
Record Result : Type := mkResult {
  calib_spline : CalibSpline;
  gravity_init : GravityInit;
  num_gyro : Z;
  num_accel : Z;
  num_corner : Z;
  num_frames : Z
}.

(** The loop over [calib_corners] (lines 197-212). *)
Definition add_corners (calib_dataset : Reconstruction) (start_t_ns end_t_ns : Z)
           (calib_corners : list (TimeCamId * CalibCornerData))
  : outcome (list CornersMeasurement) :=
  let used := filter (fun kv => frame_in_window start_t_ns end_t_ns (fst (fst kv)) = true)
                     calib_corners in
  match used with
  | [] => Returned []
  | _ :: _ =>
      view0 ← defined (GetView calib_dataset 0);
      Returned (map (fun kv => mkCornersMeasurement (snd kv) (view_camera view0)
                                                   (snd (fst kv)) (fst (fst kv)))
                    used)
  end.

(** The loops over the accelerometer and the gyroscope samples
    (lines 215-241). *)
Definition add_imu (bias : Vec3) (time_offset_imu_to_cam : Q) (variance : Q)
           (start_t_ns end_t_ns : Z) (samples : list (Q * Vec3))
  : list ImuMeasurement :=
  map (fun s => mkImuMeasurement (vadd (snd s) bias)
                                 (imu_time (fst s) time_offset_imu_to_cam)
                                 variance)
      (filter (fun s => sample_in_window start_t_ns end_t_ns
                          (imu_time (fst s) time_offset_imu_to_cam) = true)
              samples).

Definition sum_track_ids (l : list CornersMeasurement) : Z :=
  foldr (fun m acc => Z.of_nat (length (track_ids (cm_corners m))) + acc) 0 l.

(** *** [main] *)

Definition main (fs : Files) (FLAGS : Flags) : outcome Result :=
  '(gyro_bias, accl_bias) ←
     CHECK (ReadIMUBias fs (FLAGS_imu_bias_file FLAGS))
           ("Could not open " +:+ FLAGS_imu_bias_file FLAGS);
  calib_dataset ←
     CHECK (ReadReconstruction fs (FLAGS_input_calibration_dataset FLAGS))
           "Could not read Reconstruction file.";
  telemetry_data ←
     CHECK (ReadGoProTelemetry fs (FLAGS_gopro_telemetry_json FLAGS))
           ("Could not read: " +:+ FLAGS_gopro_telemetry_json FLAGS);
  '(imu2cam, time_offset_imu_to_cam) ←
     CHECK (ReadIMU2CamInit fs (FLAGS_gyro_to_cam_initial_calibration FLAGS))
           ("Could not read: " +:+ FLAGS_gyro_to_cam_initial_calibration FLAGS);
  let T_i_c_init := mkSE3 (transpose imu2cam) vzero in
  _ ← CHECK_cond (negb (String.eqb (FLAGS_spline_error_weighting_json FLAGS) ""))
        "You need to provide spline error weighting factors. Create with get_sew_for_dataset.py.";
  weight_data ←
     CHECK (ReadSplineErrorWeighting fs (FLAGS_spline_error_weighting_json FLAGS))
           ("Could not open " +:+ FLAGS_spline_error_weighting_json FLAGS);
  (* imu_update_rate_hz reads timestamp_ms[1] and timestamp_ms[0] *)
  _ ← defined (accelerometer telemetry_data !! 1%nat);
  let timestamps := map (fun iv => view_timestamp (snd iv)) (recon_views calib_dataset) in
  '(t0, tend) ← defined (minmax_element timestamps);
  let start_t_ns := to_int64 (t0 * e9) in
  let end_t_ns := to_int64 (tend * e9) in
  let dt_so3_ns := to_int64 (dt_so3 weight_data * e9) in
  let dt_r3_ns := to_int64 (dt_r3 weight_data * e9) in
  '(calib_corners, calib_init_poses) ←
     defined (fill_tables t0 tend (recon_views calib_dataset) ∅ ∅);
  let g := seed_gravity T_i_c_init accl_bias calib_init_poses
                        (accelerometer telemetry_data) timestamps gravity_start in
  (* calib_spline.setG(g_a_init), whatever g_initialized is *)
  pose_init ←
     match calib_init_poses !! (to_int64 t0, 0) with
     | Some p => Returned p
     | None => Thrown "std::out_of_range"
     end;
  let T_w_i_init := se3_mul (T_a_c pose_init) (se3_inverse T_i_c_init) in
  _ ← defined (if (dt_so3_ns =? 0) || (dt_r3_ns =? 0) then None else Some tt);
  let num_knots_so3 := num_knots start_t_ns end_t_ns dt_so3_ns in
  let num_knots_r3 := num_knots start_t_ns end_t_ns dt_r3_ns in
  cms ← add_corners calib_dataset start_t_ns end_t_ns (map_to_list calib_corners);
  let accel := add_imu accl_bias time_offset_imu_to_cam (var_r3 weight_data)
                       start_t_ns end_t_ns (accelerometer telemetry_data) in
  let gyro := add_imu gyro_bias time_offset_imu_to_cam (var_so3 weight_data)
                      start_t_ns end_t_ns (gyroscope telemetry_data) in
  Returned
    (mkResult
       (mkCalibSpline dt_so3_ns dt_r3_ns start_t_ns calib_dataset T_i_c_init
                      (g_a_init g) T_w_i_init num_knots_so3 num_knots_r3
                      cms accel gyro)
       g
       (Z.of_nat (length gyro)) (Z.of_nat (length accel))
       (sum_track_ids cms) (Z.of_nat (length cms))).

End ContinuousTime.

(** ** The spline trajectory and its estimator

    OpenCameraCalibrator/spline (trajectories, measurements, sfm and the
    trajectory estimator) is included by create_imu_camera_charuco.cc but is
    not among the three applications.  The definitions of this module follow
    the specification of the knot store and of the joint estimator. *)

Module Kontiki.

Record Quat : Type := mkQuat { qw : Q; qx : Q; qy : Q; qz : Q }.

Section Spline.

(** The type of a control point: a position or an orientation. *)
Context {K : Type}.

(** Modelled from the spec: the knot store of one uniform spline (class
    template of spline_base.h, absent) is an append-only sequence of
    control points with a fixed spacing, a start time and an order. *)
Record Spline : Type := mkSpline {
  sp_order : nat;
  sp_dt : Q;
  sp_t0 : Q;
  sp_knots : list K
}.

(** Modelled from the spec: the knot count (absent NumKnots). *)
Definition NumKnots (s : Spline) : nat := length (sp_knots s).

(** Modelled from the spec: the domain of a spline (absent MinTime and
    MaxTime) is such that ceil((end - start) / dt) + order knots are the
    least number that covers [start, end]: with n knots the domain ends
    at t0 + dt * (n - order). *)
Definition domain_end (s : Spline) : Q :=
  (sp_t0 s + sp_dt s * inject_Z (Z.of_nat (NumKnots s) - Z.of_nat (sp_order s)))%Q.

(** Modelled from the spec: the domain covers [time] when [time] is not
    after its end (absent MaxTime). *)
Definition covers (s : Spline) (time : Q) : bool := Qle_bool time (domain_end s).

(** Modelled from the spec: knots are appended at the end (absent
    AppendKnot). *)
Definition AppendKnot (s : Spline) (k : K) : Spline :=
  mkSpline (sp_order s) (sp_dt s) (sp_t0 s) (sp_knots s ++ [k]).

(** Modelled from the spec: ExtendTo (spline_base.h, absent) appends
    knots until the domain covers [time]. *)
Fixpoint extend_loop (fuel : nat) (time : Q) (defaultValue : K) (s : Spline) : Spline :=
  if covers s time then s
  else match fuel with
       | O => s
       | S fuel' => extend_loop fuel' time defaultValue (AppendKnot s defaultValue)
       end.

(** Modelled from the spec: the number of knots that are missing for
    [time] (absent ExtendTo); the loop needs no more steps when the spacing
    is positive. *)
Definition knots_missing (s : Spline) (time : Q) : nat :=
  Z.to_nat (Qceiling ((time - domain_end s) / sp_dt s)).

(** Modelled from the spec: ExtendTo (spline_base.h, absent), the loop run
    for as long as knots are missing. *)
Definition ExtendTo (s : Spline) (time : Q) (defaultValue : K) : Spline :=
  extend_loop (knots_missing s time) time defaultValue s.

(** Modelled from the spec: the times at which the spline (absent
    MinTime, MaxTime) can be evaluated. *)
Definition in_domain (s : Spline) (t : Q) : bool :=
  Qle_bool (sp_t0 s) t && Qle_bool t (domain_end s).

(** Modelled from the spec: the first knot of the window next to [t]
    (absent evaluation code). *)
Definition knot_index (s : Spline) (t : Q) : Z := Qfloor ((t - sp_t0 s) / sp_dt s).

(** Modelled from the spec: the [order] knots that are blended (absent
    evaluation code). *)
Definition window (s : Spline) (i : nat) : list K :=
  take (sp_order s) (drop i (sp_knots s)).

(** Modelled from the spec: evaluation (absent Evaluate of the spline
    classes) blends the [order] knots next to [t] and is rejected outside
    the domain.  The blending itself is a parameter. *)
Definition Evaluate {P : Type} (blend : Q -> list K -> P) (s : Spline) (t : Q) : option P :=
  if in_domain s t then
    let i := knot_index s t in
    let u := ((t - sp_t0 s) / sp_dt s - inject_Z i)%Q in
    Some (blend u (window s (Z.to_nat i)))
  else None.

End Spline.
Arguments Spline K : clear implicits.

(** Modelled from the spec: the trajectory (split_trajectory.h, absent) is
    a position spline and an orientation spline. *)
Record Trajectory : Type := mkTrajectory {
  r3_spline : Spline Vec3;
  so3_spline : Spline Quat
}.

(** Modelled from the spec: EvaluatePose (absent) gives the position and
    the orientation at [t], and is rejected outside the domain of either
    spline. *)
Definition EvaluatePose (blend_r3 : Q -> list Vec3 -> Vec3)
           (blend_so3 : Q -> list Quat -> Quat) (tr : Trajectory) (t : Q)
  : option (Vec3 * Quat) :=
  p ← Evaluate blend_r3 (r3_spline tr) t;
  q ← Evaluate blend_so3 (so3_spline tr) t;
  Some (p, q).

(** Modelled from the spec: ExtendTo on both splines of a trajectory, each
    with its default value. *)
Definition TrajectoryExtendTo (tr : Trajectory) (time : Q) (p : Vec3) (q : Quat) : Trajectory :=
  mkTrajectory (ExtendTo (r3_spline tr) time p) (ExtendTo (so3_spline tr) time q).

(** *** Landmarks, views and observations *)

(** Modelled from the spec: an observation (ObservationXYZ of sfm.h,
    absent) binds a pixel location to a view and a landmark.  It refers to
    its landmark by the position of the landmark in [kontiki_landmarks] (a
    shared pointer in the source). *)
Record Observation : Type := mkObservation {
  obs_view : ViewId;
  obs_landmark : nat;
  obs_uv : Feature
}.

(** Modelled from the spec: a landmark (LandmarkXYZ of sfm.h, absent) is a
    3D point that can be locked, with its observations and its reference
    observation. *)
Record Landmark : Type := mkLandmark {
  lm_point : Vec4;
  lm_locked : bool;
  lm_observations : list Observation;
  lm_reference : option Observation
}.

(** Modelled from the spec: the setters of a landmark (LandmarkXYZ of
    sfm.h, absent) change the one field they name. *)
Definition set_point (l : Landmark) (p : Vec4) : Landmark :=
  mkLandmark p (lm_locked l) (lm_observations l) (lm_reference l).
(** Modelled from the spec: Lock (absent) sets the lock of a landmark. *)
Definition Lock (l : Landmark) (b : bool) : Landmark :=
  mkLandmark (lm_point l) b (lm_observations l) (lm_reference l).
(** Modelled from the spec: set_reference (absent) names the reference
    observation. *)
Definition set_reference (l : Landmark) (o : Observation) : Landmark :=
  mkLandmark (lm_point l) (lm_locked l) (lm_observations l) (Some o).
(** Modelled from the spec: a new observation (absent CreateObservation)
    is entered last in the observations of its landmark. *)
Definition add_observation (l : Landmark) (o : Observation) : Landmark :=
  mkLandmark (lm_point l) (lm_locked l) (lm_observations l ++ [o]) (lm_reference l).
(** Modelled from the spec: a new landmark (absent default constructor of
    LandmarkXYZ) is not locked and has no observation. *)
Definition new_landmark : Landmark := mkLandmark (mkVec4 0 0 0 0) false [] None.

(** Modelled from the spec: a view of the estimator (ViewXYZ of sfm.h,
    absent) is a time stamp with the observations made in it. *)
Record ViewKontiki : Type := mkViewKontiki {
  vk_view_id : ViewId;
  vk_t0 : Q;
  vk_observations : list Observation
}.

(** *** The estimator *)

Section Estimator.

(** The optimised state, the measurements, and the accumulator to which
    every measurement contributes (residuals and Jacobians). *)
Context {State Measurement Acc : Type}.

Variable acc_zero : Acc.
Variable acc_add : Acc -> Acc -> Acc.
(** what one measurement contributes, read from a snapshot of the state *)
Variable contribution : State -> Measurement -> Acc.
(** the residual-improvement threshold *)
Variable converged : State -> Acc -> bool.
(** the single state-update step of one iteration *)
Variable update : State -> Acc -> State.

(** Modelled from the spec: the trajectory estimator
    (trajectory_estimator.h, absent) keeps the registered measurements. *)
Record Estimator : Type := mkEstimator {
  est_state : State;
  est_measurements : list Measurement
}.

(** Modelled from the spec: AddMeasurement (absent) registers one
    residual against the shared state. *)
Definition AddMeasurement (e : Estimator) (m : Measurement) : Estimator :=
  mkEstimator (est_state e) (est_measurements e ++ [m]).

(** Modelled from the spec: in each iteration of Optimize / Solve (absent)
    every measurement is evaluated against a snapshot of the state into a
    private accumulator, and the accumulators are summed. *)
Definition reduce (st : State) (ms : list Measurement) : Acc :=
  foldr (fun m a => acc_add (contribution st m) a) acc_zero ms.

(** Modelled from the spec: the iterations of Optimize / Solve (absent):
    one update of the state follows each reduction, until the improvement
    threshold is met or [maxIterations] is used up. *)
Fixpoint iterate (maxIterations : nat) (ms : list Measurement) (st : State) : State :=
  match maxIterations with
  | O => st
  | S n =>
      let a := reduce st ms in
      if converged st a then st else iterate n ms (update st a)
  end.

(** Modelled from the spec: Optimize / Solve (trajectory_estimator.h,
    absent) iterates on the state with the registered measurements. *)
Definition Solve (maxIterations : nat) (e : Estimator) : Estimator :=
  mkEstimator (iterate maxIterations (est_measurements e) (est_state e))
              (est_measurements e).

End Estimator.
Arguments Estimator State Measurement : clear implicits.

(** Modelled from the spec: a locked landmark is known and is not
    re-estimated.  Whatever an update step proposes for the landmarks, the
    locked ones keep their value (lock handling of the absent estimator). *)
Fixpoint keep_locked (old proposed : list Landmark) : list Landmark :=
  match old, proposed with
  | [], _ => []
  | o :: old', [] => o :: keep_locked old' []
  | o :: old', p :: proposed' =>
      (if lm_locked o then o else p) :: keep_locked old' proposed'
  end.

End Kontiki.

(** ** applications/create_imu_camera_charuco.cc *)

Module Charuco.

Import Kontiki.

Record Flags : Type := mkFlags {
  FLAGS_gopro_telemetry_json : string;
  FLAGS_input_video : string;
  FLAGS_detector_params : string;
  FLAGS_downsample_factor : Q;
  FLAGS_input_calibration_dataset : string
}.

(** The literal [0.1]: the double nearest to 1/10. *)
Definition tenth : Q := double (1 # 10).

Definition dt_r3 : Q := tenth.
Definition dt_so3 : Q := tenth.

(** Modelled from the spec: the order of both splines (a template
    parameter of the absent spline classes) is N = 5. *)
Definition spline_order : nat := 5.

(** [PinholeCameraClass(img_width, img_height, 0.00, K)]; the image size is
    indeterminate ([None]) when no observation was created. *)
Record PinholeCamera : Type := mkPinholeCamera {
  pc_width : option Z;
  pc_height : option Z;
  pc_readout : Q;
  (** the camera whose calibration matrix K is taken *)
  pc_K_of : Camera;
  pc_lock_relative_orientation : bool;
  pc_lock_relative_position : bool
}.

(** [StaticRsCameraMeasurementXYZ<PinholeCamera>(cam_kontiki, observation)] *)
Record CamMeasurementPinhole : Type := mkCamMeasurement {
  meas_camera : PinholeCamera;
  meas_observation : Observation
}.

(** What the estimator optimises, and what the objects it shares with
    [main] hold. *)
Record State : Type := mkState {
  st_trajectory : Trajectory;
  st_landmarks : list Landmark
}.

(** *** The views (lines 226-234) *)

(** The test of line 232; the two margins are computed in doubles. *)
Definition view_in_window (t0 tend timestamp : Q) : bool :=
  negb (Qgeb timestamp (fsub tend (dmax dt_so3 dt_r3))
        || Qltb timestamp (fadd t0 (dmax dt_so3 dt_r3))).

Fixpoint make_views (t0 tend : Q) (views : list (ViewId * View))
         (kontiki_views : gmap ViewId ViewKontiki) : gmap ViewId ViewKontiki :=
  match views with
  | [] => kontiki_views
  | (view_id, view) :: rest =>
      let timestamp := view_timestamp view in
      make_views t0 tend rest
        (if view_in_window t0 tend timestamp
         then <[view_id := mkViewKontiki view_id timestamp []]> kontiki_views
         else kontiki_views)
  end.

(** *** The landmarks (lines 236-282) *)

Record Build : Type := mkBuild {
  kontiki_views : gmap ViewId ViewKontiki;
  kontiki_landmarks : list Landmark;
  img_width : option Z;
  img_height : option Z
}.

(** The first loop over [views_observing_track]. *)
Definition count_views (kv : gmap ViewId ViewKontiki) (views_observing_track : list ViewId) : nat :=
  length (filter (fun view_id => is_Some (kv !! view_id)) views_observing_track).

(** Modelled from the spec: CreateObservation (ViewXYZ of sfm.h, absent)
    makes the corner observation of a track in a view, a pixel location
    bound to the view and to the landmark.  It is taken to enter the new
    observation in both, where lines 286 and 324 read it back
    ([observations()] of a landmark and of a view). *)
Definition CreateObservation (b : Build) (vk : ViewKontiki) (idx : nat) (feature : Feature)
  : Build :=
  let o := mkObservation (vk_view_id vk) idx feature in
  mkBuild (<[vk_view_id vk :=
               mkViewKontiki (vk_view_id vk) (vk_t0 vk) (vk_observations vk ++ [o])]>
             (kontiki_views b))
          (alter (fun l => add_observation l o) idx (kontiki_landmarks b))
          (img_width b) (img_height b).

(** The second loop over [views_observing_track], for the landmark at
    position [idx]. *)
Fixpoint observe (recon : Reconstruction) (track_id : TrackId) (idx : nat)
         (views_observing_track : list ViewId) (b : Build) : option Build :=
  match views_observing_track with
  | [] => Some b
  | view_id :: rest =>
      view ← GetView recon view_id;
      feature ← GetFeature view track_id;
      match kontiki_views b !! view_id with
      | None => observe recon track_id idx rest b
      | Some vk =>
          let b' := CreateObservation b vk idx feature in
          observe recon track_id idx rest
                  (mkBuild (kontiki_views b') (kontiki_landmarks b')
                           (Some (cam_image_width (view_camera view)))
                           (Some (cam_image_height (view_camera view))))
      end
  end.

(** The loop over the tracks. *)
Fixpoint make_landmarks (recon : Reconstruction) (tracks : list (TrackId * Track))
         (b : Build) : option Build :=
  match tracks with
  | [] => Some b
  | (track_id, track) :: rest =>
      let views_observing_track := track_views track in
      if (2 <=? count_views (kontiki_views b) views_observing_track)%nat then
        (* we know our landmarks for calibration and lock them! *)
        let idx := length (kontiki_landmarks b) in
        let landmark := Lock (set_point new_landmark (track_point track)) true in
        b' ← observe recon track_id idx views_observing_track
               (mkBuild (kontiki_views b) (kontiki_landmarks b ++ [landmark])
                        (img_width b) (img_height b));
        make_landmarks recon rest b'
      else make_landmarks recon rest b
  end.

(** A landmark is locked and carries the point of one of [tracks]. *)
Definition locked_track_point (tracks : list (TrackId * Track)) (l : Landmark) : Prop :=
  lm_locked l = true /\
  exists t, In t tracks /\ lm_point l = track_point (snd t).

(** [l->set_reference(l->observations()[0])] for every landmark. *)
Definition set_references (ls : list Landmark) : option (list Landmark) :=
  mapM (fun l => o ← head (lm_observations l); Some (set_reference l o)) ls.

(** *** The measurements (lines 319-331) *)

Definition measurements_of (cam_kontiki : PinholeCamera)
           (views : list (ViewId * ViewKontiki)) : list CamMeasurementPinhole :=
  flat_map (fun it => map (mkCamMeasurement cam_kontiki) (vk_observations (snd it))) views.

Section Main.

(** The parameters of the estimator of [Kontiki]. *)
Context {Acc : Type}.
Variable acc_zero : Acc.
Variable acc_add : Acc -> Acc -> Acc.
Variable contribution : State -> CamMeasurementPinhole -> Acc.
Variable converged : State -> Acc -> bool.
(** what an iteration proposes as the next state *)
Variable propose : State -> Acc -> State.

(** Modelled from the spec: the update of one iteration of Solve
    (trajectory_estimator.h, absent).  The landmark set is treated as known
    and locked (not re-estimated): of what the step proposes, the locked
    landmarks are not taken. *)
Definition update (st : State) (a : Acc) : State :=
  let p := propose st a in
  mkState (st_trajectory p) (keep_locked (st_landmarks st) (st_landmarks p)).

Definition TrajEstimator : Type := Estimator State CamMeasurementPinhole.

Definition register (e : TrajEstimator) (ms : list CamMeasurementPinhole) : TrajEstimator :=
  foldl AddMeasurement e ms.

(** The splines are shared between [main] and the estimator: extending
    them changes the state the estimator works on. *)
Definition extend_shared (e : TrajEstimator) (time : Q) : TrajEstimator :=
  mkEstimator
    (mkState (TrajectoryExtendTo (st_trajectory (est_state e)) time
                                 (mkVec3 0 0 0) (mkQuat 1 0 0 0))
             (st_landmarks (est_state e)))
    (est_measurements e).

Record Result : Type := mkResult {
  (** what was written to [std::cout] and [std::cerr] before the
      trajectory is set up *)
  printed : list string;
  (** the estimator after [Solve(100)], when [main] got that far *)
  solved : option TrajEstimator
}.

(** [main].  Lines 111-202 (board, video decoding, corner detection and
    the filling of [recon_calib_dataset] through Theia's interface) are
    OpenCV and Theia code; the reconstruction they leave is the argument
    [recon_calib_dataset]. *)
Definition main (fs : Files) (FLAGS : Flags) (recon_calib_dataset : Reconstruction)
  : outcome Result :=
  cam_calib_recon ←
    CHECK (ReadReconstruction fs (FLAGS_input_calibration_dataset FLAGS))
          "Could not read Reconstruction file.";
  let out1 :=
    match ReadGoProTelemetry fs (FLAGS_gopro_telemetry_json FLAGS) with
    | Some _ => []
    | None => ["Could not read: " +:+ FLAGS_gopro_telemetry_json FLAGS]
    end in
  if negb (ReadDetectorParameters fs (FLAGS_detector_params FLAGS)) then
    Returned (mkResult (out1 ++ ["Invalid detector parameters file"]) None)
  else
    let timestamps :=
      map (fun iv => view_timestamp (snd iv)) (recon_views recon_calib_dataset) in
    '(t0, tend) ← defined (ContinuousTime.minmax_element timestamps);
    let kv := make_views t0 tend (recon_views recon_calib_dataset) ∅ in
    b ← defined (make_landmarks recon_calib_dataset (recon_tracks recon_calib_dataset)
                                (mkBuild kv [] None None));
    landmarks ← defined (set_references (kontiki_landmarks b));
    view_1 ← defined (GetView cam_calib_recon 0);
    let cam_kontiki :=
      mkPinholeCamera (img_width b) (img_height b) 0 (view_camera view_1) true true in
    let r3_traj_spline :=
      ExtendTo (mkSpline spline_order dt_r3 0 []) tend (mkVec3 0 0 0) in
    let so3_traj_spline :=
      ExtendTo (mkSpline spline_order dt_so3 0 []) tend (mkQuat 1 0 0 0) in
    let e0 : TrajEstimator :=
      mkEstimator (mkState (mkTrajectory r3_traj_spline so3_traj_spline) landmarks) [] in
    let e1 := register e0 (measurements_of cam_kontiki (map_to_list (kontiki_views b))) in
    let e2 := extend_shared e1 (dmax t0 (fadd tend tenth)) in
    Returned
      (mkResult out1 (Some (Solve acc_zero acc_add contribution converged update 100 e2))).

End Main.

End Charuco.

(** ** Small inputs, used to run the definitions *)

Module Demo.

Definition camera : Camera := mkCamera mat_id vzero [] 640 480.

Definition features : list (TrackId * Feature) :=
  [(0, mkVec2 1 1); (1, mkVec2 2 1)].

(** Three views, at 0 s, 1 s and 2 s, that all see the two tracks. *)
Definition views : list (ViewId * View) :=
  [(0, mkView 0 features camera);
   (1, mkView 1 features camera);
   (2, mkView 2 features camera)].

Definition tracks : list (TrackId * Track) :=
  [(0, mkTrack (mkVec4 0 0 0 1) [0; 1; 2]);
   (1, mkTrack (mkVec4 2 0 0 1) [0; 1; 2])].

Definition recon : Reconstruction := mkReconstruction views tracks.

(** A view without observations. *)
Definition recon_empty_view : Reconstruction :=
  mkReconstruction [(0, mkView 0 [] camera)] tracks.

(** A projection and a norm to run [GetReprojErrorOfView] with. *)
Definition project (_ : Camera) (p : Vec4) : Vec2 := mkVec2 (v4x p) (v4y p).
Definition norm1 (v : Vec2) : Q := (Qabs (v2x v) + Qabs (v2y v))%Q.

Definition accl_bias : Vec3 := mkVec3 (1 # 10) 0 0.
Definition gyro_bias : Vec3 := vzero.

(** One accelerometer sample 1 ms after the first pose. *)
Definition telemetry_near : CameraTelemetryData :=
  mkTelemetry [(1 # 1000, mkVec3 0 0 (981 # 100)); (1 # 2, mkVec3 0 0 (981 # 100))]
              [(1 # 1000, vzero); (1 # 2, vzero)].

(** No accelerometer sample within 3 ms of a pose. *)
Definition telemetry_far : CameraTelemetryData :=
  mkTelemetry [(1 # 2, mkVec3 0 0 (981 # 100)); (3 # 2, mkVec3 0 0 (981 # 100))]
              [(1 # 2, vzero); (3 # 2, vzero)].

Definition weighting : SplineWeightingData :=
  mkWeighting (1 # 10) (1 # 10) 1 1.

(** Every artifact can be read. *)
Definition files (telemetry : CameraTelemetryData) : Files :=
  mkFiles (fun _ => Some (gyro_bias, accl_bias))
          (fun _ => Some recon)
          (fun _ => Some telemetry)
          (fun _ => Some (mat_id, 0%Q))
          (fun _ => Some weighting)
          (fun _ => true).

(** The telemetry file cannot be read. *)
Definition files_without_telemetry : Files :=
  mkFiles (fun _ => Some (gyro_bias, accl_bias))
          (fun _ => Some recon)
          (fun _ => None)
          (fun _ => Some (mat_id, 0%Q))
          (fun _ => Some weighting)
          (fun _ => true).

(** The tables [main] fills from [views], whose window is [0 s, 2 s). *)
Definition corner_table : gmap ContinuousTime.TimeCamId ContinuousTime.CalibCornerData :=
  match ContinuousTime.fill_tables 0 2 views ∅ ∅ with
  | Some (cc, _) => cc
  | None => ∅
  end.

Definition init_poses : gmap ContinuousTime.TimeCamId ContinuousTime.CalibInitPoseData :=
  match ContinuousTime.fill_tables 0 2 views ∅ ∅ with
  | Some (_, cp) => cp
  | None => ∅
  end.

Definition flags : ContinuousTime.Flags :=
  ContinuousTime.mkFlags "telemetry.json" "calib.calibdata" "imu2cam.json"
                         "bias.json" "sew.json" "out" 1000.

Definition charuco_flags : Charuco.Flags :=
  Charuco.mkFlags "telemetry.json" "video.mp4" "detector.yaml" (5 # 2) "calib.calibdata".

(** Views named 0.0, 0.1, ..., 0.5 for the charuco application; the time
    stamp of a view is the double its name reads as. *)
Definition charuco_views : list (ViewId * View) :=
  [(0, mkView 0 features camera);
   (1, mkView (double (1 # 10)) features camera);
   (2, mkView (double (2 # 10)) features camera);
   (3, mkView (double (3 # 10)) features camera);
   (4, mkView (double (4 # 10)) features camera);
   (5, mkView (double (5 # 10)) features camera)].

Definition charuco_tracks : list (TrackId * Track) :=
  [(0, mkTrack (mkVec4 0 0 0 1) [0; 1; 2; 3; 4; 5]);
   (1, mkTrack (mkVec4 2 0 0 1) [0; 1; 2; 3; 4; 5])].

Definition charuco_recon : Reconstruction :=
  mkReconstruction charuco_views charuco_tracks.

(** A trajectory without knots, spacing 0.1 s, start at 0 s. *)
Definition trajectory : Kontiki.Trajectory :=
  Kontiki.mkTrajectory (Kontiki.mkSpline Charuco.spline_order (1 # 10) 0 [])
                       (Kontiki.mkSpline Charuco.spline_order (1 # 10) 0 []).

Definition measurement (landmark : nat) : Charuco.CamMeasurementPinhole :=
  Charuco.mkCamMeasurement
    (Charuco.mkPinholeCamera (Some 640) (Some 480) 0 camera true true)
    (Kontiki.mkObservation 0 landmark (mkVec2 1 1)).

(** An estimator over integers: a measurement contributes the index of its
    landmark, an iteration proposes to move every landmark. *)
Definition contribution (_ : Charuco.State) (m : Charuco.CamMeasurementPinhole) : Z :=
  Z.of_nat (Kontiki.obs_landmark (Charuco.meas_observation m)).
Definition converged (_ : Charuco.State) (_ : Z) : bool := false.
Definition propose (st : Charuco.State) (a : Z) : Charuco.State :=
  Charuco.mkState (Charuco.st_trajectory st)
    (map (fun l => Kontiki.set_point l (mkVec4 (inject_Z a) 0 0 1))
         (Charuco.st_landmarks st)).




End Demo.

(** ** applications/calibrate_camera.cc: [main] *)

Module Calibration.

Import CalibrateCamera.

Record Flags : Type := mkFlags {
  FLAGS_input_video : string;
  FLAGS_detector_params : string;
  FLAGS_camera_model_to_calibrate : string;
  FLAGS_downsample_factor : Q;
  FLAGS_save_path_calib_dataset : string;
  FLAGS_checker_size_m : Q;
  FLAGS_grid_size : Q;
  FLAGS_is_stablelized : bool
}.

Definition min_number_detected_corners : nat := 30.

(** What an initialiser of intrinsic_initializer.h (not among the
    applications) returns and writes for the correspondences of a frame. *)
Record InitResult : Type := mkInitResult {
  success_init : bool;
  (** [ransac_summary.inliers.size()] *)
  inliers : nat;
  rotation : Mat3;
  position : Vec3;
  focal_length : Q;
  radial_distortion : Q
}.

(** One turn of the loop over the video, as OpenCV, the initialisers and
    Theia answer in it. *)
Record Frame : Type := mkFrame {
  (** [inputVideo.read(image)] *)
  fr_read : bool;
  (** the position of the video in seconds, which names the view *)
  fr_timestamp : Q;
  (** the size of the image after the resize *)
  fr_cols : Z;
  fr_rows : Z;
  (** [charucoIds[i]] with [charucoCorners[i]] *)
  fr_charuco : list (Z * Vec2);
  (** the result of [initialize_pinhole_camera] *)
  fr_pinhole : InitResult;
  (** the result of [initialize_radial_undistortion_camera] *)
  fr_radial : InitResult;
  (** the id [AddView] returns; [None] is [kInvalidViewId], for which
      [MutableView] returns the null pointer *)
  fr_view_id : option ViewId;
  (** [(char)waitKey(1)] *)
  fr_key : Z
}.

(** [static_cast<int>] of a double. *)
Definition int_of_double (x : Q) : Z := Z.quot (Qnum x) (Zpos (Qden x)).

(** [a - b] on vectors. *)
Definition vsub (a b : Vec3) : Vec3 := vadd a (vneg b).

(** *** The reconstruction of the board (lines 166-180) *)

(** The corners of the board, each with the id [AddTrack] returned for it. *)
Definition Board : Type := list (TrackId * Vec3).

Definition board_tracks (board : Board) : list (TrackId * Track) :=
  map (fun tp => (fst tp, mkTrack (mkVec4 (v3x (snd tp)) (v3y (snd tp)) (v3z (snd tp)) 1) []))
      board.

(** [charuco_id_to_theia_track_id.find(id)]: the key of corner [i] is [i]. *)
Definition track_of (board : Board) (id : Z) : option TrackId :=
  if id <? 0 then None else fst <$> board !! Z.to_nat id.

(** *** The state of the loop (lines 182-193) *)

Record LoopState : Type := mkLoopState {
  recon_calib_dataset : Reconstruction;
  saved_poses : list Vec3;
  frame_cnt : nat;
  cnt_wrong : nat;
  ids_to_remove_after_init : gmap ViewId dbl
}.

Definition loop_start (board : Board) : LoopState :=
  mkLoopState (mkReconstruction [] (board_tracks board)) [] O O ∅.

Inductive LoopEnd : Type :=
| Break (st : LoopState)     (** the loop was left by a [break] *)
| Return0 (st : LoopState)   (** [return 0] for a camera model that does not exist *)
| LoopUndefined.             (** a null pointer or an end iterator was dereferenced *)

Inductive Step : Type :=
| Continue (st : LoopState)
| Stop (e : LoopEnd).

(** The choice of the initialiser (lines 273-295); [None] when the camera
    model does not exist. *)
Definition initialize (camera_model_to_calibrate : string) (f : Frame) : option InitResult :=
  if String.eqb camera_model_to_calibrate "LINEAR_PINHOLE" then Some (fr_pinhole f)
  else if String.eqb camera_model_to_calibrate "DIVISION_UNDISTORTION" then Some (fr_radial f)
  else if String.eqb camera_model_to_calibrate "DOUBLE_SPHERE" then Some (fr_radial f)
  else None.

(** [x > 10.0] for a reprojection error. *)
Definition above_ten (d : dbl) : bool :=
  match d with
  | Finite q => Qltb 10 q
  | Inf negative => negb negative
  | NaN => false
  end.

(** [AddObservation] for every corner of a frame: Theia keeps the first
    observation of a track in a view. *)
Fixpoint add_observations (obs : list (TrackId * Feature)) (features : list (TrackId * Feature))
  : list (TrackId * Feature) :=
  match obs with
  | [] => features
  | (track_id, feature) :: rest =>
      add_observations rest
        (match Theia.assoc track_id features with
         | Some _ => features
         | None => features ++ [(track_id, feature)]
         end)
  end.

(** The view ids of the tracks after the observations of a view. *)
Definition observed_by (view_id : ViewId) (features : list (TrackId * Feature))
           (tracks : list (TrackId * Track)) : list (TrackId * Track) :=
  map (fun it =>
         match Theia.assoc (fst it) features with
         | Some _ => (fst it, mkTrack (track_point (snd it)) (track_views (snd it) ++ [view_id]))
         | None => it
         end)
      tracks.

Section Main.

(** [Eigen]'s norm of a 3-vector, [Camera::ProjectPoint] and the norm of a
    2-vector. *)
Variable norm3 : Vec3 -> Q.
Variable ProjectPoint : Camera -> Vec4 -> Vec2.
Variable norm : Vec2 -> Q.

(** The intrinsics of the camera of a new view (lines 323-371): the values
    are stored at indices that Theia declares. *)
Variable intrinsics_of : string -> InitResult -> Z -> Z -> list Q.

(** Theia's [BundleAdjustReconstruction] and [RemoveView]. *)
Variable BundleAdjustReconstruction : BundleAdjustmentOptions -> Reconstruction -> Reconstruction.
Variable RemoveView : Reconstruction -> ViewId -> Reconstruction.

(** The enumeration values of Theia's camera model types. *)
Variable E : ModelTypeEnum.

(** The check for a pose close by (lines 297-304). *)
Definition take_image (grid_size : Q) (position : Vec3) (saved_poses : list Vec3) : bool :=
  negb (existsb (fun p => Qltb (norm3 (vsub position p)) grid_size) saved_poses).

(** The guard of lines 306-309: the frame is not taken. *)
Definition rejected (grid_size : Q) (init : InitResult) (corners : nat)
           (saved_poses : list Vec3) : bool :=
  negb (take_image grid_size (position init) saved_poses)
  || negb (success_init init)
  || Qltb (inject_Z (Z.of_nat (inliers init)))
          (inject_Z (Z.of_nat corners) * (6 # 10)).

(** One turn of the loop (lines 195-391). *)
Definition frame_step (FLAGS : Flags) (board : Board) (st : LoopState) (f : Frame) : Step :=
  if negb (fr_read f) then
    let st' := mkLoopState (recon_calib_dataset st) (saved_poses st) (frame_cnt st)
                           (S (cnt_wrong st)) (ids_to_remove_after_init st) in
    if (500 <? cnt_wrong st')%nat then Stop (Break st') else Continue st'
  else
    (* frame_cnt % skip_frames is 0: skip_frames is 1 *)
    let st1 := mkLoopState (recon_calib_dataset st) (saved_poses st) (S (frame_cnt st))
                           (cnt_wrong st) (ids_to_remove_after_init st) in
    if (length (fr_charuco f) <? min_number_detected_corners)%nat then Continue st1
    else
      match mapM (fun ic => track_of board (fst ic)) (fr_charuco f) with
      | None => Stop LoopUndefined
      | Some track_ids =>
          match initialize (FLAGS_camera_model_to_calibrate FLAGS) f with
          | None => Stop (Return0 st1)
          | Some init =>
              if rejected (FLAGS_grid_size FLAGS) init (length (fr_charuco f)) (saved_poses st1)
              then Continue st1
              else
                match fr_view_id f with
                | None => Stop LoopUndefined
                | Some view_id =>
                    let cam :=
                      mkCamera (rotation init) (position init)
                               (intrinsics_of (FLAGS_camera_model_to_calibrate FLAGS) init
                                              (fr_cols f) (fr_rows f))
                               (fr_cols f) (fr_rows f) in
                    let features :=
                      add_observations (zip track_ids (map snd (fr_charuco f))) [] in
                    let recon :=
                      mkReconstruction
                        (recon_views (recon_calib_dataset st1)
                           ++ [(view_id, mkView (fr_timestamp f) features cam)])
                        (observed_by view_id features
                                     (recon_tracks (recon_calib_dataset st1))) in
                    match GetReprojErrorOfView ProjectPoint norm recon view_id with
                    | None => Stop LoopUndefined
                    | Some init_reproj_error =>
                        let st2 :=
                          mkLoopState recon (saved_poses st1 ++ [position init])
                                      (frame_cnt st1) (cnt_wrong st1)
                                      (if above_ten init_reproj_error
                                       then <[view_id := init_reproj_error]>
                                              (ids_to_remove_after_init st1)
                                       else ids_to_remove_after_init st1) in
                        if fr_key f =? 27 then Stop (Break st2) else Continue st2
                    end
                end
          end
      end.

(** The loop over the video.  When the video is over every read fails, and
    the loop is left at the 501st failed read. *)
Fixpoint run_frames (FLAGS : Flags) (board : Board) (frames : list Frame) (st : LoopState)
  : LoopEnd :=
  match frames with
  | [] => Break (mkLoopState (recon_calib_dataset st) (saved_poses st) (frame_cnt st)
                             501 (ids_to_remove_after_init st))
  | f :: rest =>
      match frame_step FLAGS board st f with
      | Continue st' => run_frames FLAGS board rest st'
      | Stop e => e
      end
  end.

(** *** After the loop (lines 393-524) *)

(** The views whose reprojection error is above 10 (lines 417-425);
    [None] when an error is not defined. *)
Fixpoint views_to_remove (recon : Reconstruction) (view_ids : list ViewId)
         (ids_to_remove : gmap ViewId dbl) : option (gmap ViewId dbl) :=
  match view_ids with
  | [] => Some ids_to_remove
  | v_id :: rest =>
      view_reproj_error ← GetReprojErrorOfView ProjectPoint norm recon v_id;
      views_to_remove recon rest
        (if above_ten view_reproj_error
         then <[v_id := view_reproj_error]> ids_to_remove
         else ids_to_remove)
  end.

(** The sum of two doubles. *)
Definition dadd (a b : dbl) : dbl :=
  match a, b with
  | Finite x, Finite y => Finite (x + y)
  | NaN, _ | _, NaN => NaN
  | Inf s, Inf s' => if Bool.eqb s s' then Inf s else NaN
  | Inf s, Finite _ | Finite _, Inf s => Inf s
  end.

(** A double divided by a number of views. *)
Definition ddiv_count (a : dbl) (n : nat) : dbl :=
  match a with
  | Finite x => ddiv x n
  | Inf s => Inf s
  | NaN => NaN
  end.

(** The sum of the reprojection errors of the views (lines 470-479). *)
Fixpoint sum_errors (recon : Reconstruction) (view_ids : list ViewId) (reproj_error : dbl)
  : option dbl :=
  match view_ids with
  | [] => Some reproj_error
  | v_id :: rest =>
      view_reproj_error ← GetReprojErrorOfView ProjectPoint norm recon v_id;
      sum_errors recon rest (dadd reproj_error view_reproj_error)
  end.

(** The prefix of the two files that are written (lines 450-460). *)
Definition output_str (FLAGS : Flags) : string :=
  let size_str := pretty (int_of_double (FLAGS_downsample_factor FLAGS)) in
  if String.eqb (FLAGS_camera_model_to_calibrate FLAGS) "DOUBLE_SPHERE" then
    FLAGS_save_path_calib_dataset FLAGS +:+ "/camera_calibration_ds_" +:+ size_str
  else if String.eqb (FLAGS_camera_model_to_calibrate FLAGS) "DIVISION_UNDISTORTION" then
    FLAGS_save_path_calib_dataset FLAGS +:+ "/camera_calibration_div_" +:+ size_str
  else if String.eqb (FLAGS_camera_model_to_calibrate FLAGS) "PINHOLE" then
    FLAGS_save_path_calib_dataset FLAGS +:+ "/camera_calibration_ph_" +:+ size_str
  else ""%string.

(** The enumeration value whose name is written as camera type
    (lines 494-520); [None] when no camera type is written. *)
Definition written_model_type (camera_model_to_calibrate : string) : option Z :=
  if String.eqb camera_model_to_calibrate "LINEAR_PINHOLE" then Some (PINHOLE E)
  else if String.eqb camera_model_to_calibrate "DIVISION_UNDISTORTION"
  then Some (DIVISION_UNDISTORTION E)
  else if String.eqb camera_model_to_calibrate "DOUBLE_SPHERE" then Some (DOUBLE_SPHERE E)
  else None.

(** What is written at the end of [main]. *)
Record Output : Type := mkOutput {
  (** the reconstruction goes to [output_str + ".calibdata"], the json to
      [output_str + ".json"] *)
  out_prefix : string;
  out_calibdata : Reconstruction;
  json_stabelized : bool;
  json_fps : Q;
  json_nr_images_used : nat;
  json_final_reproj_error : dbl;
  (** the camera of the first view, from which the intrinsics are written *)
  json_camera : Camera;
  (** ["intrinsic_type"]["camera_type"], when it is written *)
  json_camera_type : option string
}.

Inductive Exit : Type :=
| InvalidDetectorParameters  (** line 156 *)
| CameraModelDoesNotExist    (** line 294 *)
| NotEnoughViews             (** lines 395 and 443 *)
| Written (out : Output).    (** line 524 *)

(** Lines 393-524, on the reconstruction the loop has left. *)
Definition after_loop (FLAGS : Flags) (fps : Q) (recon0 : Reconstruction) : outcome Exit :=
  if (NumViews recon0 <? 10)%nat then Returned NotEnoughViews
  else
    let model := FLAGS_camera_model_to_calibrate FLAGS in
    let recon1 := BundleAdjustReconstruction (ba_options_first model) recon0 in
    ids_to_remove ← defined (views_to_remove recon1 (ViewIds recon1) ∅);
    (* a std::map is walked in the order of its keys *)
    let recon2 :=
      foldl RemoveView recon1 (merge_sort Z.le (map fst (map_to_list ids_to_remove))) in
    let recon3 := BundleAdjustReconstruction (ba_options_second model) recon2 in
    if (NumViews recon3 <? 8)%nat then Returned NotEnoughViews
    else
      let recon4 := BundleAdjustReconstruction (ba_options_second model) recon3 in
      first_id ← defined (head (ViewIds recon4));
      first_view ← defined (GetView recon4 first_id);
      reproj_error ← defined (sum_errors recon4 (ViewIds recon4) (Finite 0));
      let total_repro_error := ddiv_count reproj_error (NumViews recon4) in
      camera_type ←
        match written_model_type model with
        | None => Returned None
        | Some theia_enum =>
            name ← defined (CameraIDToString E theia_enum);
            Returned (Some name)
        end;
      Returned
        (Written (mkOutput (output_str FLAGS) recon4 (FLAGS_is_stablelized FLAGS) fps
                           (NumViews recon4) total_repro_error
                           (view_camera first_view) camera_type)).

(** [main]: the detector parameters, the frame rate of the video, the loop
    and what follows it. *)
Definition main (fs : Files) (FLAGS : Flags) (board : Board) (fps : Q) (frames : list Frame)
  : outcome Exit :=
  if negb (ReadDetectorParameters fs (FLAGS_detector_params FLAGS)) then
    Returned InvalidDetectorParameters
  else
    (* const int skip_frames = fps / fps *)
    if Qeq_bool fps 0 then Undefined
    else
      match run_frames FLAGS board frames (loop_start board) with
      | LoopUndefined => Undefined
      | Return0 _ => Returned CameraModelDoesNotExist
      | Break st => after_loop FLAGS fps (recon_calib_dataset st)
      end.

End Main.

End Calibration.

(** ** Notions used to state facts on the camera calibration *)

Module CalibrationFacts.

Import Calibration.

(** The camera positions of the views of a reconstruction. *)
Definition poses_of (r : Reconstruction) : list Vec3 :=
  map (fun iv => cam_position (view_camera (snd iv))) (recon_views r).

(** No position is closer than [grid_size] to a position before it. *)
Definition spaced (norm3 : Vec3 -> Q) (grid_size : Q) (l : list Vec3) : Prop :=
  ForallOrdPairs (fun p q => (grid_size <= norm3 (vsub q p))%Q) l.

(** The names of the camera models for which there is an initialiser. *)
Definition model_exists (camera_model_to_calibrate : string) : Prop :=
  camera_model_to_calibrate = "LINEAR_PINHOLE"%string \/
  camera_model_to_calibrate = "DIVISION_UNDISTORTION"%string \/
  camera_model_to_calibrate = "DOUBLE_SPHERE"%string.



(** A turn of the loop leaves the reconstruction and the saved poses as
    they are. *)
Definition keeps (st st' : LoopState) : Prop :=
  recon_calib_dataset st' = recon_calib_dataset st /\
  saved_poses st' = saved_poses st.

(** A turn of the loop takes the frame: a view and a saved pose are added. *)
Definition takes (norm3 : Vec3 -> Q) (FLAGS : Flags) (f : Frame) (st st' : LoopState) : Prop :=
  exists init view_id view,
    fr_read f = true /\
    initialize (FLAGS_camera_model_to_calibrate FLAGS) f = Some init /\
    rejected norm3 (FLAGS_grid_size FLAGS) init (length (fr_charuco f)) (saved_poses st)
      = false /\
    (min_number_detected_corners <= length (fr_charuco f))%nat /\
    fr_view_id f = Some view_id /\
    cam_position (view_camera view) = position init /\
    cam_orientation (view_camera view) = rotation init /\
    view_timestamp view = fr_timestamp f /\
    recon_views (recon_calib_dataset st')
      = recon_views (recon_calib_dataset st) ++ [(view_id, view)] /\
    saved_poses st' = saved_poses st ++ [position init].

(** The state in which a turn of the loop can end. *)
Definition reaches (s : Step) (st' : LoopState) : Prop :=
  s = Continue st' \/ s = Stop (Break st') \/ s = Stop (Return0 st').

End CalibrationFacts.

(** ** Predicates on the gravity seeding of the continuous-time calibration *)

Module Seeding.

Import ContinuousTime.

(** No sample is inside the tolerance of [timestamp_ns]. *)
Definition no_sample_near (samples : list (Q * Vec3)) (timestamp_ns : Z) : Prop :=
  Forall (fun s => within_tolerance (to_int64 (fst s * e9)) timestamp_ns = false) samples.

(** A pose of the table with a sample inside its tolerance. *)
Definition can_seed (calib_init_poses : gmap TimeCamId CalibInitPoseData)
           (samples : list (Q * Vec3)) (timestamp : Q) : Prop :=
  is_Some (calib_init_poses !! (to_int64 (timestamp * e9), 0)) /\
  ~ no_sample_near samples (to_int64 (timestamp * e9)).

End Seeding.

(** ** Where the entries of the tables of the continuous-time calibration
    come from *)

Module TableEntries.

Import ContinuousTime.

(** An entry of a table was made from a view of the window. *)
Definition corners_from (t0 tend : Q) (views : list (ViewId * View))
           (k : TimeCamId) (d : CalibCornerData) : Prop :=
  exists iv, In iv views /\
             pose_in_window t0 tend (view_timestamp (snd iv)) = true /\
             k = key_of (view_timestamp (snd iv)) /\
             corner_data_of (snd iv) = Some d.

Definition pose_from (t0 tend : Q) (views : list (ViewId * View))
           (k : TimeCamId) (p : CalibInitPoseData) : Prop :=
  exists iv, In iv views /\
             pose_in_window t0 tend (view_timestamp (snd iv)) = true /\
             k = key_of (view_timestamp (snd iv)) /\
             p = pose_data_of (snd iv).

End TableEntries.

(** ** Measures on the landmarks of the charuco application *)

Module CharucoFacts.

Import Kontiki Charuco.

(** The number of observations of the landmark at position [j]. *)
Definition observed (ls : list Landmark) (j : nat) : nat :=
  match ls !! j with
  | Some l => length (lm_observations l)
  | None => O
  end.

(** What the run of [main] leaves of its result when the lines written to
    the output are put aside. *)
Definition solved_of (o : outcome Result) : outcome (option TrajEstimator) :=
  match o with
  | Returned r => Returned (solved r)
  | Fatal msg => Fatal msg
  | Undefined => Undefined
  | Thrown what => Thrown what
  end.

End CharucoFacts.

(** ** More small inputs *)

Module Cases.

(** [main] reached a [return 0]. *)
Definition returned {A : Type} (o : outcome A) : bool :=
  match o with Returned _ => true | _ => false end.

Definition files_of (recon : Reconstruction) (telemetry : CameraTelemetryData) : Files :=
  mkFiles (fun _ => Some (Demo.gyro_bias, Demo.accl_bias))
          (fun _ => Some recon)
          (fun _ => Some telemetry)
          (fun _ => Some (mat_id, 0%Q))
          (fun _ => Some Demo.weighting)
          (fun _ => true).

(** Poses at 1 s, 2 s and 3 s. *)
Definition late_recon : Reconstruction :=
  mkReconstruction
    [(0, mkView 1 Demo.features Demo.camera);
     (1, mkView 2 Demo.features Demo.camera);
     (2, mkView 3 Demo.features Demo.camera)]
    Demo.tracks.

(** One pose, at 0 s. *)
Definition single_recon : Reconstruction :=
  mkReconstruction [(0, mkView 0 Demo.features Demo.camera)] Demo.tracks.

(** No pose. *)
Definition empty_recon : Reconstruction := mkReconstruction [] Demo.tracks.

(** A run of the continuous-time calibration that returns, and what it has
    built. *)
Definition continuous_run : outcome ContinuousTime.Result :=
  ContinuousTime.main (Demo.files Demo.telemetry_near) Demo.flags.

Definition blank_result : ContinuousTime.Result :=
  ContinuousTime.mkResult
    (ContinuousTime.mkCalibSpline 0 0 0 empty_recon (mkSE3 mat_id vzero) None
                                  (mkSE3 mat_id vzero) 0 0 [] [] [])
    ContinuousTime.gravity_start 0 0 0 0.

Definition continuous_result : ContinuousTime.Result :=
  match continuous_run with
  | Returned r => r
  | _ => blank_result
  end.

(** The views and the landmarks the charuco application builds from
    [Demo.charuco_recon]. *)
Definition charuco_build : Charuco.Build :=
  match Charuco.make_landmarks Demo.charuco_recon Demo.charuco_tracks
          (Charuco.mkBuild (Charuco.make_views 0 (5 # 10) Demo.charuco_views ∅)
                           [] None None) with
  | Some b => b
  | None => Charuco.mkBuild ∅ [] None None
  end.

(** Views named 0.0, 0.1 and 0.2: no view is 0.1 away from both ends. *)
Definition short_recon : Reconstruction :=
  mkReconstruction
    [(0, mkView 0 Demo.features Demo.camera);
     (1, mkView (double (1 # 10)) Demo.features Demo.camera);
     (2, mkView (double (2 # 10)) Demo.features Demo.camera)]
    [(0, mkTrack (mkVec4 0 0 0 1) [0; 1; 2]);
     (1, mkTrack (mkVec4 2 0 0 1) [0; 1; 2])].

(** Views with a mean error of 3 / 2, with a mean error of 40 and without
    observations. *)
Definition mixed_recon : Reconstruction :=
  mkReconstruction
    [(0, mkView 0 Demo.features Demo.camera);
     (1, mkView 1 [(0, mkVec2 20 20)] Demo.camera);
     (2, mkView 2 [] Demo.camera)]
    Demo.tracks.

Definition mixed_removed : gmap ViewId dbl :=
  match Calibration.views_to_remove Demo.project Demo.norm1 mixed_recon [0; 1; 2] ∅ with
  | Some m => m
  | None => ∅
  end.

(** A board of 30 corners in a row and a video of which frame [i] shows
    them all from a camera at [(i, 0, 0)]. *)
Definition calib_board : Calibration.Board :=
  map (fun i => (Z.of_nat i, mkVec3 (inject_Z (Z.of_nat i)) 0 0)) (seq 0 30).

Definition calib_init (i : nat) : Calibration.InitResult :=
  Calibration.mkInitResult true 30 mat_id (mkVec3 (inject_Z (Z.of_nat i)) 0 0) 500 0.

Definition calib_frame (i : nat) : Calibration.Frame :=
  Calibration.mkFrame true (inject_Z (Z.of_nat i)) 640 480
    (map (fun j => (Z.of_nat j, mkVec2 (inject_Z (Z.of_nat j)) 0)) (seq 0 30))
    (calib_init i) (calib_init i) (Some (Z.of_nat i)) 0.

Definition calib_frames : list Calibration.Frame := map calib_frame (seq 0 10).

Definition calib_flags (camera_model_to_calibrate : string) : Calibration.Flags :=
  Calibration.mkFlags "video.mp4" "detector.yml" camera_model_to_calibrate 2 "out"
                      (1 # 50) (1 # 2) false.

Definition norm3_1 (v : Vec3) : Q := (Qabs (v3x v) + Qabs (v3y v) + Qabs (v3z v))%Q.

Definition calib_intrinsics (_ : string) (init : Calibration.InitResult) (cols rows : Z)
  : list Q :=
  [Calibration.focal_length init; inject_Z cols / 2; inject_Z rows / 2; 1]%Q.

(** A bundle adjustment that leaves the reconstruction as it is. *)
Definition calib_adjust (_ : CalibrateCamera.BundleAdjustmentOptions) (r : Reconstruction)
  : Reconstruction := r.

Definition calib_remove (r : Reconstruction) (v : ViewId) : Reconstruction :=
  mkReconstruction (List.filter (fun iv => negb (fst iv =? v)) (recon_views r))
                   (recon_tracks r).

Definition calib_loop (camera_model_to_calibrate : string) : Calibration.LoopEnd :=
  Calibration.run_frames norm3_1 Demo.project Demo.norm1 calib_intrinsics
                         (calib_flags camera_model_to_calibrate) calib_board calib_frames
                         (Calibration.loop_start calib_board).

Definition calib_loop_state : Calibration.LoopState :=
  match calib_loop "DIVISION_UNDISTORTION" with
  | Calibration.Break st => st
  | _ => Calibration.loop_start calib_board
  end.

Definition calib_run (camera_model_to_calibrate : string) : outcome Calibration.Exit :=
  Calibration.main norm3_1 Demo.project Demo.norm1 calib_intrinsics calib_adjust
                   calib_remove CalibrateCamera.theia_model_types
                   (Demo.files Demo.telemetry_near)
                   (calib_flags camera_model_to_calibrate) calib_board 30 calib_frames.

Definition calib_blank : Calibration.Output :=
  Calibration.mkOutput "" (mkReconstruction [] []) false 0 0 NaN Demo.camera None.

Definition calib_output (camera_model_to_calibrate : string) : Calibration.Output :=
  match calib_run camera_model_to_calibrate with
  | Returned (Calibration.Written out) => out
  | _ => calib_blank
  end.

(** The view the loop makes of frame 3. *)
Definition calib_view : View :=
  match GetView (Calibration.recon_calib_dataset calib_loop_state) 3 with
  | Some v => v
  | None => mkView 0 [] Demo.camera
  end.

End Cases.

(** * Properties *)

(** ** calibrate_camera.cc *)

Section CalibrateCameraFacts.

Import CalibrateCamera.

Lemma assoc_in_keys {A : Type} (k : Z) (l : list (Z * A)) :
  In k (map fst l) -> is_Some (Theia.assoc k l).
Proof.
  induction l as [|[k' a] l IH]; simpl; [tauto|].
  intros [->|Hin].
  - rewrite Z.eqb_refl. eauto.
  - destruct (k =? k'); eauto.
Qed.

Variable ProjectPoint : Camera -> Vec4 -> Vec2.
Variable norm : Vec2 -> Q.

Lemma accumulate_error_sum recon v tids errs :
  mapM (track_error ProjectPoint norm recon v) tids = Some errs ->
  forall acc, exists r,
    accumulate_error ProjectPoint norm recon v tids acc = Some r /\
    (r == acc + Qsum errs)%Q.
Proof.
  revert errs. induction tids as [|tid tids IH]; intros errs Hm acc.
  - simpl in Hm. injection Hm as <-. exists acc. split; [reflexivity|].
    unfold Qsum; simpl. ring.
  - rewrite mapM_Some in Hm. inversion Hm as [|? e ? errs' He Hrest]; subst.
    apply mapM_Some in Hrest.
    destruct (IH errs' Hrest (acc + e)%Q) as [r [Hr Hsum]].
    exists r. split.
    + simpl. rewrite He. simpl. exact Hr.
    + rewrite Hsum. unfold Qsum; simpl. ring.
Qed.

(** The summands of the loop are the norms of the differences between the
    projected track points and the features of the view. *)
Lemma track_errors_norms recon v :
  (forall tid, In tid (ViewTrackIds v) -> is_Some (GetTrack recon tid)) ->
  exists obs : list (Feature * Track),
    Forall2 (fun tid ft => GetFeature v tid = Some (fst ft) /\
                           GetTrack recon tid = Some (snd ft))
            (ViewTrackIds v) obs /\
    mapM (track_error ProjectPoint norm recon v) (ViewTrackIds v)
      = Some (map (fun ft => norm (vsub2 (ProjectPoint (view_camera v)
                                                       (track_point (snd ft)))
                                         (fst ft)))
                  obs).
Proof.
  intros Htracks.
  assert (Hall : forall tids, (forall tid, In tid tids -> In tid (ViewTrackIds v)) ->
            exists obs : list (Feature * Track),
              Forall2 (fun tid ft => GetFeature v tid = Some (fst ft) /\
                                     GetTrack recon tid = Some (snd ft)) tids obs /\
              mapM (track_error ProjectPoint norm recon v) tids
                = Some (map (fun ft => norm (vsub2 (ProjectPoint (view_camera v)
                                                                 (track_point (snd ft)))
                                                   (fst ft)))
                            obs)).
  { induction tids as [|tid tids IH]; intros Hsub.
    - exists []. split; [constructor|reflexivity].
    - destruct IH as (obs & Hobs & Herrs); [intros; apply Hsub; now right|].
      assert (Hin : In tid (ViewTrackIds v)) by (apply Hsub; now left).
      destruct (assoc_in_keys tid (view_features v) Hin) as [feat Hfeat].
      destruct (Htracks tid Hin) as [track Htrack].
      exists ((feat, track) :: obs). split.
      + constructor; [|exact Hobs]. split; [exact Hfeat|exact Htrack].
      + apply mapM_Some. cbn [map fst snd]. constructor.
        * unfold track_error. unfold GetFeature in Hfeat. unfold GetFeature.
          rewrite Hfeat. cbn [mbind option_bind]. rewrite Htrack. reflexivity.
        * apply mapM_Some. exact Herrs. }
  apply Hall. auto.
Qed.

End CalibrateCameraFacts.

(** C9. [CameraIDToString] answers "DOUBLE_SPHERE" exactly for the
    DOUBLE_SPHERE value; when the DIVISION_UNDISTORTION value is not zero it
    answers "DIVISION_UNDISTORTION" for every other argument, so that the
    PINHOLE value is never named "PINHOLE". *)
Theorem CameraIDToString_cases (E : CalibrateCamera.ModelTypeEnum) (theia_enum : Z) :
  CalibrateCamera.DIVISION_UNDISTORTION E <> 0 ->
  (CalibrateCamera.CameraIDToString E theia_enum = Some "DOUBLE_SPHERE"%string
     <-> theia_enum = CalibrateCamera.DOUBLE_SPHERE E) /\
  (theia_enum <> CalibrateCamera.DOUBLE_SPHERE E ->
     CalibrateCamera.CameraIDToString E theia_enum = Some "DIVISION_UNDISTORTION"%string) /\
  CalibrateCamera.CameraIDToString E (CalibrateCamera.PINHOLE E) <> Some "PINHOLE"%string.
Proof.
  intros Hdiv. unfold CalibrateCamera.CameraIDToString.
  apply Z.eqb_neq in Hdiv. rewrite Hdiv. simpl.
  split; [split|split].
  - destruct (Z.eqb_spec theia_enum (CalibrateCamera.DOUBLE_SPHERE E)); [done|discriminate].
  - intros ->. now rewrite Z.eqb_refl.
  - intros Hne. apply Z.eqb_neq in Hne. now rewrite Hne.
  - destruct (CalibrateCamera.PINHOLE E =? CalibrateCamera.DOUBLE_SPHERE E); discriminate.
Qed.

Lemma CameraIDToString_cases_witness :
  CalibrateCamera.CameraIDToString CalibrateCamera.theia_model_types 0
    = Some "DIVISION_UNDISTORTION"%string.
Proof.
  apply (CameraIDToString_cases CalibrateCamera.theia_model_types 0); simpl; lia.
Defined.

(** C10. [GetReprojErrorOfView] divides by the number of tracks without a
    guard.  For a view with at least one track (all of them tracks of the
    reconstruction) the result is the mean, over the tracks of the view, of
    the norm of the difference between the projection of the track point
    through the camera of the view and the feature the view holds for the
    track; for a view without tracks it is 0.0 / 0, not a number, and
    nothing is raised. *)
Theorem GetReprojErrorOfView_mean_or_nan
        (ProjectPoint : Camera -> Vec4 -> Vec2) (norm : Vec2 -> Q)
        (recon : Reconstruction) (v_id : ViewId) (v : View) :
  GetView recon v_id = Some v ->
  (forall tid, In tid (ViewTrackIds v) -> is_Some (GetTrack recon tid)) ->
  (ViewTrackIds v = [] ->
     CalibrateCamera.GetReprojErrorOfView ProjectPoint norm recon v_id = Some NaN) /\
  (ViewTrackIds v <> [] ->
     exists (obs : list (Feature * Track)) (mean : Q),
       Forall2 (fun tid ft => GetFeature v tid = Some (fst ft) /\
                              GetTrack recon tid = Some (snd ft))
               (ViewTrackIds v) obs /\
       CalibrateCamera.GetReprojErrorOfView ProjectPoint norm recon v_id
         = Some (Finite mean) /\
       (mean == Qsum (map (fun ft =>
                             norm (vsub2 (ProjectPoint (view_camera v)
                                                       (track_point (snd ft)))
                                         (fst ft)))
                          obs)
                / inject_Z (Z.of_nat (length (ViewTrackIds v))))%Q).
Proof.
  intros Hv Htracks. unfold CalibrateCamera.GetReprojErrorOfView. rewrite Hv. simpl.
  split.
  - intros Hnil. rewrite Hnil. reflexivity.
  - intros Hne.
    destruct (track_errors_norms ProjectPoint norm recon v Htracks)
      as (obs & Hobs & Herrs).
    destruct (accumulate_error_sum ProjectPoint norm recon v _ _ Herrs 0%Q)
      as [r [Hr Hsum]].
    exists obs, (r / inject_Z (Z.of_nat (length (ViewTrackIds v))))%Q.
    split; [exact Hobs|].
    rewrite Hr. simpl.
    split.
    + destruct (ViewTrackIds v) as [|t ts] eqn:Hts; [congruence|reflexivity].
    + rewrite Hsum. rewrite Qplus_0_l. reflexivity.
Qed.

(** ** continuous_time_imu_to_camera_calibration_new.cc: the knot count *)

Section KnotCount.

Import ContinuousTime.

Lemma to_int_small (z : Z) : - 2 ^ 31 <= z < 2 ^ 31 -> to_int z = z.
Proof. intros H. unfold to_int. rewrite Z.mod_small; lia. Qed.

Lemma ceil_div_exact (a b : Z) : 0 < b -> (b | a) -> ceil_div a b = a / b.
Proof.
  intros Hb [k ->]. unfold ceil_div.
  rewrite <- Z.mul_opp_l, !Z.div_mul by lia. lia.
Qed.

Lemma ceil_div_inexact (a b : Z) : 0 < b -> ~ (b | a) -> ceil_div a b = a / b + 1.
Proof.
  intros Hb Hnd. unfold ceil_div.
  assert (Hmod : a mod b <> 0).
  { intros H0. apply Hnd. apply Z.mod_divide; lia. }
  pose proof (Z.div_mod a b ltac:(lia)) as Ha.
  pose proof (Z.mod_pos_bound a b Hb) as Hr.
  assert (Hq : (- a) / b = - (a / b) - 1).
  { symmetry. apply Z.div_unique with (r := b - a mod b); lia. }
  lia.
Qed.

End KnotCount.

(** C1, as the code has it.  On the nanosecond integers [start_t_ns],
    [end_t_ns] and [dt_ns] of lines 109-112 the knot count is the quotient of
    the window by the spacing, rounded down, plus the order 5.  It is the
    rounded-up quotient of these integers plus 5 when the spacing divides the
    window, and one less when it does not; a window of 5 000 000 000 ns with
    a spacing of 100 000 000 ns gets 55 knots. *)
Theorem num_knots_rounds_down (start_t_ns end_t_ns dt_ns : Z) :
  start_t_ns <= end_t_ns ->
  0 < dt_ns ->
  (end_t_ns - start_t_ns) / dt_ns + ContinuousTime.N < 2 ^ 31 ->
  ContinuousTime.num_knots start_t_ns end_t_ns dt_ns
    = (end_t_ns - start_t_ns) / dt_ns + 5 /\
  dt_ns * (ContinuousTime.num_knots start_t_ns end_t_ns dt_ns - 5)
    <= end_t_ns - start_t_ns
    < dt_ns * (ContinuousTime.num_knots start_t_ns end_t_ns dt_ns - 5 + 1) /\
  ((dt_ns | end_t_ns - start_t_ns) ->
     ContinuousTime.num_knots start_t_ns end_t_ns dt_ns
       = ContinuousTime.ceil_div (end_t_ns - start_t_ns) dt_ns + 5) /\
  (~ (dt_ns | end_t_ns - start_t_ns) ->
     ContinuousTime.num_knots start_t_ns end_t_ns dt_ns
       = ContinuousTime.ceil_div (end_t_ns - start_t_ns) dt_ns + 5 - 1) /\
  ContinuousTime.num_knots start_t_ns (start_t_ns + 5000000000) 100000000 = 55.
Proof.
  intros Hle Hdt Hfit.
  remember (end_t_ns - start_t_ns) as w eqn:Ew.
  assert (Hw : 0 <= w) by lia.
  assert (Hq : 0 <= w / dt_ns) by (apply Z.div_pos; lia).
  assert (Hn : ContinuousTime.num_knots start_t_ns end_t_ns dt_ns = w / dt_ns + 5).
  { unfold ContinuousTime.num_knots, ContinuousTime.N in *. rewrite <- Ew.
    rewrite Z.quot_div_nonneg by lia.
    apply to_int_small. lia. }
  split; [exact Hn|]. split; [|split; [|split]].
  - rewrite Hn.
    pose proof (Z.div_mod w dt_ns ltac:(lia)).
    pose proof (Z.mod_pos_bound w dt_ns Hdt). lia.
  - intros Hdiv. rewrite Hn, ceil_div_exact by assumption. reflexivity.
  - intros Hdiv. rewrite Hn, ceil_div_inexact by assumption. lia.
  - unfold ContinuousTime.num_knots.
    replace (start_t_ns + 5000000000 - start_t_ns) with 5000000000 by lia.
    reflexivity.
Qed.

Lemma num_knots_rounds_down_witness :
  ContinuousTime.num_knots 0 750000000 500000000 = 750000000 / 500000000 + 5.
Proof.
  apply (proj1 (num_knots_rounds_down 0 750000000 500000000
                  ltac:(lia) ltac:(lia) ltac:(reflexivity))).
Defined.

(** C1, as the specification words it, fails: a window from 0 s to 0.75 s
    with a spacing of 0.5 s gets 6 knots, not ceil(0.75 / 0.5) + 5 = 7.
    The three times and their products by 1e9 are doubles, so that lines
    109-112 make of them the integers 0, 750 000 000 and 500 000 000. *)
Lemma num_knots_ceil_counterexample :
  Qeq (double (3 # 4)) (3 # 4) /\ Qeq (double ((3 # 4) * e9)) ((3 # 4) * e9) /\
  Qeq (double (1 # 2)) (1 # 2) /\ Qeq (double ((1 # 2) * e9)) ((1 # 2) * e9) /\
  to_int64 (0 * e9) = 0 /\
  to_int64 ((3 # 4) * e9) = 750000000 /\
  to_int64 ((1 # 2) * e9) = 500000000 /\
  ContinuousTime.num_knots 0 750000000 500000000 = 6 /\
  ContinuousTime.spec_num_knots 0 (3 # 4) (1 # 2) = 7 /\
  ContinuousTime.num_knots (to_int64 (0 * e9)) (to_int64 ((3 # 4) * e9))
                           (to_int64 ((1 # 2) * e9))
    <> ContinuousTime.spec_num_knots 0 (3 # 4) (1 # 2).
Proof.
  repeat (split; [vm_compute; reflexivity|]).
  vm_compute. discriminate.
Qed.

(** ** continuous_time_imu_to_camera_calibration_new.cc: the time window *)

Section TimeWindow.

Import ContinuousTime.

Lemma Qltb_true (a b : Q) : Qltb a b = true <-> (a < b)%Q.
Proof.
  unfold Qltb. rewrite negb_true_iff. split.
  - intros H. apply Qnot_le_lt. intros Hle.
    apply Qle_bool_iff in Hle. congruence.
  - intros H. destruct (Qle_bool b a) eqn:E; [|reflexivity].
    apply Qle_bool_iff in E. exfalso. exact (Qlt_not_le _ _ H E).
Qed.

Lemma Qltb_false (a b : Q) : Qltb a b = false <-> (b <= a)%Q.
Proof.
  unfold Qltb. rewrite negb_false_iff. apply Qle_bool_iff.
Qed.

Lemma Qgeb_true (a b : Q) : Qgeb a b = true <-> (b <= a)%Q.
Proof. apply Qle_bool_iff. Qed.

Lemma Qgeb_false (a b : Q) : Qgeb a b = false <-> (a < b)%Q.
Proof.
  unfold Qgeb. split.
  - intros H. apply Qnot_le_lt. intros Hle. apply Qle_bool_iff in Hle. congruence.
  - intros H. destruct (Qle_bool b a) eqn:E; [|reflexivity].
    apply Qle_bool_iff in E. exfalso. exact (Qlt_not_le _ _ H E).
Qed.

Lemma pose_in_window_iff (t0 tend timestamp : Q) :
  pose_in_window t0 tend timestamp = true <-> (t0 <= timestamp /\ timestamp < tend)%Q.
Proof.
  unfold pose_in_window. rewrite negb_true_iff, orb_false_iff.
  rewrite Qgeb_false, Qltb_false. tauto.
Qed.

Lemma sample_in_window_iff (start_t_ns end_t_ns : Z) (t : Q) :
  sample_in_window start_t_ns end_t_ns t = true
  <-> (inject_Z start_t_ns <= t /\ t < inject_Z end_t_ns)%Q.
Proof.
  unfold sample_in_window, of_int64. rewrite negb_true_iff, orb_false_iff.
  rewrite Qgeb_false, Qltb_false. tauto.
Qed.

(** [minmax_from] keeps a lower and an upper bound of what it has seen. *)
Lemma minmax_from_bounds (l : list Q) : forall mn mx a b,
  minmax_from mn mx l = (a, b) ->
  (a = mn \/ In a l) /\ (b = mx \/ In b l) /\
  (a <= mn)%Q /\ (mx <= b)%Q /\
  (forall x, In x l -> (a <= x /\ x <= b)%Q).
Proof.
  induction l as [|y l IH]; intros mn mx a b H; simpl in H.
  - injection H as <- <-.
    split; [now left|]. split; [now left|].
    split; [apply Qle_refl|]. split; [apply Qle_refl|]. intros x [].
  - apply IH in H. destruct H as (Ha & Hb & Hmn & Hmx & Hall).
    assert (Hlo : (a <= mn /\ a <= y)%Q).
    { destruct (Qltb y mn) eqn:E.
      - apply Qltb_true in E. split; [|assumption].
        apply Qle_trans with y; [assumption|]. now apply Qlt_le_weak.
      - apply Qltb_false in E. split; [assumption|].
        now apply Qle_trans with mn. }
    assert (Hhi : (mx <= b /\ y <= b)%Q).
    { destruct (Qltb y mx) eqn:E.
      - apply Qltb_true in E. split; [assumption|].
        apply Qle_trans with mx; [now apply Qlt_le_weak|assumption].
      - apply Qltb_false in E. split; [|assumption].
        now apply Qle_trans with y. }
    split; [|split; [|split; [tauto|split; [tauto|]]]].
    + destruct Ha as [->|Ha]; [|right; now right].
      destruct (Qltb y mn); [right; now left|now left].
    + destruct Hb as [->|Hb]; [|right; now right].
      destruct (Qltb y mx); [now left|right; now left].
    + intros x [<-|Hx]; [tauto|now apply Hall].
Qed.

Lemma minmax_element_bounds (l : list Q) (t0 tend : Q) :
  minmax_element l = Some (t0, tend) ->
  In t0 l /\ In tend l /\ (forall x, In x l -> (t0 <= x /\ x <= tend)%Q).
Proof.
  destruct l as [|y l]; [discriminate|]. simpl. intros H. injection H as H.
  apply minmax_from_bounds in H. destruct H as (Ha & Hb & Hmn & Hmx & Hall).
  split; [|split].
  - destruct Ha; [left; congruence|now right].
  - destruct Hb; [left; congruence|now right].
  - intros x [<-|Hx]; [tauto|now apply Hall].
Qed.

(** The keys of the two tables are the keys of the views inside the
    window, added to the keys that were there. *)
Lemma fill_tables_keys (t0 tend : Q) (views : list (ViewId * View)) :
  forall cc cp cc' cp',
    fill_tables t0 tend views cc cp = Some (cc', cp') ->
    forall k : TimeCamId,
      (is_Some (cp' !! k) <->
         is_Some (cp !! k) \/
         exists iv, In iv views /\
                    pose_in_window t0 tend (view_timestamp (snd iv)) = true /\
                    k = key_of (view_timestamp (snd iv))) /\
      (is_Some (cc' !! k) <->
         is_Some (cc !! k) \/
         exists iv, In iv views /\
                    pose_in_window t0 tend (view_timestamp (snd iv)) = true /\
                    k = key_of (view_timestamp (snd iv))).
Proof.
  induction views as [|[id view] views IH]; intros cc cp cc' cp' H k; simpl in H.
  - injection H as <- <-. split; (split; [auto|intros [?|(iv & [] & _)]; auto]).
  - destruct (pose_in_window t0 tend (view_timestamp view)) eqn:Hw.
    + destruct (corner_data_of view) as [cd|] eqn:Hcd; simpl in H; [|discriminate].
      destruct (IH _ _ _ _ H k) as [IHp IHc].
      rewrite IHp, IHc, !lookup_insert_is_Some'. clear IHp IHc.
      split; (split;
        [ intros [[Hk|Hold]|(iv & Hin & Hiw & Hkey)];
          [ right; exists (id, view); simpl; auto
          | now left
          | right; exists iv; simpl; auto ]
        | intros [Hold|(iv & [<-|Hin] & Hiw & Hkey)];
          [ left; now right
          | left; left; simpl in Hkey; congruence
          | right; exists iv; auto ] ]).
    + destruct (IH _ _ _ _ H k) as [IHp IHc].
      rewrite IHp, IHc. clear IHp IHc.
      split; (split;
        [ intros [Hold|(iv & Hin & Hiw & Hkey)];
          [ now left | right; exists iv; simpl; auto ]
        | intros [Hold|(iv & [<-|Hin] & Hiw & Hkey)];
          [ now left
          | simpl in Hiw; congruence
          | right; exists iv; auto ] ]).
Qed.

Lemma add_imu_members bias offset variance start_t_ns end_t_ns samples m :
  In m (add_imu bias offset variance start_t_ns end_t_ns samples) <->
  exists s, In s samples /\
            sample_in_window start_t_ns end_t_ns (imu_time (fst s) offset) = true /\
            m = mkImuMeasurement (vadd (snd s) bias) (imu_time (fst s) offset) variance.
Proof.
  unfold add_imu. rewrite in_map_iff. split.
  - intros (s & <- & Hin). apply list_elem_of_In, list_elem_of_filter in Hin.
    destruct Hin as [Hw Hin]. apply list_elem_of_In in Hin. eauto.
  - intros (s & Hin & Hw & ->). exists s. split; [reflexivity|].
    apply list_elem_of_In, list_elem_of_filter. split; [assumption|].
    now apply list_elem_of_In.
Qed.

End TimeWindow.

(** C3, as the code has it.  [t0] and [tend] are the least and the greatest
    pose time stamp.  A pose is kept exactly when t0 <= timestamp < tend, an
    IMU sample exactly when start_t_ns <= t < end_t_ns for its corrected time
    [t] in nanoseconds: the window is half open, and a pose or a sample at
    its end is dropped. *)
Theorem time_window_half_open
        (views : list (ViewId * View)) (t0 tend : Q)
        (calib_corners : gmap ContinuousTime.TimeCamId ContinuousTime.CalibCornerData)
        (calib_init_poses : gmap ContinuousTime.TimeCamId ContinuousTime.CalibInitPoseData) :
  ContinuousTime.minmax_element (map (fun iv => view_timestamp (snd iv)) views)
    = Some (t0, tend) ->
  ContinuousTime.fill_tables t0 tend views ∅ ∅ = Some (calib_corners, calib_init_poses) ->
  (exists v0 v1, In v0 views /\ In v1 views /\
                 t0 = view_timestamp (snd v0) /\ tend = view_timestamp (snd v1)) /\
  (forall iv, In iv views ->
     (t0 <= view_timestamp (snd iv) /\ view_timestamp (snd iv) <= tend)%Q) /\
  (forall k, is_Some (calib_init_poses !! k) <->
     exists iv, In iv views /\
                (t0 <= view_timestamp (snd iv) /\ view_timestamp (snd iv) < tend)%Q /\
                k = ContinuousTime.key_of (view_timestamp (snd iv))) /\
  (forall k, is_Some (calib_corners !! k) <-> is_Some (calib_init_poses !! k)) /\
  (forall bias offset variance samples m,
     In m (ContinuousTime.add_imu bias offset variance
             (to_int64 (t0 * e9)) (to_int64 (tend * e9)) samples) <->
     exists s, In s samples /\
       (inject_Z (to_int64 (t0 * e9)) <= ContinuousTime.imu_time (fst s) offset /\
        ContinuousTime.imu_time (fst s) offset < inject_Z (to_int64 (tend * e9)))%Q /\
       m = ContinuousTime.mkImuMeasurement
             (vadd (snd s) bias) (ContinuousTime.imu_time (fst s) offset) variance) /\
  ContinuousTime.pose_in_window t0 tend tend = false /\
  ContinuousTime.sample_in_window (to_int64 (t0 * e9)) (to_int64 (tend * e9))
    (inject_Z (to_int64 (tend * e9))) = false.
Proof.
  intros Hmm Hfill.
  apply minmax_element_bounds in Hmm. destruct Hmm as (H0 & H1 & Hall).
  split; [|split; [|split; [|split; [|split; [|split]]]]].
  - apply in_map_iff in H0. destruct H0 as (v0 & E0 & Hv0).
    apply in_map_iff in H1. destruct H1 as (v1 & E1 & Hv1).
    exists v0, v1. auto.
  - intros iv Hin. apply Hall. apply in_map_iff. eauto.
  - intros k. destruct (fill_tables_keys _ _ _ _ _ _ _ Hfill k) as [Hp _].
    rewrite Hp. split.
    + intros [Hemp|(iv & Hin & Hw & Hk)].
      * rewrite lookup_empty in Hemp. destruct Hemp; discriminate.
      * exists iv. apply pose_in_window_iff in Hw. auto.
    + intros (iv & Hin & Hw & Hk). right. exists iv.
      apply pose_in_window_iff in Hw. auto.
  - intros k. destruct (fill_tables_keys _ _ _ _ _ _ _ Hfill k) as [Hp Hc].
    rewrite Hp, Hc. rewrite !lookup_empty. split; intros [[? ?]|?]; try discriminate; auto.
  - intros bias offset variance samples m. rewrite add_imu_members.
    split; intros (s & Hin & Hw & Hm); exists s; apply sample_in_window_iff in Hw; auto.
  - destruct (ContinuousTime.pose_in_window t0 tend tend) eqn:E; [|reflexivity].
    apply pose_in_window_iff in E. destruct E as [_ E]. exfalso. exact (Qlt_irrefl _ E).
  - destruct (ContinuousTime.sample_in_window _ _ _) eqn:E; [|reflexivity].
    apply sample_in_window_iff in E. destruct E as [_ E]. exfalso. exact (Qlt_irrefl _ E).
Qed.

(** ** continuous_time_imu_to_camera_calibration_new.cc: [main] *)

Section ContinuousTimeMain.

Import ContinuousTime.

(** One step through a [CHECK], a possibly undefined access or a pattern
    of [main]. *)
Ltac main_step :=
  match goal with
  | |- context [CHECK ?o _] => destruct o eqn:?; simpl
  | |- context [CHECK_cond ?c _] => destruct c eqn:?; simpl
  | |- context [defined ?o] => destruct o eqn:?; simpl
  | |- context [let '(_, _) := ?p in _] => destruct p eqn:?; simpl
  | |- context [match ?m !! ?k with _ => _ end] => destruct (m !! k) eqn:?; simpl
  | |- context [add_corners ?a ?b ?c ?d] => destruct (add_corners a b c d) eqn:?; simpl
  end.

Lemma add_corners_not_fatal calib_dataset start_t_ns end_t_ns cc msg :
  add_corners calib_dataset start_t_ns end_t_ns cc <> Fatal msg.
Proof.
  unfold add_corners. destruct (filter _ cc); [discriminate|].
  destruct (GetView calib_dataset 0); discriminate.
Qed.

(** A fatal end of [main] comes from one of the six checks on the input
    artifacts, and from nothing else. *)
Lemma main_fatal_only_from_reads (fs : Files) (FLAGS : Flags) (msg : string) :
  main fs FLAGS = Fatal msg ->
  ReadIMUBias fs (FLAGS_imu_bias_file FLAGS) = None \/
  ReadReconstruction fs (FLAGS_input_calibration_dataset FLAGS) = None \/
  ReadGoProTelemetry fs (FLAGS_gopro_telemetry_json FLAGS) = None \/
  ReadIMU2CamInit fs (FLAGS_gyro_to_cam_initial_calibration FLAGS) = None \/
  FLAGS_spline_error_weighting_json FLAGS = ""%string \/
  ReadSplineErrorWeighting fs (FLAGS_spline_error_weighting_json FLAGS) = None.
Proof.
  unfold main, mbind, outcome_bind.
  repeat (main_step; try tauto; try discriminate).
  - exfalso. eapply add_corners_not_fatal; eassumption.
  - intros _. right; right; right; right; left.
    match goal with H : negb _ = false |- _ =>
      apply negb_false_iff, String.eqb_eq in H; exact H end.
Qed.

Lemma scan_accel_no_match T_a_i accl_bias timestamp_ns samples st :
  Forall (fun s => within_tolerance (to_int64 (fst s * e9)) timestamp_ns = false) samples ->
  scan_accel T_a_i accl_bias timestamp_ns samples st = st.
Proof.
  induction 1 as [|[ts acc] samples Hs _ IH]; simpl; [reflexivity|].
  destruct (g_initialized st); [reflexivity|].
  simpl in Hs. now rewrite Hs.
Qed.

(** Without a sample inside the tolerance of a pose the loops leave
    [g_initialized] false and [g_a_init] as it was. *)
Lemma seed_gravity_no_match T_i_c_init accl_bias calib_init_poses samples timestamps st :
  Forall (fun timestamp =>
            Forall (fun s => within_tolerance (to_int64 (fst s * e9))
                                              (to_int64 (timestamp * e9)) = false)
                   samples) timestamps ->
  seed_gravity T_i_c_init accl_bias calib_init_poses samples timestamps st = st.
Proof.
  induction 1 as [|timestamp timestamps Ht _ IH]; simpl; [reflexivity|].
  destruct (calib_init_poses !! _); [|exact IH].
  destruct (g_initialized st); [exact IH|].
  now rewrite scan_accel_no_match.
Qed.

Lemma seed_gravity_initialized T_i_c_init accl_bias calib_init_poses samples timestamps st :
  g_initialized st = true ->
  seed_gravity T_i_c_init accl_bias calib_init_poses samples timestamps st = st.
Proof.
  intros Hst. induction timestamps as [|timestamp timestamps IH]; simpl; [reflexivity|].
  destruct (calib_init_poses !! _); [|exact IH].
  rewrite Hst. exact IH.
Qed.

(** What the inner loop leaves: nothing new when no sample is inside the
    tolerance, and otherwise the first such sample, with the bias added,
    rotated by [T_a_i]. *)
Lemma scan_accel_first_match T_a_i accl_bias timestamp_ns samples st :
  g_initialized st = false ->
  (scan_accel T_a_i accl_bias timestamp_ns samples st = st) \/
  (exists before timestamp_ms acc after,
      samples = before ++ (timestamp_ms, acc) :: after /\
      Forall (fun s => within_tolerance (to_int64 (fst s * e9)) timestamp_ns = false)
             before /\
      within_tolerance (to_int64 (timestamp_ms * e9)) timestamp_ns = true /\
      scan_accel T_a_i accl_bias timestamp_ns samples st
        = mkGravityInit true (Some (mat_vec (so3 T_a_i) (vadd acc accl_bias)))).
Proof.
  intros Hst. induction samples as [|[ts acc] samples IH]; simpl; [now left|].
  rewrite Hst.
  destruct (within_tolerance (to_int64 (ts * e9)) timestamp_ns) eqn:Hw.
  - right. exists [], ts, acc, samples. auto.
  - destruct IH as [IH|(before & ts' & acc' & after & -> & Hb & Hw' & IH)]; [now left|].
    right. exists ((ts, acc) :: before), ts', acc', after.
    split; [reflexivity|]. split; [constructor; assumption|]. auto.
Qed.

Lemma seed_gravity_first_match T_i_c_init accl_bias calib_init_poses samples timestamps :
  forall st st',
    g_initialized st = false ->
    seed_gravity T_i_c_init accl_bias calib_init_poses samples timestamps st = st' ->
    g_initialized st' = true ->
    exists timestamp pose before timestamp_ms acc after,
      In timestamp timestamps /\
      calib_init_poses !! (to_int64 (timestamp * e9), 0) = Some pose /\
      samples = before ++ (timestamp_ms, acc) :: after /\
      Forall (fun s => within_tolerance (to_int64 (fst s * e9))
                                        (to_int64 (timestamp * e9)) = false) before /\
      within_tolerance (to_int64 (timestamp_ms * e9)) (to_int64 (timestamp * e9)) = true /\
      g_a_init st'
        = Some (mat_vec (mat_mul (so3 (T_a_c pose)) (transpose (so3 T_i_c_init)))
                        (vadd acc accl_bias)).
Proof.
  induction timestamps as [|timestamp timestamps IH]; intros st st' Hst Hrun Hinit;
    simpl in Hrun.
  - congruence.
  - destruct (calib_init_poses !! (to_int64 (timestamp * e9), 0)) as [pose|] eqn:Hpose.
    + rewrite Hst in Hrun.
      destruct (scan_accel_first_match
                  (se3_mul (T_a_c pose) (se3_inverse T_i_c_init))
                  accl_bias (to_int64 (timestamp * e9)) samples st Hst)
        as [Hsame|(before & ts & acc & after & Hsplit & Hb & Hw & Hscan)].
      * rewrite Hsame in Hrun.
        destruct (IH st st' Hst Hrun Hinit)
          as (t & p & b & ts & acc & a & Hin & Hrest).
        exists t, p, b, ts, acc, a. split; [now right|exact Hrest].
      * rewrite Hscan in Hrun.
        rewrite seed_gravity_initialized in Hrun by reflexivity. subst st'.
        exists timestamp, pose, before, ts, acc, after.
        split; [now left|]. auto.
    + destruct (IH st st' Hst Hrun Hinit)
        as (t & p & b & ts & acc & a & Hin & Hrest).
      exists t, p, b, ts, acc, a. split; [now right|exact Hrest].
Qed.

End ContinuousTimeMain.

(** C2, at an input without an accelerometer sample inside the tolerance
    (poses at 0 s, 1 s and 2 s, samples at 0.5 s and 1.5 s).  [main] does not
    end in a fatal check: it returns, [g_initialized] is still false, and the
    vector handed to [setG] is the indeterminate [g_a_init]. *)
Theorem gravity_seeding_failure_goes_unreported :
  Forall (fun timestamp =>
            Forall (fun s => ContinuousTime.within_tolerance
                               (to_int64 (fst s * e9)) (to_int64 (timestamp * e9)) = false)
                   (accelerometer Demo.telemetry_far))
         (map (fun iv => view_timestamp (snd iv)) Demo.views) /\
  match ContinuousTime.main (Demo.files Demo.telemetry_far) Demo.flags with
  | Returned r =>
      ContinuousTime.g_initialized (ContinuousTime.gravity_init r) = false /\
      ContinuousTime.cs_g (ContinuousTime.calib_spline r) = None /\
      ContinuousTime.num_frames r = 2
  | _ => False
  end.
Proof.
  split.
  - repeat constructor.
  - vm_compute. repeat split.
Qed.

(** C4, as the specification words it, fails: with a bias of (0.1, 0, 0) and
    the identity for every rotation, the sample (0, 0, 9.81) at 1 ms seeds
    the gravity (0.1, 0, 9.81), which is not the rotated raw sample. *)
Lemma gravity_seed_raw_counterexample :
  exists calib_corners calib_init_poses pose g,
    ContinuousTime.fill_tables 0 2 Demo.views ∅ ∅ = Some (calib_corners, calib_init_poses) /\
    calib_init_poses !! (0, 0) = Some pose /\
    ContinuousTime.within_tolerance (to_int64 ((1 # 1000) * e9)) 0 = true /\
    ContinuousTime.seed_gravity (mkSE3 (transpose mat_id) vzero) Demo.accl_bias
      calib_init_poses (accelerometer Demo.telemetry_near) [0; 1; 2]%Q
      ContinuousTime.gravity_start
    = ContinuousTime.mkGravityInit true (Some g) /\
    ~ veq g (mat_vec (mat_mul (so3 (ContinuousTime.T_a_c pose)) (transpose (transpose mat_id)))
                     (mkVec3 0 0 (981 # 100))).
Proof.
  eexists _, _, _, _. split; [vm_compute; reflexivity|].
  split; [vm_compute; reflexivity|].
  split; [reflexivity|].
  split; [vm_compute; reflexivity|].
  intros [Hx _]. vm_compute in Hx. discriminate Hx.
Qed.

(** C4, as the code has it.  When the seeding succeeds the gravity is, for
    a pose of the table, the first accelerometer sample inside the tolerance
    of that pose, with the accelerometer bias added, rotated by the
    orientation of the pose composed with the inverse of the initial
    IMU-to-camera rotation. *)
Theorem gravity_seed_is_rotated_biased_sample
        (T_i_c_init : SE3) (accl_bias : Vec3)
        (calib_init_poses : gmap ContinuousTime.TimeCamId ContinuousTime.CalibInitPoseData)
        (samples : list (Q * Vec3)) (timestamps : list Q) (st : ContinuousTime.GravityInit) :
  ContinuousTime.seed_gravity T_i_c_init accl_bias calib_init_poses samples timestamps
    ContinuousTime.gravity_start = st ->
  ContinuousTime.g_initialized st = true ->
  exists timestamp pose before timestamp_ms acc after,
    In timestamp timestamps /\
    calib_init_poses !! (to_int64 (timestamp * e9), 0) = Some pose /\
    samples = before ++ (timestamp_ms, acc) :: after /\
    Forall (fun s => ContinuousTime.within_tolerance
                       (to_int64 (fst s * e9)) (to_int64 (timestamp * e9)) = false) before /\
    ContinuousTime.within_tolerance
      (to_int64 (timestamp_ms * e9)) (to_int64 (timestamp * e9)) = true /\
    ContinuousTime.g_a_init st
      = Some (mat_vec (mat_mul (so3 (ContinuousTime.T_a_c pose)) (transpose (so3 T_i_c_init)))
                      (vadd acc accl_bias)).
Proof.
  intros Hrun Hinit.
  exact (seed_gravity_first_match T_i_c_init accl_bias calib_init_poses samples timestamps
           ContinuousTime.gravity_start st eq_refl Hrun Hinit).
Qed.

Lemma gravity_seed_is_rotated_biased_sample_witness :
  exists timestamp pose before timestamp_ms acc after,
    In timestamp [0; 1; 2]%Q /\
    Demo.init_poses !! (to_int64 (timestamp * e9), 0) = Some pose /\
    accelerometer Demo.telemetry_near = before ++ (timestamp_ms, acc) :: after /\
    Forall (fun s => ContinuousTime.within_tolerance
                       (to_int64 (fst s * e9)) (to_int64 (timestamp * e9)) = false) before /\
    ContinuousTime.within_tolerance
      (to_int64 (timestamp_ms * e9)) (to_int64 (timestamp * e9)) = true /\
    ContinuousTime.g_a_init
      (ContinuousTime.seed_gravity (mkSE3 mat_id vzero) Demo.accl_bias Demo.init_poses
         (accelerometer Demo.telemetry_near) [0; 1; 2]%Q ContinuousTime.gravity_start)
      = Some (mat_vec (mat_mul (so3 (ContinuousTime.T_a_c pose)) (transpose mat_id))
                      (vadd acc Demo.accl_bias)).
Proof.
  apply (gravity_seed_is_rotated_biased_sample (mkSE3 mat_id vzero) Demo.accl_bias
           Demo.init_poses (accelerometer Demo.telemetry_near) [0; 1; 2]%Q _ eq_refl).
  vm_compute. reflexivity.
Defined.

Lemma time_window_half_open_witness :
  ContinuousTime.pose_in_window 0 2 2 = false /\
  (is_Some (Demo.corner_table !! (0, 0)) <-> is_Some (Demo.init_poses !! (0, 0))).
Proof.
  pose proof (time_window_half_open Demo.views 0 2 Demo.corner_table Demo.init_poses
                ltac:(vm_compute; reflexivity) ltac:(vm_compute; reflexivity)) as H.
  split; [apply H|apply H].
Defined.

(** C3, as the specification words it, fails: with poses at 0 s, 1 s and
    2 s the pose at tend = 2 s lies in [t0, tend] and is not in the table,
    and an IMU sample whose corrected time is exactly [end_t_ns] is not
    handed to the spline. *)
Lemma closed_window_counterexample :
  ~ (forall (views : list (ViewId * View)) (t0 tend : Q)
            (calib_corners : gmap ContinuousTime.TimeCamId ContinuousTime.CalibCornerData)
            (calib_init_poses : gmap ContinuousTime.TimeCamId ContinuousTime.CalibInitPoseData),
       ContinuousTime.minmax_element (map (fun iv => view_timestamp (snd iv)) views)
         = Some (t0, tend) ->
       ContinuousTime.fill_tables t0 tend views ∅ ∅ = Some (calib_corners, calib_init_poses) ->
       forall iv, In iv views ->
         (t0 <= view_timestamp (snd iv) /\ view_timestamp (snd iv) <= tend)%Q ->
         is_Some (calib_init_poses !! ContinuousTime.key_of (view_timestamp (snd iv)))) /\
  (inject_Z 0 <= ContinuousTime.imu_time 2000 0 /\
   ContinuousTime.imu_time 2000 0 <= inject_Z 2000000000)%Q /\
  ContinuousTime.add_imu vzero 0 1 0 2000000000 [(2000%Q, vzero)] = [].
Proof.
  split; [|split; [split; vm_compute; discriminate|reflexivity]].
  intros H.
  specialize (H Demo.views 0%Q 2%Q Demo.corner_table Demo.init_poses
                ltac:(vm_compute; reflexivity) ltac:(vm_compute; reflexivity)
                (2, mkView 2 Demo.features Demo.camera)
                ltac:(right; right; left; reflexivity)
                ltac:(split; vm_compute; discriminate)).
  vm_compute in H. destruct H as [x Hx]. discriminate Hx.
Qed.

(** C5, as the code has it.  In the continuous-time calibration each of the
    five input artifacts (and the name of the error-weighting file) is read
    under a fatal check: when one of them cannot be read [main] ends in that
    check, with its message and without a result.  The charuco application
    does the same for the reconstruction only. *)
Theorem unreadable_artifact_is_fatal (fs : Files) (FLAGS : ContinuousTime.Flags) :
  ReadIMUBias fs (ContinuousTime.FLAGS_imu_bias_file FLAGS) = None \/
  ReadReconstruction fs (ContinuousTime.FLAGS_input_calibration_dataset FLAGS) = None \/
  ReadGoProTelemetry fs (ContinuousTime.FLAGS_gopro_telemetry_json FLAGS) = None \/
  ReadIMU2CamInit fs (ContinuousTime.FLAGS_gyro_to_cam_initial_calibration FLAGS) = None \/
  ReadSplineErrorWeighting fs (ContinuousTime.FLAGS_spline_error_weighting_json FLAGS) = None ->
  (exists msg, ContinuousTime.main fs FLAGS = Fatal msg) /\
  (forall {Acc : Type} (acc_zero : Acc) acc_add contribution converged propose
          (CFLAGS : Charuco.Flags) (recon_calib_dataset : Reconstruction),
     ReadReconstruction fs (Charuco.FLAGS_input_calibration_dataset CFLAGS) = None ->
     Charuco.main acc_zero acc_add contribution converged propose fs CFLAGS recon_calib_dataset
       = Fatal "Could not read Reconstruction file.").
Proof.
  intros Hnone. split.
  - unfold ContinuousTime.main, mbind, outcome_bind.
    destruct (ReadIMUBias fs _) as [[gyro_bias accl_bias]|]; simpl; [|eauto].
    destruct (ReadReconstruction fs _); simpl; [|eauto].
    destruct (ReadGoProTelemetry fs _); simpl; [|eauto].
    destruct (ReadIMU2CamInit fs _) as [[imu2cam offset]|]; simpl; [|eauto].
    destruct (negb _); simpl; [|eauto].
    destruct (ReadSplineErrorWeighting fs _); simpl; [|eauto].
    exfalso. destruct Hnone as [H|[H|[H|[H|H]]]]; discriminate H.
  - intros Acc acc_zero acc_add contribution converged propose CFLAGS recon Hrec.
    unfold Charuco.main. rewrite Hrec. reflexivity.
Qed.

Lemma unreadable_artifact_is_fatal_witness :
  exists msg, ContinuousTime.main Demo.files_without_telemetry Demo.flags = Fatal msg.
Proof.
  apply (unreadable_artifact_is_fatal Demo.files_without_telemetry Demo.flags).
  right; right; left. reflexivity.
Defined.

(** C5, as the specification words it, fails in the charuco application: an
    unreadable telemetry file is answered by a line on the output, after
    which [main] builds the trajectory and runs the solver. *)
Lemma unreadable_telemetry_counterexample :
  ReadGoProTelemetry Demo.files_without_telemetry
                     (Charuco.FLAGS_gopro_telemetry_json Demo.charuco_flags) = None /\
  match Charuco.main 0 Z.add Demo.contribution Demo.converged Demo.propose
                     Demo.files_without_telemetry Demo.charuco_flags Demo.charuco_recon with
  | Returned r =>
      Charuco.printed r = ["Could not read: telemetry.json"%string] /\
      is_Some (Charuco.solved r)
  | _ => False
  end.
Proof.
  split; [reflexivity|].
  vm_compute. split; [reflexivity|eauto].
Qed.

(** ** The knot store: [ExtendTo] *)

Section ExtendToFacts.

Import Kontiki.

Context {K : Type}.
Implicit Types (s : Spline K) (time : Q).

Lemma Qdiv_le_mult (a b c : Q) : (0 < c)%Q -> (a / c <= b)%Q -> (a <= b * c)%Q.
Proof.
  intros Hc H.
  assert (Hne : ~ (c == 0)%Q) by (intros E; rewrite E in Hc; exact (Qlt_irrefl _ Hc)).
  setoid_replace a with (a / c * c)%Q using relation Qeq by (field; exact Hne).
  apply Qmult_le_compat_r; [exact H|now apply Qlt_le_weak].
Qed.

Lemma domain_end_append s (k : K) :
  (domain_end (AppendKnot s k) == domain_end s + sp_dt s)%Q.
Proof.
  unfold domain_end, NumKnots, AppendKnot. simpl.
  rewrite length_app. simpl.
  replace (Z.of_nat (length (sp_knots s) + 1) - Z.of_nat (sp_order s))
    with ((Z.of_nat (length (sp_knots s)) - Z.of_nat (sp_order s)) + 1) by lia.
  rewrite inject_Z_plus. ring.
Qed.

Lemma extend_loop_covered fuel time (d : K) s :
  covers s time = true -> extend_loop fuel time d s = s.
Proof. intros H. destruct fuel; simpl; now rewrite H. Qed.

(** With a positive spacing the loop ends with the domain covering [time]
    as soon as the fuel is at least the number of missing knots. *)
Lemma extend_loop_covers (fuel : nat) time (d : K) : forall s,
  (0 < sp_dt s)%Q ->
  ((time - domain_end s) / sp_dt s <= inject_Z (Z.of_nat fuel))%Q ->
  covers (extend_loop fuel time d s) time = true.
Proof.
  induction fuel as [|fuel IH]; intros s Hdt Hfuel.
  - assert (Hc : covers s time = true).
    { apply Qle_bool_iff. apply Qdiv_le_mult in Hfuel; [|exact Hdt].
      simpl in Hfuel. rewrite Qmult_0_l in Hfuel.
      apply Qplus_le_l with (z := (- domain_end s)%Q).
      rewrite Qplus_opp_r. exact Hfuel. }
    simpl. now rewrite Hc.
  - simpl. destruct (covers s time) eqn:Hc; [exact Hc|].
    apply IH; [exact Hdt|].
    simpl sp_dt.
    assert (Hne : ~ (sp_dt s == 0)%Q)
      by (intros E; rewrite E in Hdt; exact (Qlt_irrefl _ Hdt)).
    rewrite domain_end_append.
    setoid_replace ((time - (domain_end s + sp_dt s)) / sp_dt s)%Q
      with ((time - domain_end s) / sp_dt s - 1)%Q using relation Qeq by (field; exact Hne).
    rewrite Nat2Z.inj_succ in Hfuel. unfold Z.succ in Hfuel.
    rewrite inject_Z_plus in Hfuel.
    apply Qplus_le_l with (z := 1%Q).
    setoid_replace ((time - domain_end s) / sp_dt s - 1 + 1)%Q
      with ((time - domain_end s) / sp_dt s)%Q using relation Qeq by ring.
    exact Hfuel.
Qed.

Lemma ExtendTo_covers s time (d : K) :
  (0 < sp_dt s)%Q -> covers (ExtendTo s time d) time = true.
Proof.
  intros Hdt. unfold ExtendTo. apply extend_loop_covers; [exact Hdt|].
  unfold knots_missing.
  apply Qle_trans with (inject_Z (Qceiling ((time - domain_end s) / sp_dt s))).
  - apply Qle_ceiling.
  - rewrite <- Zle_Qle. lia.
Qed.

Lemma ExtendTo_again s time (d d' : K) :
  (0 < sp_dt s)%Q -> ExtendTo (ExtendTo s time d) time d' = ExtendTo s time d.
Proof.
  intros Hdt. unfold ExtendTo at 1. apply extend_loop_covered.
  now apply ExtendTo_covers.
Qed.

(** [ExtendTo] only appends: the knots that were there stay in place. *)
Lemma extend_loop_appends fuel time (d : K) : forall s,
  exists n, sp_knots (extend_loop fuel time d s) = sp_knots s ++ replicate n d.
Proof.
  induction fuel as [|fuel IH]; intros s; simpl.
  - exists O. destruct (covers s time); simpl; now rewrite app_nil_r.
  - destruct (covers s time).
    + exists O. simpl. now rewrite app_nil_r.
    + destruct (IH (AppendKnot s d)) as [n Hn]. exists (S n).
      rewrite Hn. simpl. now rewrite <- app_assoc.
Qed.

End ExtendToFacts.

(** C7.  [ExtendTo] is idempotent on a trajectory with positive knot
    spacings: after a first call the domain of both splines covers the target
    time, and a second call with the same target time returns the same
    trajectory, so that no knot count and no evaluated pose changes. *)
Theorem ExtendTo_idempotent (tr : Kontiki.Trajectory) (time : Q)
        (p p' : Vec3) (q q' : Kontiki.Quat) :
  (0 < Kontiki.sp_dt (Kontiki.r3_spline tr))%Q ->
  (0 < Kontiki.sp_dt (Kontiki.so3_spline tr))%Q ->
  Kontiki.covers (Kontiki.r3_spline (Kontiki.TrajectoryExtendTo tr time p q)) time = true /\
  Kontiki.covers (Kontiki.so3_spline (Kontiki.TrajectoryExtendTo tr time p q)) time = true /\
  Kontiki.NumKnots
    (Kontiki.r3_spline
       (Kontiki.TrajectoryExtendTo (Kontiki.TrajectoryExtendTo tr time p q) time p' q'))
    = Kontiki.NumKnots (Kontiki.r3_spline (Kontiki.TrajectoryExtendTo tr time p q)) /\
  Kontiki.NumKnots
    (Kontiki.so3_spline
       (Kontiki.TrajectoryExtendTo (Kontiki.TrajectoryExtendTo tr time p q) time p' q'))
    = Kontiki.NumKnots (Kontiki.so3_spline (Kontiki.TrajectoryExtendTo tr time p q)) /\
  (forall blend_r3 blend_so3 t,
     Kontiki.EvaluatePose blend_r3 blend_so3
       (Kontiki.TrajectoryExtendTo (Kontiki.TrajectoryExtendTo tr time p q) time p' q') t
     = Kontiki.EvaluatePose blend_r3 blend_so3 (Kontiki.TrajectoryExtendTo tr time p q) t).
Proof.
  intros Hr3 Hso3.
  assert (Hsame :
    Kontiki.TrajectoryExtendTo (Kontiki.TrajectoryExtendTo tr time p q) time p' q'
    = Kontiki.TrajectoryExtendTo tr time p q).
  { unfold Kontiki.TrajectoryExtendTo. simpl.
    rewrite !ExtendTo_again by assumption. reflexivity. }
  split; [now apply ExtendTo_covers|].
  split; [now apply ExtendTo_covers|].
  rewrite Hsame. auto.
Qed.

(** ** The estimator: order of registration

    With an exact sum, commutative and associative, the reduction of the
    accumulators and so the iterations do not depend on the order of the
    measurements.  The sums of the absent estimator are sums of doubles,
    which are not associative. *)

Section RegistrationOrder.

Import Kontiki.

Context {State Measurement Acc : Type}.
Variable acc_zero : Acc.
Variable acc_add : Acc -> Acc -> Acc.
Variable contribution : State -> Measurement -> Acc.
Variable converged : State -> Acc -> bool.
Variable update : State -> Acc -> State.

Hypothesis acc_add_comm : forall a b, acc_add a b = acc_add b a.
Hypothesis acc_add_assoc : forall a b c, acc_add a (acc_add b c) = acc_add (acc_add a b) c.

Lemma reduce_permutation st (ms ms' : list Measurement) :
  Permutation ms ms' ->
  reduce acc_zero acc_add contribution st ms = reduce acc_zero acc_add contribution st ms'.
Proof.
  induction 1 as [|m ms ms' _ IH|m1 m2 ms|ms1 ms2 ms3 _ IH1 _ IH2]; simpl.
  - reflexivity.
  - now rewrite IH.
  - rewrite !acc_add_assoc. f_equal. apply acc_add_comm.
  - now rewrite IH1.
Qed.

Lemma iterate_permutation n (ms ms' : list Measurement) :
  Permutation ms ms' ->
  forall st,
    iterate acc_zero acc_add contribution converged update n ms st
    = iterate acc_zero acc_add contribution converged update n ms' st.
Proof.
  intros Hp. induction n as [|n IH]; intros st; simpl; [reflexivity|].
  rewrite (reduce_permutation st ms ms' Hp).
  destruct (converged st _); [reflexivity|apply IH].
Qed.

Lemma register_measurements (e : Estimator State Measurement) ms :
  foldl AddMeasurement e ms = mkEstimator (est_state e) (est_measurements e ++ ms).
Proof.
  revert e. induction ms as [|m ms IH]; intros e; simpl.
  - rewrite app_nil_r. now destruct e.
  - rewrite IH. simpl. now rewrite <- app_assoc.
Qed.

End RegistrationOrder.

(** Summed in doubles, the contributions 0.1, 0.2 and 0.3 give 0.6 in one
    order and 0.6000000000000001 in the other. *)
Example reduce_order_in_doubles :
  Qeq (Kontiki.reduce 0%Q fadd (fun (_ : unit) (m : Q) => m) tt
         [double (1 # 10); double (2 # 10); double (3 # 10)])
      (double (6 # 10)) /\
  ~ Qeq (Kontiki.reduce 0%Q fadd (fun (_ : unit) (m : Q) => m) tt
           [double (3 # 10); double (2 # 10); double (1 # 10)])
        (double (6 # 10)).
Proof.
  split; [vm_compute; reflexivity|vm_compute; discriminate].
Qed.

Lemma ExtendTo_idempotent_witness :
  Kontiki.NumKnots
    (Kontiki.r3_spline
       (Kontiki.TrajectoryExtendTo
          (Kontiki.TrajectoryExtendTo Demo.trajectory (1 # 2) vzero (Kontiki.mkQuat 1 0 0 0))
          (1 # 2) vzero (Kontiki.mkQuat 1 0 0 0)))
  = Kontiki.NumKnots
      (Kontiki.r3_spline
         (Kontiki.TrajectoryExtendTo Demo.trajectory (1 # 2) vzero (Kontiki.mkQuat 1 0 0 0))).
Proof.
  apply (ExtendTo_idempotent Demo.trajectory (1 # 2) vzero vzero
           (Kontiki.mkQuat 1 0 0 0) (Kontiki.mkQuat 1 0 0 0));
    reflexivity.
Defined.

(** The first call on the empty trajectory appends ten knots for 0.5 s. *)
Example ExtendTo_half_second :
  Kontiki.NumKnots
    (Kontiki.r3_spline
       (Kontiki.TrajectoryExtendTo Demo.trajectory (1 # 2) vzero (Kontiki.mkQuat 1 0 0 0)))
  = 10%nat.
Proof. reflexivity. Qed.

(** ** create_imu_camera_charuco.cc: the landmarks *)

Section Landmarks.

Import Kontiki Charuco.

Lemma add_observation_keeps tracks l o :
  locked_track_point tracks l -> locked_track_point tracks (add_observation l o).
Proof. intros H. exact H. Qed.

Lemma set_reference_keeps tracks l o :
  locked_track_point tracks l -> locked_track_point tracks (set_reference l o).
Proof. intros H. exact H. Qed.

Lemma CreateObservation_keeps tracks b vk idx feature :
  Forall (locked_track_point tracks) (kontiki_landmarks b) ->
  Forall (locked_track_point tracks) (kontiki_landmarks (CreateObservation b vk idx feature)).
Proof.
  intros H. unfold CreateObservation. simpl.
  apply Forall_alter; [exact H|].
  intros l _ Hl. now apply add_observation_keeps.
Qed.

Lemma observe_keeps tracks recon track_id idx views_observing_track :
  forall b b',
    observe recon track_id idx views_observing_track b = Some b' ->
    Forall (locked_track_point tracks) (kontiki_landmarks b) ->
    Forall (locked_track_point tracks) (kontiki_landmarks b').
Proof.
  induction views_observing_track as [|view_id rest IH]; intros b b' Hobs Hb;
    simpl in Hobs.
  - now injection Hobs as <-.
  - destruct (GetView recon view_id) as [view|]; simpl in Hobs; [|discriminate].
    destruct (GetFeature view track_id) as [feature|]; simpl in Hobs; [|discriminate].
    destruct (kontiki_views b !! view_id) as [vk|].
    + eapply IH; [exact Hobs|]. simpl. now apply CreateObservation_keeps.
    + eapply IH; eassumption.
Qed.

Lemma make_landmarks_keeps all_tracks recon tracks :
  (forall t, In t tracks -> In t all_tracks) ->
  forall b b',
    make_landmarks recon tracks b = Some b' ->
    Forall (locked_track_point all_tracks) (kontiki_landmarks b) ->
    Forall (locked_track_point all_tracks) (kontiki_landmarks b').
Proof.
  induction tracks as [|[track_id track] rest IH]; intros Hsub b b' Hmake Hb;
    cbn [make_landmarks] in Hmake.
  - now injection Hmake as <-.
  - assert (Hrest : forall t, In t rest -> In t all_tracks)
      by (intros t Ht; apply Hsub; now right).
    revert Hmake.
    destruct (2 <=? count_views (kontiki_views b) (track_views track))%nat;
      [|intros Hmake].
    + destruct (observe recon track_id (length (kontiki_landmarks b))
                        (track_views track) _) as [b1|] eqn:Hobs; simpl;
        [intros Hmake|discriminate].
      apply (IH Hrest b1 b' Hmake).
      eapply observe_keeps; [exact Hobs|]. simpl.
      apply Forall_app. split; [exact Hb|].
      constructor; [|constructor].
      split; [reflexivity|].
      exists (track_id, track). split; [apply Hsub; now left|reflexivity].
    + exact (IH Hrest b b' Hmake Hb).
Qed.

Lemma set_references_keeps tracks ls ls' :
  set_references ls = Some ls' ->
  Forall (locked_track_point tracks) ls ->
  Forall (locked_track_point tracks) ls'.
Proof.
  unfold set_references. intros Hm. apply mapM_Some in Hm.
  induction Hm as [|l l' ls ls' Hl _ IH]; intros Hall; [constructor|].
  inversion Hall as [|? ? Hhead Htail]; subst.
  constructor; [|now apply IH].
  destruct (head (lm_observations l)) as [o|]; simpl in Hl; [|discriminate].
  injection Hl as <-. now apply set_reference_keeps.
Qed.

Lemma keep_locked_all_locked (old proposed : list Landmark) :
  Forall (fun l => lm_locked l = true) old -> keep_locked old proposed = old.
Proof.
  intros H. revert proposed.
  induction H as [|o old Ho _ IH]; intros proposed; [reflexivity|].
  destruct proposed as [|p proposed]; simpl; rewrite ?Ho, IH; reflexivity.
Qed.

Context {Acc : Type}.
Variable acc_zero : Acc.
Variable acc_add : Acc -> Acc -> Acc.
Variable contribution : State -> CamMeasurementPinhole -> Acc.
Variable converged : State -> Acc -> bool.
Variable propose : State -> Acc -> State.

(** The iterations leave a list of locked landmarks as it is. *)
Lemma iterate_keeps_locked n ms : forall st,
  Forall (fun l => lm_locked l = true) (st_landmarks st) ->
  st_landmarks (iterate acc_zero acc_add contribution converged (update propose) n ms st)
  = st_landmarks st.
Proof.
  induction n as [|n IH]; intros st Hst; simpl; [reflexivity|].
  destruct (converged st _); [reflexivity|].
  assert (Hupd : st_landmarks (update propose st
                                 (reduce acc_zero acc_add contribution st ms))
                 = st_landmarks st).
  { unfold update. simpl. now apply keep_locked_all_locked. }
  rewrite IH; rewrite Hupd; [reflexivity|exact Hst].
Qed.

Lemma register_keeps_state (e : TrajEstimator) ms :
  est_state (register e ms) = est_state e.
Proof. unfold register. now rewrite register_measurements. Qed.


End Landmarks.

Lemma GetReprojErrorOfView_mean_or_nan_witness :
  CalibrateCamera.GetReprojErrorOfView Demo.project Demo.norm1 Demo.recon_empty_view 0
    = Some NaN /\
  exists (obs : list (Feature * Track)) (mean : Q),
    Forall2 (fun tid ft =>
               GetFeature (mkView 0 Demo.features Demo.camera) tid = Some (fst ft) /\
               GetTrack Demo.recon tid = Some (snd ft))
            [0; 1] obs /\
    CalibrateCamera.GetReprojErrorOfView Demo.project Demo.norm1 Demo.recon 0
      = Some (Finite mean) /\
    (mean == Qsum (map (fun ft =>
                          Demo.norm1 (vsub2 (Demo.project Demo.camera
                                                          (track_point (snd ft)))
                                            (fst ft)))
                       obs)
             / inject_Z 2)%Q.
Proof.
  split.
  - apply (GetReprojErrorOfView_mean_or_nan Demo.project Demo.norm1
             Demo.recon_empty_view 0 (mkView 0 [] Demo.camera));
      [reflexivity | intros tid [] | reflexivity].
  - apply (GetReprojErrorOfView_mean_or_nan Demo.project Demo.norm1
             Demo.recon 0 (mkView 0 Demo.features Demo.camera)).
    + reflexivity.
    + intros tid [<-|[<-|[]]]; eexists; reflexivity.
    + discriminate.
Defined.

(** The mean of the two views of the small reconstruction. *)
Example GetReprojErrorOfView_values :
  CalibrateCamera.GetReprojErrorOfView Demo.project Demo.norm1 Demo.recon 0
    = Some (Finite ((0 + 2 + 1) / 2)) /\
  CalibrateCamera.GetReprojErrorOfView Demo.project Demo.norm1 Demo.recon_empty_view 0
    = Some NaN.
Proof. split; reflexivity. Qed.

(** * Further properties of the applications *)

(** ** continuous_time_imu_to_camera_calibration_new.cc: what a return of
    [main] implies *)

Section ContinuousTimeReturn.

Import ContinuousTime.

Ltac main_case :=
  match goal with
  | |- context [CHECK ?o _] => destruct o eqn:?; cbn [bind CHECK]
  | |- context [CHECK_cond ?c _] => destruct c eqn:?; cbn [bind CHECK_cond]
  | |- context [defined ?o] => destruct o eqn:?; cbn [bind defined]
  | |- context [let '(_, _) := ?p in _] => destruct p eqn:?
  | |- context [bind (match ?m !! ?k with _ => _ end) _] =>
      destruct (m !! k) eqn:?; cbn [bind]
  | |- context [bind (add_corners ?a ?b ?c ?d) _] =>
      destruct (add_corners a b c d) eqn:?; cbn [bind]
  end.

(** The values [main] has read and computed when it returns. *)
Lemma main_returned (fs : Files) (FLAGS : Flags) (r : Result) :
  main fs FLAGS = Returned r ->
  exists gyro_bias accl_bias calib_dataset telemetry_data imu2cam offset weight_data
         t0 tend calib_corners calib_init_poses pose_init cms,
    ReadIMUBias fs (FLAGS_imu_bias_file FLAGS) = Some (gyro_bias, accl_bias) /\
    ReadReconstruction fs (FLAGS_input_calibration_dataset FLAGS) = Some calib_dataset /\
    ReadGoProTelemetry fs (FLAGS_gopro_telemetry_json FLAGS) = Some telemetry_data /\
    ReadIMU2CamInit fs (FLAGS_gyro_to_cam_initial_calibration FLAGS)
      = Some (imu2cam, offset) /\
    ReadSplineErrorWeighting fs (FLAGS_spline_error_weighting_json FLAGS)
      = Some weight_data /\
    (2 <= length (accelerometer telemetry_data))%nat /\
    minmax_element (map (fun iv => view_timestamp (snd iv)) (recon_views calib_dataset))
      = Some (t0, tend) /\
    fill_tables t0 tend (recon_views calib_dataset) ∅ ∅
      = Some (calib_corners, calib_init_poses) /\
    calib_init_poses !! (to_int64 t0, 0) = Some pose_init /\
    to_int64 (dt_so3 weight_data * e9) <> 0 /\
    to_int64 (dt_r3 weight_data * e9) <> 0 /\
    add_corners calib_dataset (to_int64 (t0 * e9)) (to_int64 (tend * e9))
                (map_to_list calib_corners) = Returned cms /\
    calib_spline r =
      mkCalibSpline
        (to_int64 (dt_so3 weight_data * e9)) (to_int64 (dt_r3 weight_data * e9))
        (to_int64 (t0 * e9)) calib_dataset (mkSE3 (transpose imu2cam) vzero)
        (g_a_init (gravity_init r))
        (se3_mul (T_a_c pose_init) (se3_inverse (mkSE3 (transpose imu2cam) vzero)))
        (num_knots (to_int64 (t0 * e9)) (to_int64 (tend * e9))
                   (to_int64 (dt_so3 weight_data * e9)))
        (num_knots (to_int64 (t0 * e9)) (to_int64 (tend * e9))
                   (to_int64 (dt_r3 weight_data * e9)))
        cms
        (add_imu accl_bias offset (var_r3 weight_data)
                 (to_int64 (t0 * e9)) (to_int64 (tend * e9))
                 (accelerometer telemetry_data))
        (add_imu gyro_bias offset (var_so3 weight_data)
                 (to_int64 (t0 * e9)) (to_int64 (tend * e9))
                 (gyroscope telemetry_data)) /\
    gravity_init r =
      seed_gravity (mkSE3 (transpose imu2cam) vzero) accl_bias calib_init_poses
                   (accelerometer telemetry_data)
                   (map (fun iv => view_timestamp (snd iv)) (recon_views calib_dataset))
                   gravity_start.
Proof.
  unfold main, mbind, outcome_bind.
  repeat (main_case; try discriminate).
  intros H. injection H as <-. cbn [calib_spline gravity_init].
  match goal with
  | H : accelerometer _ !! 1%nat = Some _ |- _ => apply lookup_lt_Some in H
  end.
  match goal with
  | H : (if _ || _ then None else Some tt) = Some _ |- _ =>
      destruct (_ =? 0) eqn:E1 in H; [discriminate H|];
      destruct (_ =? 0) eqn:E2 in H; [discriminate H|];
      apply Z.eqb_neq in E1, E2
  end.
  repeat eexists; eauto.
Qed.

End ContinuousTimeReturn.

(** ** Truncation to nanoseconds *)

Section Truncation.

Lemma to_int64_mono (x y : Q) : (x <= y)%Q -> to_int64 x <= to_int64 y.
Proof.
  destruct x as [a b], y as [c d]. unfold to_int64, Qle. simpl. intros H.
  rewrite <- (Z.quot_mul_cancel_r a (Z.pos b) (Z.pos d)) by lia.
  rewrite <- (Z.quot_mul_cancel_r c (Z.pos d) (Z.pos b)) by lia.
  rewrite (Z.mul_comm (Z.pos d) (Z.pos b)).
  apply Z.quot_le_mono; lia.
Qed.

Lemma to_int64_floor (x : Q) : (0 <= x)%Q -> to_int64 x = Qfloor x.
Proof.
  destruct x as [a b]. unfold to_int64, Qle, Qfloor. simpl. intros H.
  apply Z.quot_div_nonneg; lia.
Qed.

Lemma scale_mono (x y : Q) : (x <= y)%Q -> (x * e9 <= y * e9)%Q.
Proof. intros H. apply Qmult_le_compat_r; [exact H|]. unfold e9. discriminate. Qed.

(** A time of at least one second and its value in nanoseconds do not
    truncate to the same integer. *)
Lemma seconds_and_nanoseconds_differ (t0 ts : Q) :
  (1 <= t0)%Q -> (t0 <= ts)%Q -> to_int64 (ts * e9) <> to_int64 t0.
Proof.
  intros H1 Hle Heq.
  assert (H0 : (0 <= t0)%Q) by lra.
  assert (Hs : (0 <= ts * e9)%Q) by (unfold e9, inject_Z; lra).
  rewrite (to_int64_floor _ H0), (to_int64_floor _ Hs) in Heq.
  pose proof (Qfloor_le t0) as Hlo.
  pose proof (Qlt_floor (ts * e9)) as Hhi.
  rewrite Heq, inject_Z_plus in Hhi.
  change (inject_Z 1) with 1%Q in Hhi.
  unfold e9 in Hhi. change (inject_Z 1000000000) with 1000000000%Q in Hhi.
  set (k := inject_Z (Qfloor t0)) in *. lra.
Qed.

End Truncation.

(** ** continuous_time_imu_to_camera_calibration_new.cc: inputs on which
    [main] cannot return *)

Section ContinuousTimeEdges.

Import ContinuousTime.

(** When [main] returns, a pose of the window has the frame id that [main]
    looks up for the first camera (line 174). *)
Lemma main_returned_first_pose (fs : Files) (FLAGS : Flags) (r : Result) calib_dataset :
  main fs FLAGS = Returned r ->
  ReadReconstruction fs (FLAGS_input_calibration_dataset FLAGS) = Some calib_dataset ->
  exists t0 tend iv,
    minmax_element (map (fun iv => view_timestamp (snd iv)) (recon_views calib_dataset))
      = Some (t0, tend) /\
    In iv (recon_views calib_dataset) /\
    (t0 <= view_timestamp (snd iv) /\ view_timestamp (snd iv) < tend)%Q /\
    to_int64 (view_timestamp (snd iv) * e9) = to_int64 t0.
Proof.
  intros Hmain Hread.
  destruct (main_returned fs FLAGS r Hmain)
    as (gb & ab & calib & tel & i2c & off & w & t0 & tend & cc & cp & p & cms
        & _ & Hrec & _ & _ & _ & _ & Hmm & Hfill & Hpose & _).
  rewrite Hread in Hrec. injection Hrec as <-.
  destruct (fill_tables_keys _ _ _ _ _ _ _ Hfill (to_int64 t0, 0)) as [Hp _].
  destruct Hp as [Hp _]. destruct (Hp ltac:(eauto)) as [Hemp|(iv & Hin & Hw & Hk)].
  - rewrite lookup_empty in Hemp. destruct Hemp; discriminate.
  - exists t0, tend, iv. apply pose_in_window_iff in Hw.
    unfold key_of in Hk. injection Hk as Hk. auto.
Qed.

End ContinuousTimeEdges.

(** X1.  Line 174 looks the first pose up under its time in seconds, while
    the table is keyed in nanoseconds: when every pose has a time stamp of at
    least one second, [main] does not return. *)
Theorem main_needs_a_start_before_one_second
        (fs : Files) (FLAGS : ContinuousTime.Flags) (calib_dataset : Reconstruction) :
  ReadReconstruction fs (ContinuousTime.FLAGS_input_calibration_dataset FLAGS)
    = Some calib_dataset ->
  (forall iv, In iv (recon_views calib_dataset) -> (1 <= view_timestamp (snd iv))%Q) ->
  forall r, ContinuousTime.main fs FLAGS <> Returned r.
Proof.
  intros Hread Hlate r Hmain.
  destruct (main_returned_first_pose fs FLAGS r calib_dataset Hmain Hread)
    as (t0 & tend & iv & Hmm & Hin & [Hlo Hhi] & Hkey).
  apply minmax_element_bounds in Hmm. destruct Hmm as (H0 & _ & _).
  apply in_map_iff in H0. destruct H0 as (v0 & <- & Hv0).
  apply (seconds_and_nanoseconds_differ (view_timestamp (snd v0))
           (view_timestamp (snd iv))); auto.
Qed.

(** X2.  The pose with the greatest time stamp is outside the window: when
    all poses have the same time stamp, and so when there is one pose only,
    the table is empty and [main] does not return. *)
Theorem main_needs_two_instants
        (fs : Files) (FLAGS : ContinuousTime.Flags) (calib_dataset : Reconstruction) :
  ReadReconstruction fs (ContinuousTime.FLAGS_input_calibration_dataset FLAGS)
    = Some calib_dataset ->
  (forall iv iv', In iv (recon_views calib_dataset) -> In iv' (recon_views calib_dataset) ->
                  (view_timestamp (snd iv) == view_timestamp (snd iv'))%Q) ->
  forall r, ContinuousTime.main fs FLAGS <> Returned r.
Proof.
  intros Hread Hsame r Hmain.
  destruct (main_returned_first_pose fs FLAGS r calib_dataset Hmain Hread)
    as (t0 & tend & iv & Hmm & Hin & [Hlo Hhi] & Hkey).
  apply minmax_element_bounds in Hmm. destruct Hmm as (_ & H1 & _).
  apply in_map_iff in H1. destruct H1 as (v1 & <- & Hv1).
  rewrite (Hsame iv v1 Hin Hv1) in Hhi. exact (Qlt_irrefl _ Hhi).
Qed.

(** X3.  An empty pose set and a telemetry stream with fewer than two
    accelerometer samples are not caught by a check: with all artifacts
    readable [main] indexes a vector out of range. *)
Theorem main_undefined_on_short_input
        (fs : Files) (FLAGS : ContinuousTime.Flags)
        bias calib_dataset telemetry_data init weight_data :
  ReadIMUBias fs (ContinuousTime.FLAGS_imu_bias_file FLAGS) = Some bias ->
  ReadReconstruction fs (ContinuousTime.FLAGS_input_calibration_dataset FLAGS)
    = Some calib_dataset ->
  ReadGoProTelemetry fs (ContinuousTime.FLAGS_gopro_telemetry_json FLAGS)
    = Some telemetry_data ->
  ReadIMU2CamInit fs (ContinuousTime.FLAGS_gyro_to_cam_initial_calibration FLAGS)
    = Some init ->
  ContinuousTime.FLAGS_spline_error_weighting_json FLAGS <> ""%string ->
  ReadSplineErrorWeighting fs (ContinuousTime.FLAGS_spline_error_weighting_json FLAGS)
    = Some weight_data ->
  (length (accelerometer telemetry_data) < 2)%nat \/ recon_views calib_dataset = [] ->
  ContinuousTime.main fs FLAGS = Undefined.
Proof.
  intros Hb Hr Ht Hi Hflag Hw Hshort.
  unfold ContinuousTime.main, mbind, outcome_bind.
  rewrite Hb. cbn [bind CHECK]. destruct bias as [gyro_bias accl_bias].
  rewrite Hr. cbn [bind CHECK]. rewrite Ht. cbn [bind CHECK].
  rewrite Hi. cbn [bind CHECK]. destruct init as [imu2cam offset].
  apply String.eqb_neq in Hflag. rewrite Hflag. cbn [negb bind CHECK_cond].
  rewrite Hw. cbn [bind CHECK].
  destruct (accelerometer telemetry_data !! 1%nat) as [s|] eqn:Hs; cbn [bind defined];
    [|reflexivity].
  destruct Hshort as [Hlen|Hviews].
  - apply lookup_lt_Some in Hs. lia.
  - rewrite Hviews. reflexivity.
Qed.

Lemma main_needs_a_start_before_one_second_witness :
  Cases.returned
    (ContinuousTime.main (Cases.files_of Cases.late_recon Demo.telemetry_near) Demo.flags)
  = false.
Proof.
  destruct (ContinuousTime.main _ _) as [msg| |what|r] eqn:E; try reflexivity.
  exfalso.
  apply (main_needs_a_start_before_one_second
           (Cases.files_of Cases.late_recon Demo.telemetry_near) Demo.flags
           Cases.late_recon eq_refl) with (r := r); [|exact E].
  intros iv [<-|[<-|[<-|[]]]]; simpl; discriminate.
Defined.

(** With poses at 1 s, 2 s and 3 s the lookup of line 176 throws. *)
Example main_throws_after_one_second :
  ContinuousTime.main (Cases.files_of Cases.late_recon Demo.telemetry_near) Demo.flags
  = Thrown "std::out_of_range".
Proof. vm_compute. reflexivity. Qed.

Lemma main_needs_two_instants_witness :
  Cases.returned
    (ContinuousTime.main (Cases.files_of Cases.single_recon Demo.telemetry_near) Demo.flags)
  = false.
Proof.
  destruct (ContinuousTime.main _ _) as [msg| |what|r] eqn:E; try reflexivity.
  exfalso.
  apply (main_needs_two_instants
           (Cases.files_of Cases.single_recon Demo.telemetry_near) Demo.flags
           Cases.single_recon eq_refl) with (r := r); [|exact E].
  intros iv iv' [<-|[]] [<-|[]]. reflexivity.
Defined.

Lemma main_undefined_on_short_input_witness :
  ContinuousTime.main (Cases.files_of Cases.empty_recon Demo.telemetry_near) Demo.flags
  = Undefined.
Proof.
  apply (main_undefined_on_short_input
           (Cases.files_of Cases.empty_recon Demo.telemetry_near) Demo.flags
           (Demo.gyro_bias, Demo.accl_bias) Cases.empty_recon Demo.telemetry_near
           (mat_id, 0%Q) Demo.weighting);
    try reflexivity.
  - discriminate.
  - right. reflexivity.
Defined.

(** ** continuous_time_imu_to_camera_calibration_new.cc: which sample seeds
    the gravity *)

Section GravitySeed.

Import ContinuousTime Seeding.

Lemma scan_accel_cases T_a_i accl_bias timestamp_ns samples st :
  g_initialized st = false ->
  (no_sample_near samples timestamp_ns /\
   scan_accel T_a_i accl_bias timestamp_ns samples st = st) \/
  (exists before timestamp_ms acc after,
      samples = before ++ (timestamp_ms, acc) :: after /\
      no_sample_near before timestamp_ns /\
      within_tolerance (to_int64 (timestamp_ms * e9)) timestamp_ns = true /\
      scan_accel T_a_i accl_bias timestamp_ns samples st
        = mkGravityInit true (Some (mat_vec (so3 T_a_i) (vadd acc accl_bias)))).
Proof.
  intros Hst. induction samples as [|[ts acc] samples IH]; simpl.
  - left. split; [constructor|reflexivity].
  - rewrite Hst.
    destruct (within_tolerance (to_int64 (ts * e9)) timestamp_ns) eqn:Hw.
    + right. exists [], ts, acc, samples.
      split; [reflexivity|]. split; [constructor|]. auto.
    + destruct IH as [[Hnone IH]|(before & ts' & acc' & after & -> & Hb & Hw' & IH)].
      * left. split; [constructor; assumption|exact IH].
      * right. exists ((ts, acc) :: before), ts', acc', after.
        split; [reflexivity|]. split; [constructor; assumption|]. auto.
Qed.

Lemma seed_gravity_cases T_i_c_init accl_bias calib_init_poses samples timestamps :
  forall st,
    g_initialized st = false ->
    (Forall (fun t => ~ can_seed calib_init_poses samples t) timestamps /\
     seed_gravity T_i_c_init accl_bias calib_init_poses samples timestamps st = st) \/
    (exists earlier timestamp later pose before timestamp_ms acc after,
        timestamps = earlier ++ timestamp :: later /\
        Forall (fun t => ~ can_seed calib_init_poses samples t) earlier /\
        calib_init_poses !! (to_int64 (timestamp * e9), 0) = Some pose /\
        samples = before ++ (timestamp_ms, acc) :: after /\
        no_sample_near before (to_int64 (timestamp * e9)) /\
        within_tolerance (to_int64 (timestamp_ms * e9)) (to_int64 (timestamp * e9)) = true /\
        seed_gravity T_i_c_init accl_bias calib_init_poses samples timestamps st
          = mkGravityInit true
              (Some (mat_vec (mat_mul (so3 (T_a_c pose)) (transpose (so3 T_i_c_init)))
                             (vadd acc accl_bias)))).
Proof.
  induction timestamps as [|timestamp timestamps IH]; intros st Hst; simpl.
  - left. split; [constructor|reflexivity].
  - destruct (calib_init_poses !! (to_int64 (timestamp * e9), 0)) as [pose|] eqn:Hpose.
    + rewrite Hst.
      destruct (scan_accel_cases
                  (se3_mul (T_a_c pose) (se3_inverse T_i_c_init))
                  accl_bias (to_int64 (timestamp * e9)) samples st Hst)
        as [[Hnone Hsame]|(before & ts & acc & after & Hsplit & Hb & Hw & Hscan)].
      * rewrite Hsame.
        destruct (IH st Hst)
          as [[Hall IH']|(e & t & l & p & b & ts & acc & a & -> & He & Hrest)].
        -- left. split; [|exact IH'].
           constructor; [|exact Hall]. intros [_ Hnear]. exact (Hnear Hnone).
        -- right. exists (timestamp :: e), t, l, p, b, ts, acc, a.
           split; [reflexivity|]. split; [|exact Hrest].
           constructor; [|exact He]. intros [_ Hnear]. exact (Hnear Hnone).
      * right. exists [], timestamp, timestamps, pose, before, ts, acc, after.
        rewrite Hscan, seed_gravity_initialized by reflexivity.
        split; [reflexivity|]. split; [constructor|]. auto.
    + destruct (IH st Hst)
        as [[Hall IH']|(e & t & l & p & b & ts & acc & a & -> & He & Hrest)].
      * left. split; [|exact IH'].
        constructor; [|exact Hall]. intros [[x Hx] _]. congruence.
      * right. exists (timestamp :: e), t, l, p, b, ts, acc, a.
        split; [reflexivity|]. split; [|exact Hrest].
        constructor; [|exact He]. intros [[x Hx] _]. congruence.
Qed.

End GravitySeed.

(** X4.  The gravity seeding succeeds exactly when some pose of the table
    has an accelerometer sample inside its tolerance; [g_initialized] is
    true exactly when [g_a_init] has been assigned. *)
Theorem gravity_seeded_iff
        (T_i_c_init : SE3) (accl_bias : Vec3)
        (calib_init_poses : gmap ContinuousTime.TimeCamId ContinuousTime.CalibInitPoseData)
        (samples : list (Q * Vec3)) (timestamps : list Q) :
  (ContinuousTime.g_initialized
     (ContinuousTime.seed_gravity T_i_c_init accl_bias calib_init_poses samples timestamps
                                  ContinuousTime.gravity_start) = true
   <-> Exists (fun timestamp =>
                 is_Some (calib_init_poses !! (to_int64 (timestamp * e9), 0)) /\
                 Exists (fun s => ContinuousTime.within_tolerance
                                    (to_int64 (fst s * e9)) (to_int64 (timestamp * e9)) = true)
                        samples)
              timestamps) /\
  (ContinuousTime.g_initialized
     (ContinuousTime.seed_gravity T_i_c_init accl_bias calib_init_poses samples timestamps
                                  ContinuousTime.gravity_start) = true
   <-> is_Some
         (ContinuousTime.g_a_init
            (ContinuousTime.seed_gravity T_i_c_init accl_bias calib_init_poses samples
                                         timestamps ContinuousTime.gravity_start))).
Proof.
  destruct (seed_gravity_cases T_i_c_init accl_bias calib_init_poses samples timestamps
              ContinuousTime.gravity_start eq_refl)
    as [[Hall Hsame]|(e & t & l & p & b & ts & acc & a & Ht & He & Hp & Hs & Hb & Hw & Hrun)].
  - rewrite Hsame. simpl. split; split; try discriminate.
    + intros Hex. exfalso. apply Exists_exists in Hex.
      destruct Hex as (t & Hin & Hsome & Hnear).
      rewrite Forall_forall in Hall. apply (Hall t).
      * exact Hin.
      * split; [exact Hsome|]. intros Hnone.
        apply Exists_exists in Hnear. destruct Hnear as (s & Hs & Hw).
        unfold Seeding.no_sample_near in Hnone. rewrite Forall_forall in Hnone.
        rewrite (Hnone s Hs) in Hw. discriminate Hw.
    + intros [x Hx]. discriminate Hx.
  - rewrite Hrun. simpl. split; split; try reflexivity; [|eauto].
    intros _. apply Exists_exists. exists t. split.
    + apply list_elem_of_In. rewrite Ht. apply in_or_app. right. now left.
    + split; [eauto|]. apply Exists_exists. exists (ts, acc). split; [|exact Hw].
      apply list_elem_of_In. rewrite Hs. apply in_or_app. right. now left.
Qed.

(** X5.  The poses are tried in the order of the views and the samples in
    the order of the stream: the gravity comes from the first view that has
    a pose in the table and a sample inside its tolerance, and from the
    first such sample. *)
Theorem gravity_seed_takes_first
        (T_i_c_init : SE3) (accl_bias : Vec3)
        (calib_init_poses : gmap ContinuousTime.TimeCamId ContinuousTime.CalibInitPoseData)
        (samples : list (Q * Vec3)) (timestamps : list Q) :
  ContinuousTime.g_initialized
    (ContinuousTime.seed_gravity T_i_c_init accl_bias calib_init_poses samples timestamps
                                 ContinuousTime.gravity_start) = true ->
  exists earlier timestamp later pose before timestamp_ms acc after,
    timestamps = earlier ++ timestamp :: later /\
    Forall (fun t =>
              calib_init_poses !! (to_int64 (t * e9), 0) = None \/
              Forall (fun s => ContinuousTime.within_tolerance
                                 (to_int64 (fst s * e9)) (to_int64 (t * e9)) = false)
                     samples)
           earlier /\
    calib_init_poses !! (to_int64 (timestamp * e9), 0) = Some pose /\
    samples = before ++ (timestamp_ms, acc) :: after /\
    Forall (fun s => ContinuousTime.within_tolerance
                       (to_int64 (fst s * e9)) (to_int64 (timestamp * e9)) = false)
           before /\
    ContinuousTime.within_tolerance
      (to_int64 (timestamp_ms * e9)) (to_int64 (timestamp * e9)) = true /\
    ContinuousTime.g_a_init
      (ContinuousTime.seed_gravity T_i_c_init accl_bias calib_init_poses samples timestamps
                                   ContinuousTime.gravity_start)
    = Some (mat_vec (mat_mul (so3 (ContinuousTime.T_a_c pose)) (transpose (so3 T_i_c_init)))
                    (vadd acc accl_bias)).
Proof.
  intros Hinit.
  destruct (seed_gravity_cases T_i_c_init accl_bias calib_init_poses samples timestamps
              ContinuousTime.gravity_start eq_refl)
    as [[Hall Hsame]|(e & t & l & p & b & ts & acc & a & Ht & He & Hp & Hs & Hb & Hw & Hrun)].
  - rewrite Hsame in Hinit. discriminate Hinit.
  - exists e, t, l, p, b, ts, acc, a. rewrite Hrun.
    split; [exact Ht|]. split; [|auto].
    eapply Forall_impl; [exact He|]. intros t' Hno.
    destruct (calib_init_poses !! (to_int64 (t' * e9), 0)) as [p'|] eqn:Hp'; [|now left].
    right. unfold Seeding.can_seed in Hno. rewrite Hp' in Hno.
    apply Forall_forall. intros s Hs'.
    destruct (ContinuousTime.within_tolerance (to_int64 (fst s * e9))
                                              (to_int64 (t' * e9))) eqn:Hw';
      [|reflexivity].
    exfalso. apply Hno. split; [eauto|]. intros Hnone.
    unfold Seeding.no_sample_near in Hnone. rewrite Forall_forall in Hnone.
    rewrite (Hnone s Hs') in Hw'. discriminate Hw'.
Qed.

Lemma gravity_seed_takes_first_witness :
  exists earlier timestamp later pose before timestamp_ms acc after,
    [0; 1; 2]%Q = earlier ++ timestamp :: later /\
    Forall (fun t =>
              Demo.init_poses !! (to_int64 (t * e9), 0) = None \/
              Forall (fun s => ContinuousTime.within_tolerance
                                 (to_int64 (fst s * e9)) (to_int64 (t * e9)) = false)
                     (accelerometer Demo.telemetry_near))
           earlier /\
    Demo.init_poses !! (to_int64 (timestamp * e9), 0) = Some pose /\
    accelerometer Demo.telemetry_near = before ++ (timestamp_ms, acc) :: after /\
    Forall (fun s => ContinuousTime.within_tolerance
                       (to_int64 (fst s * e9)) (to_int64 (timestamp * e9)) = false)
           before /\
    ContinuousTime.within_tolerance
      (to_int64 (timestamp_ms * e9)) (to_int64 (timestamp * e9)) = true /\
    ContinuousTime.g_a_init
      (ContinuousTime.seed_gravity (mkSE3 mat_id vzero) Demo.accl_bias Demo.init_poses
         (accelerometer Demo.telemetry_near) [0; 1; 2]%Q ContinuousTime.gravity_start)
    = Some (mat_vec (mat_mul (so3 (ContinuousTime.T_a_c pose)) (transpose mat_id))
                    (vadd acc Demo.accl_bias)).
Proof.
  apply (gravity_seed_takes_first (mkSE3 mat_id vzero) Demo.accl_bias
           Demo.init_poses (accelerometer Demo.telemetry_near) [0; 1; 2]%Q).
  vm_compute. reflexivity.
Defined.

(** ** continuous_time_imu_to_camera_calibration_new.cc: the tables *)

Section Tables.

Import ContinuousTime TableEntries.

Lemma assoc_keys_features (v : View) (tids : list TrackId) :
  (forall tid, In tid tids -> In tid (ViewTrackIds v)) ->
  exists cs, mapM (GetFeature v) tids = Some cs.
Proof.
  induction tids as [|tid tids IH]; intros Hsub.
  - exists []. reflexivity.
  - destruct IH as [cs Hcs]; [intros; apply Hsub; now right|].
    destruct (assoc_in_keys tid (view_features v)) as [c Hc]; [apply Hsub; now left|].
    exists (c :: cs). apply mapM_Some. constructor; [exact Hc|].
    now apply mapM_Some.
Qed.

(** No feature pointer of lines 128-130 is null. *)
Lemma corner_data_of_defined (v : View) :
  exists d, corner_data_of v = Some d /\
            track_ids d = ViewTrackIds v /\
            Forall2 (fun tid c => GetFeature v tid = Some c) (track_ids d) (corners d).
Proof.
  destruct (assoc_keys_features v (ViewTrackIds v)) as [cs Hcs]; [auto|].
  exists (mkCornerData cs (ViewTrackIds v)).
  unfold corner_data_of. rewrite Hcs. simpl.
  split; [reflexivity|]. split; [reflexivity|]. now apply mapM_Some.
Qed.

Lemma fill_tables_entries (t0 tend : Q) (all : list (ViewId * View)) :
  forall views cc cp,
    (forall iv, In iv views -> In iv all) ->
    map_Forall (corners_from t0 tend all) cc ->
    map_Forall (pose_from t0 tend all) cp ->
    exists cc' cp',
      fill_tables t0 tend views cc cp = Some (cc', cp') /\
      map_Forall (corners_from t0 tend all) cc' /\
      map_Forall (pose_from t0 tend all) cp'.
Proof.
  induction views as [|[id view] views IH]; intros cc cp Hsub Hcc Hcp; simpl.
  - exists cc, cp. auto.
  - assert (Hrest : forall iv, In iv views -> In iv all)
      by (intros iv Hiv; apply Hsub; now right).
    destruct (pose_in_window t0 tend (view_timestamp view)) eqn:Hw.
    + destruct (corner_data_of_defined view) as (d & Hd & _).
      rewrite Hd. simpl. apply IH; [exact Hrest| |].
      * apply map_Forall_insert_2; [|exact Hcc].
        exists (id, view). split; [apply Hsub; now left|]. auto.
      * apply map_Forall_insert_2; [|exact Hcp].
        exists (id, view). split; [apply Hsub; now left|]. auto.
    + now apply IH.
Qed.

End Tables.

(** The tables are always built, from views inside the window. *)
Lemma fill_tables_from_views
        (t0 tend : Q) (views : list (ViewId * View)) :
  exists calib_corners calib_init_poses,
    ContinuousTime.fill_tables t0 tend views ∅ ∅ = Some (calib_corners, calib_init_poses) /\
    (forall k d, calib_corners !! k = Some d ->
       exists iv, In iv views /\
         (t0 <= view_timestamp (snd iv) /\ view_timestamp (snd iv) < tend)%Q /\
         k = (to_int64 (view_timestamp (snd iv) * e9), 0) /\
         ContinuousTime.track_ids d = ViewTrackIds (snd iv) /\
         Forall2 (fun tid c => GetFeature (snd iv) tid = Some c)
                 (ContinuousTime.track_ids d) (ContinuousTime.corners d) /\
         length (ContinuousTime.corners d) = length (ContinuousTime.track_ids d)) /\
    (forall k p, calib_init_poses !! k = Some p ->
       exists iv, In iv views /\
         (t0 <= view_timestamp (snd iv) /\ view_timestamp (snd iv) < tend)%Q /\
         k = (to_int64 (view_timestamp (snd iv) * e9), 0) /\
         ContinuousTime.T_a_c p
           = mkSE3 (transpose (cam_orientation (view_camera (snd iv))))
                   (cam_position (view_camera (snd iv)))).
Proof.
  destruct (fill_tables_entries t0 tend views views ∅ ∅) as (cc & cp & Hfill & Hcc & Hcp).
  - auto.
  - apply map_Forall_empty.
  - apply map_Forall_empty.
  - exists cc, cp. split; [exact Hfill|]. split.
    + intros k d Hk. destruct (Hcc k d Hk) as (iv & Hin & Hw & Hkey & Hd).
      exists iv. apply pose_in_window_iff in Hw.
      destruct (corner_data_of_defined (snd iv)) as (d' & Hd' & Hids & Hfeat).
      rewrite Hd in Hd'. injection Hd' as <-.
      split; [exact Hin|]. split; [exact Hw|]. split; [exact Hkey|].
      split; [exact Hids|]. split; [exact Hfeat|].
      symmetry. eapply Forall2_length. exact Hfeat.
    + intros k p Hk. destruct (Hcp k p Hk) as (iv & Hin & Hw & Hkey & ->).
      exists iv. apply pose_in_window_iff in Hw. auto.
Qed.

(** X6.  The tables of lines 118-138 are always built (no feature pointer
    is null), and each entry comes from a view inside the window: the corner
    entry lists the track ids of that view with, for each, the feature the
    view holds for it, and the pose entry is the transposed orientation and
    the position of the camera of that view. *)
Theorem tables_come_from_views_of_the_window
        (t0 tend : Q) (views : list (ViewId * View)) :
  exists calib_corners calib_init_poses,
    ContinuousTime.fill_tables t0 tend views ∅ ∅ = Some (calib_corners, calib_init_poses) /\
    (forall k d, calib_corners !! k = Some d ->
       exists iv, In iv views /\
         (t0 <= view_timestamp (snd iv) /\ view_timestamp (snd iv) < tend)%Q /\
         k = (to_int64 (view_timestamp (snd iv) * e9), 0) /\
         ContinuousTime.track_ids d = ViewTrackIds (snd iv) /\
         Forall2 (fun tid c => GetFeature (snd iv) tid = Some c)
                 (ContinuousTime.track_ids d) (ContinuousTime.corners d) /\
         length (ContinuousTime.corners d) = length (ContinuousTime.track_ids d)) /\
    (forall k p, calib_init_poses !! k = Some p ->
       exists iv, In iv views /\
         (t0 <= view_timestamp (snd iv) /\ view_timestamp (snd iv) < tend)%Q /\
         k = (to_int64 (view_timestamp (snd iv) * e9), 0) /\
         ContinuousTime.T_a_c p
           = mkSE3 (transpose (cam_orientation (view_camera (snd iv))))
                   (cam_position (view_camera (snd iv)))).
Proof.
  destruct (fill_tables_entries t0 tend views views ∅ ∅) as (cc & cp & Hfill & Hcc & Hcp).
  - auto.
  - apply map_Forall_empty.
  - apply map_Forall_empty.
  - exists cc, cp. split; [exact Hfill|]. split.
    + intros k d Hk. destruct (Hcc k d Hk) as (iv & Hin & Hw & Hkey & Hd).
      exists iv. apply pose_in_window_iff in Hw.
      destruct (corner_data_of_defined (snd iv)) as (d' & Hd' & Hids & Hfeat).
      rewrite Hd in Hd'. injection Hd' as <-.
      split; [exact Hin|]. split; [exact Hw|]. split; [exact Hkey|].
      split; [exact Hids|]. split; [exact Hfeat|].
      symmetry. eapply Forall2_length. exact Hfeat.
    + intros k p Hk. destruct (Hcp k p Hk) as (iv & Hin & Hw & Hkey & ->).
      exists iv. apply pose_in_window_iff in Hw. auto.
Qed.

(** X7.  When the first and the last time stamp are inside the range of
    [int64_t] in nanoseconds, truncation to nanoseconds keeps the order: the
    frame id of every entry of the table lies between [start_t_ns] and
    [end_t_ns], both included, and its camera id is 0.  The first comparison
    of line 198 is then always true.  (Outside that range the conversions of
    lines 109-110 are not defined.) *)
Theorem table_frames_within_bounds
        (t0 tend : Q) (views : list (ViewId * View))
        (calib_corners : gmap ContinuousTime.TimeCamId ContinuousTime.CalibCornerData)
        (calib_init_poses : gmap ContinuousTime.TimeCamId ContinuousTime.CalibInitPoseData)
        (k : ContinuousTime.TimeCamId) :
  in_int64_range (t0 * e9) ->
  in_int64_range (tend * e9) ->
  ContinuousTime.fill_tables t0 tend views ∅ ∅ = Some (calib_corners, calib_init_poses) ->
  is_Some (calib_corners !! k) ->
  - 2 ^ 63 <= to_int64 (t0 * e9) <= fst k /\
  fst k <= to_int64 (tend * e9) < 2 ^ 63 /\
  snd k = 0 /\
  ContinuousTime.frame_in_window (to_int64 (t0 * e9)) (to_int64 (tend * e9)) (fst k)
    = (fst k <? to_int64 (tend * e9)).
Proof.
  intros [Hlo0 _] [_ Hhi1] Hfill Hk.
  destruct (fill_tables_keys _ _ _ _ _ _ _ Hfill k) as [_ Hc].
  apply Hc in Hk. destruct Hk as [Hemp|(iv & Hin & Hw & ->)].
  - rewrite lookup_empty in Hemp. destruct Hemp; discriminate.
  - apply pose_in_window_iff in Hw. destruct Hw as [Hlo Hhi].
    assert (H1 : to_int64 (t0 * e9) <= to_int64 (view_timestamp (snd iv) * e9))
      by (apply to_int64_mono, scale_mono, Hlo).
    assert (H2 : to_int64 (view_timestamp (snd iv) * e9) <= to_int64 (tend * e9))
      by (apply to_int64_mono, scale_mono, Qlt_le_weak, Hhi).
    cbn [fst snd ContinuousTime.key_of].
    split; [lia|]. split; [lia|]. split; [reflexivity|].
    unfold ContinuousTime.frame_in_window.
    apply Z.leb_le in H1. rewrite H1. reflexivity.
Qed.

Lemma table_frames_within_bounds_witness :
  0 <= 1000000000 <= 2000000000 /\
  ContinuousTime.frame_in_window 0 2000000000 1000000000 = (1000000000 <? 2000000000).
Proof.
  destruct (table_frames_within_bounds 0 2 Demo.views Demo.corner_table Demo.init_poses
              (1000000000, 0) ltac:(vm_compute; split; [discriminate|reflexivity])
              ltac:(vm_compute; split; [discriminate|reflexivity])
              ltac:(vm_compute; reflexivity) ltac:(vm_compute; eauto))
    as ((_ & H1) & (H2 & _) & _ & H3).
  split; [split; [exact H1|exact H2]|exact H3].
Defined.

(** ** continuous_time_imu_to_camera_calibration_new.cc: the corner
    measurements *)

Section CornerMeasurements.

Import ContinuousTime.

(** What the loop of lines 197-212 registers. *)
Lemma add_corners_returned calib_dataset start_t_ns end_t_ns calib_corners cms :
  add_corners calib_dataset start_t_ns end_t_ns calib_corners = Returned cms ->
  forall m, In m cms ->
    exists kv view0,
      In kv calib_corners /\
      start_t_ns <= fst (fst kv) < end_t_ns /\
      GetView calib_dataset 0 = Some view0 /\
      m = mkCornersMeasurement (snd kv) (view_camera view0) (snd (fst kv)) (fst (fst kv)).
Proof.
  unfold add_corners.
  destruct (filter _ calib_corners) as [|kv0 used] eqn:Hused.
  - intros H. injection H as <-. intros m [].
  - destruct (GetView calib_dataset 0) as [view0|]; [|discriminate].
    rewrite <- Hused.
    cbn [mbind outcome_bind bind defined]. intros H. injection H as <-.
    intros m Hm. apply in_map_iff in Hm. destruct Hm as (kv & <- & Hkv).
    apply list_elem_of_In, list_elem_of_filter in Hkv. destruct Hkv as [Hw Hkv].
    unfold frame_in_window in Hw. apply andb_true_iff in Hw.
    rewrite Z.leb_le, Z.ltb_lt in Hw.
    exists kv, view0. rewrite <- list_elem_of_In. auto.
Qed.

Lemma add_corners_frames calib_dataset start_t_ns end_t_ns calib_corners cms :
  add_corners calib_dataset start_t_ns end_t_ns calib_corners = Returned cms ->
  map (fun m => (cm_frame_id m, cm_cam_id m)) cms
  = map fst (filter (fun kv => frame_in_window start_t_ns end_t_ns (fst (fst kv)) = true)
                    calib_corners).
Proof.
  unfold add_corners.
  destruct (filter _ calib_corners) as [|kv0 used] eqn:Hused.
  - intros H. injection H as <-. reflexivity.
  - destruct (GetView calib_dataset 0) as [view0|]; [|discriminate].
    rewrite <- Hused.
    cbn [mbind outcome_bind bind defined]. intros H. injection H as <-.
    rewrite map_map. apply map_ext. intros [[f c] d]. reflexivity.
Qed.

End CornerMeasurements.

(** X8.  When [main] returns, every corner measurement it has registered
    comes from a view of the reconstruction: it carries the track ids of
    that view, the frame id is the time stamp of the view in nanoseconds and
    lies in [start_t_ns, end_t_ns), and the camera is the camera of the view
    with id 0, whichever view the frame comes from.  No frame is registered
    twice. *)
Theorem main_corner_measurements
        (fs : Files) (FLAGS : ContinuousTime.Flags) (r : ContinuousTime.Result)
        (calib_dataset : Reconstruction) :
  ContinuousTime.main fs FLAGS = Returned r ->
  ReadReconstruction fs (ContinuousTime.FLAGS_input_calibration_dataset FLAGS)
    = Some calib_dataset ->
  (forall m, In m (ContinuousTime.cs_corners (ContinuousTime.calib_spline r)) ->
     exists iv view0,
       In iv (recon_views calib_dataset) /\
       GetView calib_dataset 0 = Some view0 /\
       ContinuousTime.cm_camera m = view_camera view0 /\
       ContinuousTime.cm_cam_id m = 0 /\
       ContinuousTime.cm_frame_id m = to_int64 (view_timestamp (snd iv) * e9) /\
       ContinuousTime.cs_start_t_ns (ContinuousTime.calib_spline r)
         <= ContinuousTime.cm_frame_id m /\
       ContinuousTime.track_ids (ContinuousTime.cm_corners m) = ViewTrackIds (snd iv) /\
       length (ContinuousTime.corners (ContinuousTime.cm_corners m))
         = length (ViewTrackIds (snd iv))) /\
  NoDup (map ContinuousTime.cm_frame_id
             (ContinuousTime.cs_corners (ContinuousTime.calib_spline r))).
Proof.
  intros Hmain Hread.
  destruct (main_returned fs FLAGS r Hmain)
    as (gb & ab & calib & tel & i2c & off & w & t0 & tend & cc & cp & p & cms
        & _ & Hrec & _ & _ & _ & _ & Hmm & Hfill & Hpose & _ & _ & Hadd & Hcs & _).
  rewrite Hread in Hrec. injection Hrec as <-.
  rewrite Hcs. cbn [ContinuousTime.cs_corners ContinuousTime.cs_start_t_ns].
  destruct (fill_tables_from_views t0 tend (recon_views calib_dataset))
    as (cc' & cp' & Hfill' & Hcc & _).
  rewrite Hfill in Hfill'. injection Hfill' as <- <-.
  split.
  - intros m Hm.
    destruct (add_corners_returned _ _ _ _ _ Hadd m Hm)
      as (kv & view0 & Hkv & Hwin & Hv0 & ->).
    apply list_elem_of_In in Hkv. destruct kv as [k d].
    apply elem_of_map_to_list in Hkv.
    destruct (Hcc k d Hkv) as (iv & Hin & _ & -> & Hids & _ & Hlen).
    exists iv, view0. simpl in *.
    split; [exact Hin|]. split; [exact Hv0|]. split; [reflexivity|].
    split; [reflexivity|]. split; [reflexivity|]. split; [lia|].
    split; [exact Hids|]. now rewrite Hlen, Hids.
  - assert (Hkeys : NoDup (map (fun m => (ContinuousTime.cm_frame_id m,
                                          ContinuousTime.cm_cam_id m)) cms)).
    { rewrite (add_corners_frames _ _ _ _ _ Hadd).
      apply NoDup_fmap_fst.
      - intros k d1 d2 H1 H2.
        apply list_elem_of_filter in H1, H2. destruct H1 as [_ H1], H2 as [_ H2].
        apply elem_of_map_to_list in H1, H2. congruence.
      - apply NoDup_filter, NoDup_map_to_list. }
    assert (Hcam : forall m, In m cms -> ContinuousTime.cm_cam_id m = 0).
    { intros m Hm.
      destruct (add_corners_returned _ _ _ _ _ Hadd m Hm)
        as (kv & view0 & Hkv & _ & _ & ->).
      apply list_elem_of_In in Hkv. destruct kv as [k d].
      apply elem_of_map_to_list in Hkv.
      destruct (Hcc k d Hkv) as (iv & _ & _ & -> & _). reflexivity. }
    clear -Hkeys Hcam. induction cms as [|m cms IH]; [constructor|].
    simpl in *. apply NoDup_cons in Hkeys. destruct Hkeys as [Hnot Hrest].
    apply NoDup_cons. split.
    + intros Hin. apply Hnot.
      apply list_elem_of_In, in_map_iff in Hin. destruct Hin as (m' & Hf & Hm').
      apply list_elem_of_In, in_map_iff. exists m'. split; [|exact Hm'].
      rewrite Hf, (Hcam m' (or_intror Hm')), (Hcam m (or_introl eq_refl)). reflexivity.
    + apply IH; [exact Hrest|]. intros m' Hm'. apply Hcam. now right.
Qed.

Lemma main_corner_measurements_witness :
  NoDup (map ContinuousTime.cm_frame_id
             (ContinuousTime.cs_corners (ContinuousTime.calib_spline Cases.continuous_result)))
  /\ length (ContinuousTime.cs_corners (ContinuousTime.calib_spline Cases.continuous_result))
     = 2%nat.
Proof.
  split; [|vm_compute; reflexivity].
  apply (main_corner_measurements (Demo.files Demo.telemetry_near) Demo.flags
           Cases.continuous_result Demo.recon).
  - vm_compute. reflexivity.
  - reflexivity.
Defined.

(** ** continuous_time_imu_to_camera_calibration_new.cc: the initial pose *)

Section InitialPose.

Lemma transpose_transpose (m : Mat3) : transpose (transpose m) = m.
Proof. destruct m as [[? ? ?] [? ? ?] [? ? ?]]. reflexivity. Qed.

(** The pose of the IMU for a camera pose, with a rotation only between IMU
    and camera: the camera position and the composed rotation. *)
Lemma pose_times_inverse_rotation (T : SE3) (imu2cam : Mat3) :
  so3 (se3_mul T (se3_inverse (mkSE3 (transpose imu2cam) vzero)))
    = mat_mul (so3 T) imu2cam /\
  veq (translation (se3_mul T (se3_inverse (mkSE3 (transpose imu2cam) vzero))))
      (translation T).
Proof.
  split.
  - unfold se3_mul, se3_inverse. cbn [so3]. now rewrite transpose_transpose.
  - destruct T as [[[a b c] [d e f] [g h i]] [x y z]].
    destruct imu2cam as [[? ? ?] [? ? ?] [? ? ?]].
    unfold veq.
    cbv [translation se3_mul se3_inverse so3 vadd mat_vec dot vneg transpose vzero
         row1 row2 row3 v3x v3y v3z].
    split; [|split]; ring.
Qed.

End InitialPose.

(** X9.  When [main] returns, the pose handed to [init] is taken from a view
    of the window whose time stamp in nanoseconds truncates to the integer
    part of [t0] in seconds: its rotation is the transposed camera
    orientation composed with [imu2cam], and its translation is the camera
    position. *)
Theorem main_initial_pose
        (fs : Files) (FLAGS : ContinuousTime.Flags) (r : ContinuousTime.Result)
        (calib_dataset : Reconstruction) (imu2cam : Mat3) (offset : Q) :
  ContinuousTime.main fs FLAGS = Returned r ->
  ReadReconstruction fs (ContinuousTime.FLAGS_input_calibration_dataset FLAGS)
    = Some calib_dataset ->
  ReadIMU2CamInit fs (ContinuousTime.FLAGS_gyro_to_cam_initial_calibration FLAGS)
    = Some (imu2cam, offset) ->
  exists t0 tend iv,
    ContinuousTime.minmax_element
      (map (fun iv => view_timestamp (snd iv)) (recon_views calib_dataset))
      = Some (t0, tend) /\
    In iv (recon_views calib_dataset) /\
    (t0 <= view_timestamp (snd iv) /\ view_timestamp (snd iv) < tend)%Q /\
    to_int64 (view_timestamp (snd iv) * e9) = to_int64 t0 /\
    so3 (ContinuousTime.cs_T_w_i_init (ContinuousTime.calib_spline r))
      = mat_mul (transpose (cam_orientation (view_camera (snd iv)))) imu2cam /\
    veq (translation (ContinuousTime.cs_T_w_i_init (ContinuousTime.calib_spline r)))
        (cam_position (view_camera (snd iv))).
Proof.
  intros Hmain Hread Hinit.
  destruct (main_returned fs FLAGS r Hmain)
    as (gb & ab & calib & tel & i2c & off & w & t0 & tend & cc & cp & p & cms
        & _ & Hrec & _ & Hi2c & _ & _ & Hmm & Hfill & Hpose & _ & _ & _ & Hcs & _).
  rewrite Hread in Hrec. injection Hrec as <-.
  rewrite Hinit in Hi2c. injection Hi2c as <- <-.
  destruct (fill_tables_from_views t0 tend (recon_views calib_dataset))
    as (cc' & cp' & Hfill' & _ & Hcp).
  rewrite Hfill in Hfill'. injection Hfill' as <- <-.
  destruct (Hcp _ _ Hpose) as (iv & Hin & Hw & Hk & HT).
  injection Hk as Hk.
  exists t0, tend, iv. rewrite Hcs. cbn [ContinuousTime.cs_T_w_i_init].
  destruct (pose_times_inverse_rotation (ContinuousTime.T_a_c p) imu2cam) as [Hrot Htr].
  rewrite Hrot, HT in *. cbn [so3 translation] in *.
  split; [exact Hmm|]. split; [exact Hin|]. split; [exact Hw|].
  split; [now symmetry|]. split; [reflexivity|exact Htr].
Qed.

Lemma main_initial_pose_witness :
  veq (translation (ContinuousTime.cs_T_w_i_init
                      (ContinuousTime.calib_spline Cases.continuous_result)))
      vzero.
Proof.
  destruct (main_initial_pose (Demo.files Demo.telemetry_near) Demo.flags
              Cases.continuous_result Demo.recon mat_id 0%Q
              ltac:(vm_compute; reflexivity) eq_refl eq_refl)
    as (t0 & tend & iv & _ & Hin & _ & _ & _ & Htr).
  destruct Hin as [<-|[<-|[<-|[]]]]; exact Htr.
Defined.

(** ** create_imu_camera_charuco.cc: the views of the estimator *)

Section CharucoViews.

Import Kontiki Charuco.

Lemma dmax_same (a : Q) : dmax a a = a.
Proof. unfold dmax. now destruct (Qltb a a). Qed.

Lemma view_in_window_iff (t0 tend timestamp : Q) :
  view_in_window t0 tend timestamp = true
  <-> (fadd t0 tenth <= timestamp /\ timestamp < fsub tend tenth)%Q.
Proof.
  unfold view_in_window, dt_so3, dt_r3. rewrite dmax_same.
  rewrite negb_true_iff, orb_false_iff.
  rewrite Qgeb_false, Qltb_false. tauto.
Qed.

(** What [kontiki_views] holds after the loop of lines 226-234. *)
Lemma make_views_lookup (t0 tend : Q) (views : list (ViewId * View)) :
  forall (kv : gmap ViewId ViewKontiki) k vk,
    make_views t0 tend views kv !! k = Some vk ->
    kv !! k = Some vk \/
    exists view, In (k, view) views /\
                 view_in_window t0 tend (view_timestamp view) = true /\
                 vk = mkViewKontiki k (view_timestamp view) [].
Proof.
  induction views as [|[id view] views IH]; intros kv k vk H; simpl in H; [now left|].
  apply IH in H. destruct H as [H|(v & Hin & Hw & ->)].
  - destruct (view_in_window t0 tend (view_timestamp view)) eqn:Hw; [|now left].
    destruct (decide (id = k)) as [->|Hne].
    + rewrite lookup_insert_eq in H. injection H as <-.
      right. exists view. split; [now left|]. auto.
    + rewrite lookup_insert_ne in H by exact Hne. now left.
  - right. exists v. split; [now right|]. auto.
Qed.

Lemma make_views_member (t0 tend : Q) (views : list (ViewId * View)) :
  forall (kv : gmap ViewId ViewKontiki) k,
    is_Some (make_views t0 tend views kv !! k) <->
    is_Some (kv !! k) \/
    exists view, In (k, view) views /\ view_in_window t0 tend (view_timestamp view) = true.
Proof.
  induction views as [|[id view] views IH]; intros kv k; simpl.
  - split; [auto|intros [H|(v & [] & _)]; exact H].
  - rewrite IH. destruct (view_in_window t0 tend (view_timestamp view)) eqn:Hw.
    + rewrite lookup_insert_is_Some'. split.
      * intros [[<-|H]|(v & Hin & Hv)].
        -- right. exists view. split; [now left|exact Hw].
        -- now left.
        -- right. exists v. split; [now right|exact Hv].
      * intros [H|(v & [Heq|Hin] & Hv)].
        -- left. now right.
        -- injection Heq as <- <-. left. now left.
        -- right. exists v. auto.
    + split.
      * intros [H|(v & Hin & Hv)]; [now left|].
        right. exists v. split; [now right|exact Hv].
      * intros [H|(v & [Heq|Hin] & Hv)]; [now left| |].
        -- injection Heq as <- <-. congruence.
        -- right. exists v. auto.
Qed.

End CharucoViews.

(** X10.  A view takes part in the trajectory estimation exactly when its
    time stamp is not below the first time stamp plus 0.1 and is below the
    last time stamp minus 0.1, with the literal 0.1 and both margins rounded
    to doubles as line 232 computes them; it starts without observations,
    with its own id and time stamp. *)
Theorem estimator_views_are_inner_views
        (t0 tend : Q) (views : list (ViewId * View)) (k : ViewId) :
  (is_Some (Charuco.make_views t0 tend views ∅ !! k) <->
   exists view, In (k, view) views /\
                (double (t0 + double (1 # 10)) <= view_timestamp view /\
                 view_timestamp view < double (tend - double (1 # 10)))%Q) /\
  (forall vk, Charuco.make_views t0 tend views ∅ !! k = Some vk ->
     Kontiki.vk_view_id vk = k /\ Kontiki.vk_observations vk = [] /\
     exists view, In (k, view) views /\ Kontiki.vk_t0 vk = view_timestamp view).
Proof.
  split.
  - rewrite make_views_member. split.
    + intros [[x Hx]|(v & Hin & Hw)]; [rewrite lookup_empty in Hx; discriminate|].
      exists v. apply view_in_window_iff in Hw. auto.
    + intros (v & Hin & Hw). right. exists v. apply view_in_window_iff in Hw. auto.
  - intros vk Hvk. apply make_views_lookup in Hvk.
    destruct Hvk as [Hemp|(v & Hin & _ & ->)]; [rewrite lookup_empty in Hemp; discriminate|].
    simpl. eauto.
Qed.

(** Views named 0.2, 0.3, 0.5, 0.7 and 0.8: the margins are the doubles
    0.30000000000000004 (1351079888211149 / 2^52) and 0.7000000000000001
    (6305039478318695 / 2^53), and the views that take part are those
    named 0.5 and 0.7. *)
Example inner_views_of_a_short_recording :
  merge_sort Z.le
    (map fst
      (map_to_list
         (Charuco.make_views (double (2 # 10)) (double (8 # 10))
            [(0, mkView (double (2 # 10)) [] Demo.camera);
             (1, mkView (double (3 # 10)) [] Demo.camera);
             (2, mkView (double (5 # 10)) [] Demo.camera);
             (3, mkView (double (7 # 10)) [] Demo.camera);
             (4, mkView (double (8 # 10)) [] Demo.camera)] ∅)))
    = [2; 3] /\
  Qeq (double (double (2 # 10) + double (1 # 10)))
      (1351079888211149 # 4503599627370496) /\
  Qeq (double (double (8 # 10) - double (1 # 10)))
      (6305039478318695 # 9007199254740992).
Proof.
  split; [vm_compute; reflexivity|]. split; vm_compute; reflexivity.
Qed.

(** ** create_imu_camera_charuco.cc: the observations of the landmarks *)

Section LandmarkObservations.

Import Kontiki Charuco CharucoFacts.

Implicit Types (kv : gmap ViewId ViewKontiki) (b : Build).

Lemma count_views_cons kv view_id rest :
  count_views kv (view_id :: rest)
  = ((if decide (is_Some (kv !! view_id)) then 1 else 0) + count_views kv rest)%nat.
Proof.
  unfold count_views. rewrite filter_cons.
  destruct (decide (is_Some (kv !! view_id))); reflexivity.
Qed.

Lemma count_views_mono kv kv' vs :
  (forall k, is_Some (kv !! k) -> is_Some (kv' !! k)) ->
  (count_views kv vs <= count_views kv' vs)%nat.
Proof.
  intros Hsub. induction vs as [|v vs IH]; [reflexivity|].
  rewrite !count_views_cons.
  destruct (decide (is_Some (kv !! v))) as [Hv|Hv];
    destruct (decide (is_Some (kv' !! v))) as [Hv'|Hv']; try lia.
  exfalso. apply Hv'. now apply Hsub.
Qed.

Lemma CreateObservation_effect b vk idx feature :
  (idx < length (kontiki_landmarks b))%nat ->
  length (kontiki_landmarks (CreateObservation b vk idx feature))
    = length (kontiki_landmarks b) /\
  observed (kontiki_landmarks (CreateObservation b vk idx feature)) idx
    = S (observed (kontiki_landmarks b) idx) /\
  (forall j, j <> idx ->
     observed (kontiki_landmarks (CreateObservation b vk idx feature)) j
       = observed (kontiki_landmarks b) j) /\
  (forall k, is_Some (kontiki_views b !! k) ->
             is_Some (kontiki_views (CreateObservation b vk idx feature) !! k)).
Proof.
  intros Hidx. unfold CreateObservation, observed. simpl.
  split; [apply length_alter|]. split; [|split].
  - destruct (lookup_lt_is_Some_2 _ _ Hidx) as [l Hl].
    rewrite list_lookup_alter_eq, Hl. simpl. rewrite length_app. simpl. lia.
  - intros j Hj. rewrite list_lookup_alter_ne by auto. reflexivity.
  - intros k Hk. rewrite lookup_insert_is_Some'. now right.
Qed.

Lemma observe_effect recon track_id idx vs : forall b b',
  observe recon track_id idx vs b = Some b' ->
  (idx < length (kontiki_landmarks b))%nat ->
  length (kontiki_landmarks b') = length (kontiki_landmarks b) /\
  (observed (kontiki_landmarks b) idx + count_views (kontiki_views b) vs
     <= observed (kontiki_landmarks b') idx)%nat /\
  (forall j, j <> idx ->
     observed (kontiki_landmarks b') j = observed (kontiki_landmarks b) j) /\
  (forall k, is_Some (kontiki_views b !! k) -> is_Some (kontiki_views b' !! k)).
Proof.
  induction vs as [|view_id rest IH]; intros b b' Hobs Hidx; cbn [observe] in Hobs.
  - injection Hobs as <-. unfold count_views. simpl. repeat split; auto; lia.
  - destruct (GetView recon view_id) as [view|]; cbn [mbind option_bind] in Hobs;
      [|discriminate].
    destruct (GetFeature view track_id) as [feature|]; cbn [mbind option_bind] in Hobs;
      [|discriminate].
    rewrite count_views_cons.
    destruct (kontiki_views b !! view_id) as [vk|] eqn:Hvk.
    + destruct (CreateObservation_effect b vk idx feature Hidx)
        as (Hlen & Hone & Hother & Hdom).
      apply IH in Hobs; [|cbn [kontiki_landmarks]; rewrite Hlen; exact Hidx].
      cbn [kontiki_landmarks kontiki_views] in Hobs.
      destruct Hobs as (Hlen' & Hcount & Hother' & Hdom').
      destruct (decide (is_Some (Some vk))) as [_|Hn]; [|exfalso; apply Hn; eauto].
      pose proof (count_views_mono _ _ rest Hdom) as Hmono.
      split; [lia|]. split; [lia|]. split.
      * intros j Hj. rewrite Hother' by exact Hj. now apply Hother.
      * intros k Hk. apply Hdom', Hdom, Hk.
    + apply IH in Hobs; [|exact Hidx].
      destruct (decide (is_Some (@None ViewKontiki))) as [[x Hx]|_]; [discriminate|].
      exact Hobs.
Qed.

Lemma observed_app_l (ls ls' : list Landmark) j :
  (j < length ls)%nat -> observed (ls ++ ls') j = observed ls j.
Proof. intros H. unfold observed. now rewrite lookup_app_l. Qed.

Lemma make_landmarks_observed recon tracks : forall b b',
  make_landmarks recon tracks b = Some b' ->
  (forall j, (j < length (kontiki_landmarks b))%nat ->
             (2 <= observed (kontiki_landmarks b) j)%nat) ->
  forall j, (j < length (kontiki_landmarks b'))%nat ->
            (2 <= observed (kontiki_landmarks b') j)%nat.
Proof.
  induction tracks as [|[track_id track] rest IH]; intros b b' Hmake Hb;
    cbn [make_landmarks] in Hmake.
  - now injection Hmake as <-.
  - revert Hmake.
    destruct (2 <=? count_views (kontiki_views b) (track_views track))%nat eqn:Hcount;
      [|intros Hmake; exact (IH b b' Hmake Hb)].
    destruct (observe recon track_id (length (kontiki_landmarks b))
                      (track_views track) _) as [b1|] eqn:Hobs; simpl;
      [intros Hmake|discriminate].
    apply (IH b1 b' Hmake).
    apply observe_effect in Hobs; [|simpl; rewrite length_app; simpl; lia].
    simpl in Hobs. destruct Hobs as (Hlen & Hnew & Hold & _).
    apply Nat.leb_le in Hcount.
    intros j Hj. rewrite Hlen, length_app in Hj. simpl in Hj.
    destruct (decide (j = length (kontiki_landmarks b))) as [->|Hne].
    + lia.
    + rewrite Hold by exact Hne. rewrite observed_app_l by lia. apply Hb. lia.
Qed.

End LandmarkObservations.

(** X11.  A landmark is made only for a track seen in at least two views of
    the estimator, and it gets one observation for each of them: after the
    loop of lines 243-282 every landmark has at least two observations, so
    that the reference observation of lines 285-286 is always there. *)
Theorem landmarks_have_two_observations
        (recon : Reconstruction) (tracks : list (TrackId * Track))
        (kv : gmap ViewId Kontiki.ViewKontiki) (w h : option Z) (b : Charuco.Build) :
  Charuco.make_landmarks recon tracks (Charuco.mkBuild kv [] w h) = Some b ->
  Forall (fun l => (2 <= length (Kontiki.lm_observations l))%nat)
         (Charuco.kontiki_landmarks b) /\
  exists landmarks,
    Charuco.set_references (Charuco.kontiki_landmarks b) = Some landmarks /\
    length landmarks = length (Charuco.kontiki_landmarks b).
Proof.
  intros Hmake.
  assert (Hobs : forall j, (j < length (Charuco.kontiki_landmarks b))%nat ->
                           (2 <= CharucoFacts.observed (Charuco.kontiki_landmarks b) j)%nat).
  { apply (make_landmarks_observed recon tracks _ b Hmake). simpl. intros j Hj. lia. }
  assert (Hall : Forall (fun l => (2 <= length (Kontiki.lm_observations l))%nat)
                        (Charuco.kontiki_landmarks b)).
  { apply Forall_lookup. intros j l Hl.
    specialize (Hobs j (lookup_lt_Some _ _ _ Hl)).
    unfold CharucoFacts.observed in Hobs. now rewrite Hl in Hobs. }
  split; [exact Hall|].
  assert (Hsome : is_Some (Charuco.set_references (Charuco.kontiki_landmarks b))).
  { unfold Charuco.set_references. apply mapM_is_Some.
    eapply Forall_impl; [exact Hall|]. intros l Hl. simpl.
    destruct (Kontiki.lm_observations l) as [|o os] eqn:Ho.
    - simpl in Hl. rewrite Ho in Hl. simpl in Hl. lia.
    - simpl. eauto. }
  destruct Hsome as [landmarks Hl]. exists landmarks. split; [exact Hl|].
  unfold Charuco.set_references in Hl. apply mapM_Some, Forall2_length in Hl.
  now symmetry.
Qed.

Lemma landmarks_have_two_observations_witness :
  Forall (fun l => (2 <= length (Kontiki.lm_observations l))%nat)
         (Charuco.kontiki_landmarks Cases.charuco_build) /\
  length (Charuco.kontiki_landmarks Cases.charuco_build) = 2%nat.
Proof.
  split; [|vm_compute; reflexivity].
  apply (landmarks_have_two_observations Demo.charuco_recon Demo.charuco_tracks
           (Charuco.make_views 0 (5 # 10) Demo.charuco_views ∅) None None
           Cases.charuco_build).
  vm_compute. reflexivity.
Defined.

(** ** create_imu_camera_charuco.cc: what [main] solves *)

Section CharucoMain.

Import Kontiki Charuco CharucoFacts.

Context {Acc : Type}.
Variable acc_zero : Acc.
Variable acc_add : Acc -> Acc -> Acc.
Variable contribution : State -> CamMeasurementPinhole -> Acc.
Variable converged : State -> Acc -> bool.
Variable propose : State -> Acc -> State.

(** The values [main] has computed when it returns with an estimator. *)
Lemma charuco_main_returned fs FLAGS recon_calib_dataset r e :
  main acc_zero acc_add contribution converged propose fs FLAGS recon_calib_dataset
    = Returned r ->
  solved r = Some e ->
  exists cam_calib_recon t0 tend b landmarks view_1,
    ReadReconstruction fs (FLAGS_input_calibration_dataset FLAGS) = Some cam_calib_recon /\
    ReadDetectorParameters fs (FLAGS_detector_params FLAGS) = true /\
    ContinuousTime.minmax_element
      (map (fun iv => view_timestamp (snd iv)) (recon_views recon_calib_dataset))
      = Some (t0, tend) /\
    make_landmarks recon_calib_dataset (recon_tracks recon_calib_dataset)
      (mkBuild (make_views t0 tend (recon_views recon_calib_dataset) ∅) [] None None)
      = Some b /\
    set_references (kontiki_landmarks b) = Some landmarks /\
    GetView cam_calib_recon 0 = Some view_1 /\
    est_measurements e
      = measurements_of
          (mkPinholeCamera (img_width b) (img_height b) 0 (view_camera view_1) true true)
          (map_to_list (kontiki_views b)) /\
    st_landmarks (est_state e) = landmarks.
Proof.
  unfold main, mbind, outcome_bind.
  destruct (ReadReconstruction fs _) as [cam_calib_recon|]; cbn [bind CHECK];
    [|discriminate].
  destruct (ReadDetectorParameters fs _) eqn:Hdet; cbn [negb];
    [|intros H; injection H as <-; discriminate].
  destruct (ContinuousTime.minmax_element _) as [[t0 tend]|]; cbn [bind defined];
    [|discriminate].
  destruct (make_landmarks _ _ _) as [b|] eqn:Hmake; cbn [bind defined]; [|discriminate].
  destruct (set_references _) as [landmarks|] eqn:Href; cbn [bind defined];
    [|discriminate].
  destruct (GetView cam_calib_recon 0) as [view_1|] eqn:Hv; cbn [bind defined];
    [|discriminate].
  intros H Hs. injection H as <-. cbn [solved] in Hs. injection Hs as <-.
  exists cam_calib_recon, t0, tend, b, landmarks, view_1.
  split; [reflexivity|]. split; [reflexivity|]. split; [reflexivity|].
  split; [exact Hmake|]. split; [exact Href|]. split; [exact Hv|].
  assert (Hlocked : Forall (fun l => lm_locked l = true) landmarks).
  { assert (Hl : Forall (locked_track_point (recon_tracks recon_calib_dataset)) landmarks).
    { eapply set_references_keeps; [exact Href|].
      eapply make_landmarks_keeps; [|exact Hmake|constructor]. auto. }
    eapply Forall_impl; [exact Hl|]. intros l [Hlock _]. exact Hlock. }
  cbn [Solve est_state est_measurements extend_shared].
  split.
  - unfold register. rewrite register_measurements. reflexivity.
  - rewrite iterate_keeps_locked;
      rewrite register_keeps_state; cbn [est_state st_landmarks]; [reflexivity|assumption].
Qed.

Lemma count_views_empty (vs : list ViewId) : count_views ∅ vs = O.
Proof.
  induction vs as [|v vs IH]; [reflexivity|].
  rewrite count_views_cons, IH.
  destruct (decide (is_Some ((∅ : gmap ViewId ViewKontiki) !! v))) as [[x Hx]|_];
    [rewrite lookup_empty in Hx; discriminate|reflexivity].
Qed.

Lemma make_landmarks_without_views recon tracks ls w h :
  make_landmarks recon tracks (mkBuild ∅ ls w h) = Some (mkBuild ∅ ls w h).
Proof.
  induction tracks as [|[track_id track] rest IH]; cbn [make_landmarks]; [reflexivity|].
  cbn [kontiki_views]. rewrite count_views_empty. exact IH.
Qed.

(** No view is inside margins that meet or cross. *)
Lemma make_views_short (t0 tend : Q) (views : list (ViewId * View)) :
  (fsub tend tenth <= fadd t0 tenth)%Q -> make_views t0 tend views ∅ = ∅.
Proof.
  intros Hshort. apply map_empty. intros k.
  apply eq_None_not_Some. rewrite make_views_member.
  intros [[x Hx]|(v & _ & Hw)]; [rewrite lookup_empty in Hx; discriminate|].
  apply view_in_window_iff in Hw. lra.
Qed.

(** [main] on a reconstruction of which no view takes part. *)
Lemma main_without_views fs FLAGS recon_calib_dataset cam_calib_recon view_1 t0 tend :
  ReadReconstruction fs (FLAGS_input_calibration_dataset FLAGS) = Some cam_calib_recon ->
  ReadDetectorParameters fs (FLAGS_detector_params FLAGS) = true ->
  ContinuousTime.minmax_element
    (map (fun iv => view_timestamp (snd iv)) (recon_views recon_calib_dataset))
    = Some (t0, tend) ->
  make_views t0 tend (recon_views recon_calib_dataset) ∅ = ∅ ->
  GetView cam_calib_recon 0 = Some view_1 ->
  exists r out trajectory,
    main acc_zero acc_add contribution converged propose fs FLAGS recon_calib_dataset
      = Returned r /\
    r = mkResult out
          (Some (Solve acc_zero acc_add contribution converged (update propose) 100
                       (mkEstimator (mkState trajectory []) []))).
Proof.
  intros Hrec Hdet Hmm Hviews Hv.
  unfold main, mbind, outcome_bind.
  rewrite Hrec. cbn [bind CHECK]. rewrite Hdet. cbn [negb].
  rewrite Hmm. cbn [bind defined]. rewrite Hviews.
  rewrite make_landmarks_without_views. cbn [bind defined kontiki_landmarks].
  cbn [set_references mapM mret]. cbn [bind defined].
  rewrite Hv. cbn [bind defined kontiki_views].
  rewrite map_to_list_empty.
  eexists _, _, _. split; reflexivity.
Qed.

End CharucoMain.

(** X12.  When the two margins of line 232 meet or cross, the last time
    stamp minus 0.1 being no greater than the first plus 0.1 in doubles, no
    view takes part.  With a readable reconstruction and readable detector
    parameters, and a view 0 in the calibration, [main] then builds no
    landmark, registers no measurement, and returns after [Solve(100)] has
    run on the estimator without measurements and landmarks. *)
Theorem short_recording_gives_empty_problem
        {Acc : Type} (acc_zero : Acc) (acc_add : Acc -> Acc -> Acc)
        (contribution : Charuco.State -> Charuco.CamMeasurementPinhole -> Acc)
        (converged : Charuco.State -> Acc -> bool)
        (propose : Charuco.State -> Acc -> Charuco.State)
        (fs : Files) (FLAGS : Charuco.Flags) (recon_calib_dataset : Reconstruction)
        (cam_calib_recon : Reconstruction) (view_1 : View) (t0 tend : Q) :
  ReadReconstruction fs (Charuco.FLAGS_input_calibration_dataset FLAGS)
    = Some cam_calib_recon ->
  ReadDetectorParameters fs (Charuco.FLAGS_detector_params FLAGS) = true ->
  ContinuousTime.minmax_element
    (map (fun iv => view_timestamp (snd iv)) (recon_views recon_calib_dataset))
    = Some (t0, tend) ->
  (double (tend - double (1 # 10)) <= double (t0 + double (1 # 10)))%Q ->
  GetView cam_calib_recon 0 = Some view_1 ->
  exists r e trajectory,
    Charuco.main acc_zero acc_add contribution converged propose fs FLAGS
                 recon_calib_dataset = Returned r /\
    Charuco.solved r = Some e /\
    e = Kontiki.Solve acc_zero acc_add contribution converged (Charuco.update propose) 100
          (Kontiki.mkEstimator (Charuco.mkState trajectory []) []) /\
    Kontiki.est_measurements e = [] /\
    Charuco.st_landmarks (Kontiki.est_state e) = [].
Proof.
  intros Hrec Hdet Hmm Hshort Hv.
  destruct (main_without_views acc_zero acc_add contribution converged propose
              fs FLAGS recon_calib_dataset cam_calib_recon view_1 t0 tend
              Hrec Hdet Hmm (make_views_short t0 tend _ Hshort) Hv)
    as (r & out & trajectory & Hmain & ->).
  eexists _, _, trajectory. split; [exact Hmain|].
  split; [reflexivity|]. split; [reflexivity|]. split; [reflexivity|].
  cbn [Kontiki.Solve Kontiki.est_state Kontiki.est_measurements].
  rewrite iterate_keeps_locked; [reflexivity|constructor].
Qed.

Lemma short_recording_gives_empty_problem_witness :
  exists r e trajectory,
    Charuco.main 0 Z.add Demo.contribution Demo.converged Demo.propose
                 (Demo.files Demo.telemetry_near) Demo.charuco_flags Cases.short_recon
      = Returned r /\
    Charuco.solved r = Some e /\
    e = Kontiki.Solve 0 Z.add Demo.contribution Demo.converged
                      (Charuco.update Demo.propose) 100
                      (Kontiki.mkEstimator (Charuco.mkState trajectory []) []) /\
    Kontiki.est_measurements e = [] /\
    Charuco.st_landmarks (Kontiki.est_state e) = [].
Proof.
  apply (short_recording_gives_empty_problem 0 Z.add Demo.contribution Demo.converged
           Demo.propose (Demo.files Demo.telemetry_near) Demo.charuco_flags
           Cases.short_recon Demo.recon (mkView 0 Demo.features Demo.camera)
           0 (double (2 # 10))).
  - reflexivity.
  - reflexivity.
  - vm_compute. reflexivity.
  - vm_compute. discriminate.
  - reflexivity.
Defined.

(** X13.  The telemetry is read and never used: whether the telemetry file
    can be read changes the lines written to the output and nothing else of
    what [main] does. *)
Theorem telemetry_is_not_used
        {Acc : Type} (acc_zero : Acc) (acc_add : Acc -> Acc -> Acc)
        (contribution : Charuco.State -> Charuco.CamMeasurementPinhole -> Acc)
        (converged : Charuco.State -> Acc -> bool)
        (propose : Charuco.State -> Acc -> Charuco.State)
        (fs fs' : Files) (FLAGS : Charuco.Flags) (recon_calib_dataset : Reconstruction) :
  ReadReconstruction fs (Charuco.FLAGS_input_calibration_dataset FLAGS)
    = ReadReconstruction fs' (Charuco.FLAGS_input_calibration_dataset FLAGS) ->
  ReadDetectorParameters fs (Charuco.FLAGS_detector_params FLAGS)
    = ReadDetectorParameters fs' (Charuco.FLAGS_detector_params FLAGS) ->
  CharucoFacts.solved_of
    (Charuco.main acc_zero acc_add contribution converged propose
                  fs FLAGS recon_calib_dataset)
  = CharucoFacts.solved_of
      (Charuco.main acc_zero acc_add contribution converged propose
                    fs' FLAGS recon_calib_dataset).
Proof.
  intros Hrec Hdet. unfold Charuco.main, mbind, outcome_bind.
  rewrite Hrec, Hdet.
  destruct (ReadReconstruction fs' _) as [cam_calib_recon|]; cbn [bind CHECK];
    [|reflexivity].
  destruct (negb _); [reflexivity|].
  destruct (ContinuousTime.minmax_element _) as [[t0 tend]|]; cbn [bind defined];
    [|reflexivity].
  destruct (Charuco.make_landmarks _ _ _) as [b|]; cbn [bind defined]; [|reflexivity].
  destruct (Charuco.set_references _) as [landmarks|]; cbn [bind defined]; [|reflexivity].
  destruct (GetView cam_calib_recon 0) as [view_1|]; cbn [bind defined]; reflexivity.
Qed.

Lemma telemetry_is_not_used_witness :
  CharucoFacts.solved_of
    (Charuco.main 0 Z.add Demo.contribution Demo.converged Demo.propose
                  (Demo.files Demo.telemetry_near) Demo.charuco_flags Demo.charuco_recon)
  = CharucoFacts.solved_of
      (Charuco.main 0 Z.add Demo.contribution Demo.converged Demo.propose
                    Demo.files_without_telemetry Demo.charuco_flags Demo.charuco_recon).
Proof.
  apply (telemetry_is_not_used 0 Z.add Demo.contribution Demo.converged Demo.propose
           (Demo.files Demo.telemetry_near) Demo.files_without_telemetry
           Demo.charuco_flags Demo.charuco_recon); reflexivity.
Defined.

(** ** calibrate_camera.cc: the loop over the video *)

Section CalibrationLoop.

Import CalibrateCamera Calibration CalibrationFacts.

Variable norm3 : Vec3 -> Q.
Variable ProjectPoint : Camera -> Vec4 -> Vec2.
Variable norm : Vec2 -> Q.
Variable intrinsics_of : string -> InitResult -> Z -> Z -> list Q.

Local Abbreviation step := (frame_step norm3 ProjectPoint norm intrinsics_of).
Local Abbreviation run := (run_frames norm3 ProjectPoint norm intrinsics_of).

(** A turn of the loop either leaves reconstruction and poses alone or takes
    the frame; it returns only for a camera model that does not exist. *)
Lemma frame_step_cases FLAGS board st f st' :
  reaches (step FLAGS board st f) st' ->
  (keeps st st' \/ takes norm3 FLAGS f st st') /\
  (step FLAGS board st f = Stop (Return0 st') ->
   keeps st st' /\
   initialize (FLAGS_camera_model_to_calibrate FLAGS) f = None /\
   fr_read f = true /\
   (min_number_detected_corners <= length (fr_charuco f))%nat).
Proof.
  unfold reaches, frame_step.
  destruct (fr_read f) eqn:Hread; cbn [negb].
  2:{ destruct (500 <? _)%nat; intros [H|[H|H]]; try discriminate H;
        injection H as <-; (split; [left; split; reflexivity|discriminate]). }
  destruct (length (fr_charuco f) <? min_number_detected_corners)%nat eqn:Hlen.
  { intros [H|[H|H]]; try discriminate H. injection H as <-.
    split; [left; split; reflexivity|discriminate]. }
  apply Nat.ltb_ge in Hlen.
  destruct (mapM _ (fr_charuco f)) as [track_ids|].
  2:{ intros [H|[H|H]]; discriminate H. }
  destruct (initialize _ f) as [init|] eqn:Hinit.
  2:{ intros [H|[H|H]]; try discriminate H. injection H as <-.
      split; [left; split; reflexivity|]. intros _.
      split; [split; reflexivity|]. auto. }
  cbn [saved_poses recon_calib_dataset frame_cnt cnt_wrong ids_to_remove_after_init].
  destruct (rejected norm3 _ init _ (saved_poses st)) eqn:Hrej.
  { intros [H|[H|H]]; try discriminate H. injection H as <-.
    split; [left; split; reflexivity|discriminate]. }
  destruct (fr_view_id f) as [view_id|] eqn:Hid.
  2:{ intros [H|[H|H]]; discriminate H. }
  destruct (GetReprojErrorOfView _ _ _ view_id) as [err|].
  2:{ intros [H|[H|H]]; discriminate H. }
  intros H.
  assert (Htakes : forall st2 : LoopState,
             recon_views (recon_calib_dataset st2)
               = recon_views (recon_calib_dataset st)
                 ++ [(view_id,
                      mkView (fr_timestamp f)
                        (add_observations (zip track_ids (map snd (fr_charuco f))) [])
                        (mkCamera (rotation init) (position init)
                           (intrinsics_of (FLAGS_camera_model_to_calibrate FLAGS) init
                                          (fr_cols f) (fr_rows f))
                           (fr_cols f) (fr_rows f)))] ->
             saved_poses st2 = saved_poses st ++ [position init] ->
             takes norm3 FLAGS f st st2).
  { intros st2 Hv Hp. eexists init, view_id, _.
    split; [exact Hread|]. split; [exact Hinit|]. split; [exact Hrej|]. split; [exact Hlen|].
    split; [exact Hid|]. split; [|split; [|split; [|split; [exact Hv|exact Hp]]]];
      reflexivity. }
  destruct (fr_key f =? 27); destruct H as [H|[H|H]]; try discriminate H;
    injection H as <-; (split; [right; apply Htakes; reflexivity|discriminate]).
Qed.

(** What holds at the start, is kept by every turn and does not depend on
    the count of failed reads holds when the loop is left. *)
Lemma run_frames_invariant (I : LoopState -> Prop) FLAGS board :
  (forall st f st', I st -> reaches (step FLAGS board st f) st' -> I st') ->
  (forall st n, I st ->
     I (mkLoopState (recon_calib_dataset st) (saved_poses st) (frame_cnt st) n
                    (ids_to_remove_after_init st))) ->
  forall frames st st',
    I st ->
    run FLAGS board frames st = Break st' \/ run FLAGS board frames st = Return0 st' ->
    I st'.
Proof.
  intros Hstep Hcount. induction frames as [|f rest IH]; intros st st' Hst Hrun;
    cbn [run_frames] in Hrun.
  - destruct Hrun as [H|H]; [|discriminate H]. injection H as <-. now apply Hcount.
  - destruct (step FLAGS board st f) as [st1|e] eqn:Hs.
    + apply (IH st1 st'); [|exact Hrun]. apply (Hstep st f st1 Hst). left. exact Hs.
    + destruct Hrun as [-> | ->]; apply (Hstep st f st' Hst); unfold reaches; auto.
Qed.

Lemma spaced_snoc grid_size (l : list Vec3) (q : Vec3) :
  spaced norm3 grid_size l ->
  take_image norm3 grid_size q l = true ->
  spaced norm3 grid_size (l ++ [q]).
Proof.
  unfold spaced, take_image. rewrite negb_true_iff. intros Hl Hq.
  induction Hl as [|p l Hp Hl IH]; simpl.
  - constructor; constructor.
  - simpl in Hq. apply orb_false_iff in Hq. destruct Hq as [Hpq Hq].
    constructor; [|now apply IH].
    apply Forall_app. split; [exact Hp|].
    constructor; [|constructor]. now apply Qltb_false.
Qed.

Lemma rejected_false grid_size init corners poses :
  rejected norm3 grid_size init corners poses = false ->
  take_image norm3 grid_size (position init) poses = true /\
  success_init init = true /\
  (inject_Z (Z.of_nat corners) * (6 # 10) <= inject_Z (Z.of_nat (inliers init)))%Q.
Proof.
  unfold rejected. rewrite !orb_false_iff, !negb_false_iff, Qltb_false. tauto.
Qed.

End CalibrationLoop.

Section CalibrationLoopFacts.

Import CalibrateCamera Calibration CalibrationFacts.

Variable norm3 : Vec3 -> Q.
Variable ProjectPoint : Camera -> Vec4 -> Vec2.
Variable norm : Vec2 -> Q.
Variable intrinsics_of : string -> InitResult -> Z -> Z -> list Q.

Lemma initialize_model_exists model f init :
  initialize model f = Some init -> model_exists model.
Proof.
  unfold initialize, model_exists.
  destruct (String.eqb_spec model "LINEAR_PINHOLE"); [auto|].
  destruct (String.eqb_spec model "DIVISION_UNDISTORTION"); [auto|].
  destruct (String.eqb_spec model "DOUBLE_SPHERE"); [auto|discriminate].
Qed.

(** The saved poses are the positions of the views and are spaced; views
    exist only for a camera model that exists. *)
Lemma run_frames_poses FLAGS board frames st :
  run_frames norm3 ProjectPoint norm intrinsics_of FLAGS board frames (loop_start board)
    = Break st \/
  run_frames norm3 ProjectPoint norm intrinsics_of FLAGS board frames (loop_start board)
    = Return0 st ->
  poses_of (recon_calib_dataset st) = saved_poses st /\
  spaced norm3 (FLAGS_grid_size FLAGS) (saved_poses st) /\
  (recon_views (recon_calib_dataset st) <> [] ->
   model_exists (FLAGS_camera_model_to_calibrate FLAGS)).
Proof.
  apply (run_frames_invariant norm3 ProjectPoint norm intrinsics_of
           (fun st => poses_of (recon_calib_dataset st) = saved_poses st /\
                      spaced norm3 (FLAGS_grid_size FLAGS) (saved_poses st) /\
                      (recon_views (recon_calib_dataset st) <> [] ->
                       model_exists (FLAGS_camera_model_to_calibrate FLAGS)))).
  - intros st0 f st' (Hposes & Hspaced & Hmodel) Hreach.
    destruct (frame_step_cases norm3 ProjectPoint norm intrinsics_of
                FLAGS board st0 f st' Hreach) as [[[Hr Hp]|Htakes] _].
    + rewrite Hr, Hp. auto.
    + destruct Htakes as (init & view_id & view & _ & Hinit & Hrej & _ & _ & Hpos & _ & _
                          & Hviews & Hsaved).
      apply rejected_false in Hrej. destruct Hrej as (Htake & _).
      unfold poses_of. rewrite Hviews, Hsaved, map_app. simpl.
      split; [|split].
      * f_equal; [exact Hposes|]. now rewrite Hpos.
      * now apply spaced_snoc.
      * intros _. eapply initialize_model_exists. exact Hinit.
  - intros st0 n H. exact H.
  - unfold loop_start, poses_of. simpl.
    split; [reflexivity|]. split; [constructor|]. intros H. now contradiction H.
Qed.

End CalibrationLoopFacts.

(** X15.  A view is added only for a frame whose camera position is not
    closer than [grid_size] to the position of any view added before: when
    the loop over the video ends, the saved poses are the camera positions
    of the views, in the order of the views, and each is at least
    [grid_size] away from those before it. *)
Theorem views_are_spaced
        (norm3 : Vec3 -> Q) (ProjectPoint : Camera -> Vec4 -> Vec2) (norm : Vec2 -> Q)
        (intrinsics_of : string -> Calibration.InitResult -> Z -> Z -> list Q)
        (FLAGS : Calibration.Flags) (board : Calibration.Board)
        (frames : list Calibration.Frame) (st : Calibration.LoopState) :
  Calibration.run_frames norm3 ProjectPoint norm intrinsics_of FLAGS board frames
                         (Calibration.loop_start board) = Calibration.Break st ->
  map (fun iv => cam_position (view_camera (snd iv)))
      (recon_views (Calibration.recon_calib_dataset st))
    = Calibration.saved_poses st /\
  NumViews (Calibration.recon_calib_dataset st) = length (Calibration.saved_poses st) /\
  ForallOrdPairs
    (fun p q => (Calibration.FLAGS_grid_size FLAGS <= norm3 (Calibration.vsub q p))%Q)
    (Calibration.saved_poses st).
Proof.
  intros Hrun.
  destruct (run_frames_poses norm3 ProjectPoint norm intrinsics_of FLAGS board frames st
              (or_introl Hrun)) as (Hposes & Hspaced & _).
  split; [exact Hposes|]. split; [|exact Hspaced].
  unfold NumViews. rewrite <- Hposes. unfold CalibrationFacts.poses_of.
  now rewrite length_map.
Qed.

(** ** calibrate_camera.cc: after the loop *)

Section AfterLoop.

Import CalibrateCamera Calibration CalibrationFacts.

Variable norm3 : Vec3 -> Q.
Variable ProjectPoint : Camera -> Vec4 -> Vec2.
Variable norm : Vec2 -> Q.
Variable intrinsics_of : string -> InitResult -> Z -> Z -> list Q.
Variable BundleAdjustReconstruction : BundleAdjustmentOptions -> Reconstruction -> Reconstruction.
Variable RemoveView : Reconstruction -> ViewId -> Reconstruction.
Variable E : ModelTypeEnum.

(** What has been computed when the two files are written. *)
Lemma after_loop_written FLAGS fps recon0 out :
  after_loop ProjectPoint norm BundleAdjustReconstruction RemoveView E FLAGS fps recon0
    = Returned (Written out) ->
  exists ids_to_remove first_id first_view reproj_error,
    (10 <= NumViews recon0)%nat /\
    views_to_remove ProjectPoint norm
      (BundleAdjustReconstruction
         (ba_options_first (FLAGS_camera_model_to_calibrate FLAGS)) recon0)
      (ViewIds (BundleAdjustReconstruction
                  (ba_options_first (FLAGS_camera_model_to_calibrate FLAGS)) recon0))
      ∅ = Some ids_to_remove /\
    out_calibdata out
      = BundleAdjustReconstruction
          (ba_options_second (FLAGS_camera_model_to_calibrate FLAGS))
          (BundleAdjustReconstruction
             (ba_options_second (FLAGS_camera_model_to_calibrate FLAGS))
             (foldl RemoveView
                (BundleAdjustReconstruction
                   (ba_options_first (FLAGS_camera_model_to_calibrate FLAGS)) recon0)
                (merge_sort Z.le (map fst (map_to_list ids_to_remove))))) /\
    (8 <= NumViews
            (BundleAdjustReconstruction
               (ba_options_second (FLAGS_camera_model_to_calibrate FLAGS))
               (foldl RemoveView
                  (BundleAdjustReconstruction
                     (ba_options_first (FLAGS_camera_model_to_calibrate FLAGS)) recon0)
                  (merge_sort Z.le (map fst (map_to_list ids_to_remove))))))%nat /\
    head (ViewIds (out_calibdata out)) = Some first_id /\
    GetView (out_calibdata out) first_id = Some first_view /\
    json_camera out = view_camera first_view /\
    sum_errors ProjectPoint norm (out_calibdata out) (ViewIds (out_calibdata out)) (Finite 0)
      = Some reproj_error /\
    json_final_reproj_error out = ddiv_count reproj_error (NumViews (out_calibdata out)) /\
    json_nr_images_used out = NumViews (out_calibdata out) /\
    out_prefix out = output_str FLAGS /\
    json_camera_type out
      = (written_model_type E (FLAGS_camera_model_to_calibrate FLAGS)
           ≫= CameraIDToString E).
Proof.
  unfold after_loop, mbind at 1 2 3 4 5, outcome_bind.
  destruct (NumViews recon0 <? 10)%nat eqn:H10; [discriminate|].
  apply Nat.ltb_ge in H10.
  destruct (views_to_remove _ _ _ _ _) as [ids|] eqn:Hids; cbn [bind defined];
    [|discriminate].
  destruct (NumViews _ <? 8)%nat eqn:H8; [discriminate|].
  apply Nat.ltb_ge in H8.
  destruct (head _) as [first_id|] eqn:Hhead; cbn [bind defined]; [|discriminate].
  destruct (GetView _ first_id) as [first_view|] eqn:Hview; cbn [bind defined];
    [|discriminate].
  destruct (sum_errors _ _ _ _ _) as [s|] eqn:Hsum; cbn [bind defined]; [|discriminate].
  destruct (written_model_type E _) as [theia_enum|] eqn:Htype.
  - unfold mbind, outcome_bind.
    destruct (CameraIDToString E theia_enum) as [name|] eqn:Hname; cbn [bind defined];
      [|discriminate].
    intros H. injection H as <-. cbn.
    exists ids, first_id, first_view, s. rewrite Hname. auto 15.
  - cbn [bind]. intros H. injection H as <-. cbn.
    exists ids, first_id, first_view, s. auto 15.
Qed.

(** A calibration that is written has at least ten views before the first
    bundle adjustment, and so a camera model that exists. *)
Lemma main_written fs FLAGS board fps frames out :
  main norm3 ProjectPoint norm intrinsics_of BundleAdjustReconstruction RemoveView E
       fs FLAGS board fps frames = Returned (Written out) ->
  exists st,
    run_frames norm3 ProjectPoint norm intrinsics_of FLAGS board frames (loop_start board)
      = Break st /\
    (10 <= NumViews (recon_calib_dataset st))%nat /\
    model_exists (FLAGS_camera_model_to_calibrate FLAGS) /\
    after_loop ProjectPoint norm BundleAdjustReconstruction RemoveView E FLAGS fps
               (recon_calib_dataset st) = Returned (Written out).
Proof.
  unfold main. destruct (negb _); [discriminate|].
  destruct (Qeq_bool fps 0); [discriminate|].
  destruct (run_frames _ _ _ _ _ _ _ _) as [st|st|] eqn:Hrun; try discriminate.
  intros Hafter. exists st. split; [reflexivity|].
  destruct (after_loop_written _ _ _ _ Hafter) as (_ & _ & _ & _ & H10 & _).
  split; [exact H10|]. split; [|exact Hafter].
  destruct (run_frames_poses norm3 ProjectPoint norm intrinsics_of FLAGS board frames st
              (or_introl Hrun)) as (_ & _ & Hmodel).
  apply Hmodel. unfold NumViews in H10. intros Hnil. rewrite Hnil in H10. simpl in H10. lia.
Qed.

Lemma append_not_empty (a b : string) : b <> ""%string -> a +:+ b <> ""%string.
Proof. destruct a; simpl; [auto|discriminate]. Qed.

End AfterLoop.

(** X16.  When [main] writes a calibration, the camera model is one of the
    three names of the dispatch, and the prefix of the two files is the one
    of lines 450-460: the save path with [/camera_calibration_div_] or
    [/camera_calibration_ds_] and the integer part of the downsample factor
    for the two distorted models, and the empty string for LINEAR_PINHOLE,
    for which the test of line 458 compares with the name PINHOLE. *)
Theorem written_files_prefix
        (norm3 : Vec3 -> Q) (ProjectPoint : Camera -> Vec4 -> Vec2) (norm : Vec2 -> Q)
        (intrinsics_of : string -> Calibration.InitResult -> Z -> Z -> list Q)
        (BundleAdjustReconstruction :
           CalibrateCamera.BundleAdjustmentOptions -> Reconstruction -> Reconstruction)
        (RemoveView : Reconstruction -> ViewId -> Reconstruction)
        (E : CalibrateCamera.ModelTypeEnum)
        (fs : Files) (FLAGS : Calibration.Flags) (board : Calibration.Board) (fps : Q)
        (frames : list Calibration.Frame) (out : Calibration.Output) :
  Calibration.main norm3 ProjectPoint norm intrinsics_of BundleAdjustReconstruction
                   RemoveView E fs FLAGS board fps frames
    = Returned (Calibration.Written out) ->
  (Calibration.FLAGS_camera_model_to_calibrate FLAGS = "LINEAR_PINHOLE"%string /\
   Calibration.out_prefix out = ""%string) \/
  (Calibration.FLAGS_camera_model_to_calibrate FLAGS = "DIVISION_UNDISTORTION"%string /\
   Calibration.out_prefix out
     = Calibration.FLAGS_save_path_calib_dataset FLAGS +:+ "/camera_calibration_div_"
       +:+ pretty (Calibration.int_of_double (Calibration.FLAGS_downsample_factor FLAGS))) \/
  (Calibration.FLAGS_camera_model_to_calibrate FLAGS = "DOUBLE_SPHERE"%string /\
   Calibration.out_prefix out
     = Calibration.FLAGS_save_path_calib_dataset FLAGS +:+ "/camera_calibration_ds_"
       +:+ pretty (Calibration.int_of_double (Calibration.FLAGS_downsample_factor FLAGS))).
Proof.
  intros Hmain.
  destruct (main_written _ _ _ _ _ _ _ _ _ _ _ _ _ Hmain) as (st & _ & _ & Hmodel & Hafter).
  destruct (after_loop_written _ _ _ _ _ _ _ _ _ Hafter)
    as (? & ? & ? & ? & _ & _ & _ & _ & _ & _ & _ & _ & _ & _ & Hprefix & _).
  rewrite Hprefix. unfold Calibration.output_str.
  destruct Hmodel as [-> | [-> | ->]]; cbn [String.eqb Ascii.eqb Bool.eqb]; auto.
Qed.

(** X17.  The camera type written to the json is the answer of
    [CameraIDToString]: with enumeration values of which DIVISION_UNDISTORTION
    is not zero and DOUBLE_SPHERE differs from the other two, a DOUBLE_SPHERE
    calibration is labelled DOUBLE_SPHERE and the other two, LINEAR_PINHOLE
    included, are labelled DIVISION_UNDISTORTION. *)
Theorem written_camera_type
        (norm3 : Vec3 -> Q) (ProjectPoint : Camera -> Vec4 -> Vec2) (norm : Vec2 -> Q)
        (intrinsics_of : string -> Calibration.InitResult -> Z -> Z -> list Q)
        (BundleAdjustReconstruction :
           CalibrateCamera.BundleAdjustmentOptions -> Reconstruction -> Reconstruction)
        (RemoveView : Reconstruction -> ViewId -> Reconstruction)
        (E : CalibrateCamera.ModelTypeEnum)
        (fs : Files) (FLAGS : Calibration.Flags) (board : Calibration.Board) (fps : Q)
        (frames : list Calibration.Frame) (out : Calibration.Output) :
  CalibrateCamera.DIVISION_UNDISTORTION E <> 0 ->
  CalibrateCamera.DIVISION_UNDISTORTION E <> CalibrateCamera.DOUBLE_SPHERE E ->
  CalibrateCamera.PINHOLE E <> CalibrateCamera.DOUBLE_SPHERE E ->
  Calibration.main norm3 ProjectPoint norm intrinsics_of BundleAdjustReconstruction
                   RemoveView E fs FLAGS board fps frames
    = Returned (Calibration.Written out) ->
  Calibration.json_camera_type out
    = Some (if String.eqb (Calibration.FLAGS_camera_model_to_calibrate FLAGS) "DOUBLE_SPHERE"
            then "DOUBLE_SPHERE"%string else "DIVISION_UNDISTORTION"%string).
Proof.
  intros Hdiv Hdiv_ds Hph_ds Hmain.
  destruct (main_written _ _ _ _ _ _ _ _ _ _ _ _ _ Hmain) as (st & _ & _ & Hmodel & Hafter).
  destruct (after_loop_written _ _ _ _ _ _ _ _ _ Hafter)
    as (? & ? & ? & ? & _ & _ & _ & _ & _ & _ & _ & _ & _ & _ & _ & Htype).
  rewrite Htype. unfold Calibration.written_model_type, CalibrateCamera.CameraIDToString.
  apply Z.eqb_neq in Hdiv, Hdiv_ds, Hph_ds.
  destruct Hmodel as [-> | [-> | ->]]; cbn [String.eqb Ascii.eqb Bool.eqb mbind option_bind];
    rewrite ?Hdiv_ds, ?Hph_ds, ?Hdiv, ?Z.eqb_refl; reflexivity.
Qed.

(** X18.  With a bundle adjustment that keeps the number of views, a
    calibration is written only when the loop over the video has left at
    least 10 views, and the number of images it reports is the number of
    views of the reconstruction it writes, at least 8. *)
Theorem written_view_counts
        (norm3 : Vec3 -> Q) (ProjectPoint : Camera -> Vec4 -> Vec2) (norm : Vec2 -> Q)
        (intrinsics_of : string -> Calibration.InitResult -> Z -> Z -> list Q)
        (BundleAdjustReconstruction :
           CalibrateCamera.BundleAdjustmentOptions -> Reconstruction -> Reconstruction)
        (RemoveView : Reconstruction -> ViewId -> Reconstruction)
        (E : CalibrateCamera.ModelTypeEnum)
        (fs : Files) (FLAGS : Calibration.Flags) (board : Calibration.Board) (fps : Q)
        (frames : list Calibration.Frame) (out : Calibration.Output) :
  (forall opts r, NumViews (BundleAdjustReconstruction opts r) = NumViews r) ->
  Calibration.main norm3 ProjectPoint norm intrinsics_of BundleAdjustReconstruction
                   RemoveView E fs FLAGS board fps frames
    = Returned (Calibration.Written out) ->
  exists st,
    Calibration.run_frames norm3 ProjectPoint norm intrinsics_of FLAGS board frames
                           (Calibration.loop_start board) = Calibration.Break st /\
    (10 <= NumViews (Calibration.recon_calib_dataset st))%nat /\
    Calibration.json_nr_images_used out = NumViews (Calibration.out_calibdata out) /\
    (8 <= Calibration.json_nr_images_used out)%nat.
Proof.
  intros HBA Hmain.
  destruct (main_written _ _ _ _ _ _ _ _ _ _ _ _ _ Hmain) as (st & Hrun & H10 & _ & Hafter).
  destruct (after_loop_written _ _ _ _ _ _ _ _ _ Hafter)
    as (ids & ? & ? & ? & _ & _ & Hdata & H8 & _ & _ & _ & _ & _ & Hnr & _).
  exists st. split; [exact Hrun|]. split; [exact H10|]. split; [exact Hnr|].
  rewrite Hnr, Hdata, HBA. exact H8.
Qed.

(** ** calibrate_camera.cc: the views that are removed *)

Section Removal.

Import CalibrateCamera Calibration.

Variable ProjectPoint : Camera -> Vec4 -> Vec2.
Variable norm : Vec2 -> Q.

(** The loop of lines 418-425 enters a view exactly when its error is above
    10 and otherwise leaves the map as it is. *)
Lemma views_to_remove_lookup recon view_ids : forall acc m,
  views_to_remove ProjectPoint norm recon view_ids acc = Some m ->
  Forall (fun v => is_Some (GetReprojErrorOfView ProjectPoint norm recon v)) view_ids /\
  forall v e,
    m !! v = Some e <->
    (In v view_ids /\ GetReprojErrorOfView ProjectPoint norm recon v = Some e /\
     above_ten e = true) \/
    (acc !! v = Some e /\
     forall e', In v view_ids -> GetReprojErrorOfView ProjectPoint norm recon v = Some e' ->
                above_ten e' = false).
Proof.
  induction view_ids as [|v0 rest IH]; intros acc m Hm; cbn [views_to_remove] in Hm.
  - injection Hm as <-. split; [constructor|]. intros v e. split.
    + intros H. right. split; [exact H|]. intros e' [].
    + intros [([] & _)|[H _]]. exact H.
  - destruct (GetReprojErrorOfView ProjectPoint norm recon v0) as [e0|] eqn:He0;
      cbn [mbind option_bind] in Hm; [|discriminate].
    destruct (IH _ _ Hm) as [Hall Hlook].
    split; [constructor; [rewrite He0; eauto|exact Hall]|].
    intros v e. rewrite (Hlook v e). clear Hlook IH Hm. split.
    + intros [(Hin & Hv & Hab)|[Hacc Hrest]].
      * left. split; [right; exact Hin|auto].
      * destruct (above_ten e0) eqn:Hab0.
        -- destruct (decide (v = v0)) as [->|Hne].
           ++ rewrite lookup_insert_eq in Hacc. injection Hacc as <-.
              left. split; [left; reflexivity|auto].
           ++ rewrite lookup_insert_ne in Hacc by congruence.
              right. split; [exact Hacc|]. intros e' [Heq|Hin] He'; [congruence|].
              now apply Hrest.
        -- right. split; [exact Hacc|]. intros e' [Heq|Hin] He'.
           ++ subst v. congruence.
           ++ now apply Hrest.
    + intros [([Heq|Hin] & Hv & Hab)|[Hacc Hnone]].
      * subst v0. destruct (in_dec Z.eq_dec v rest) as [Hin|Hnin].
        -- left. auto.
        -- right. rewrite He0 in Hv. injection Hv as ->. rewrite Hab.
           split; [apply lookup_insert_eq|]. intros e' Hin. contradiction.
      * left. auto.
      * destruct (decide (v = v0)) as [->|Hne].
        -- right. rewrite (Hnone e0 (or_introl eq_refl) He0).
           split; [exact Hacc|]. intros e' Hin. apply Hnone. now right.
        -- right. split.
           ++ destruct (above_ten e0); [|exact Hacc].
              rewrite lookup_insert_ne by congruence. exact Hacc.
           ++ intros e' Hin. apply Hnone. now right.
Qed.

End Removal.

(** X19.  The loop of lines 418-425 marks a view for removal exactly when
    its reprojection error is above 10, with that error as value.  A view
    without observations has the error 0.0 / 0, which is not above 10: it is
    never marked. *)
Theorem removed_views_are_those_above_ten
        (ProjectPoint : Camera -> Vec4 -> Vec2) (norm : Vec2 -> Q)
        (recon : Reconstruction) (view_ids : list ViewId) (ids_to_remove : gmap ViewId dbl) :
  Calibration.views_to_remove ProjectPoint norm recon view_ids ∅ = Some ids_to_remove ->
  (forall v e,
     ids_to_remove !! v = Some e <->
     In v view_ids /\
     CalibrateCamera.GetReprojErrorOfView ProjectPoint norm recon v = Some e /\
     Calibration.above_ten e = true) /\
  (forall v view,
     GetView recon v = Some view -> ViewTrackIds view = [] -> ids_to_remove !! v = None).
Proof.
  intros Hm. destruct (views_to_remove_lookup _ _ _ _ _ _ Hm) as [_ Hlook].
  assert (Hiff : forall v e,
             ids_to_remove !! v = Some e <->
             In v view_ids /\
             CalibrateCamera.GetReprojErrorOfView ProjectPoint norm recon v = Some e /\
             Calibration.above_ten e = true).
  { intros v e. rewrite (Hlook v e). split; [|auto].
    intros [H|[H _]]; [exact H|]. rewrite lookup_empty in H. discriminate H. }
  split; [exact Hiff|].
  intros v view Hview Hnone.
  destruct (ids_to_remove !! v) as [e|] eqn:He; [|reflexivity].
  apply Hiff in He. destruct He as (_ & Herr & Habove).
  unfold CalibrateCamera.GetReprojErrorOfView in Herr.
  rewrite Hview in Herr. cbn [mbind option_bind] in Herr.
  rewrite Hnone in Herr. cbn in Herr. injection Herr as <-. discriminate Habove.
Qed.

Lemma removed_views_are_those_above_ten_witness :
  (Cases.mixed_removed !! 1 = Some (Finite 40) <->
   In 1 [0; 1; 2] /\
   CalibrateCamera.GetReprojErrorOfView Demo.project Demo.norm1 Cases.mixed_recon 1
     = Some (Finite 40) /\
   Calibration.above_ten (Finite 40) = true) /\
  Cases.mixed_removed !! 2 = None.
Proof.
  assert (H : Calibration.views_to_remove Demo.project Demo.norm1 Cases.mixed_recon
                [0; 1; 2] ∅ = Some Cases.mixed_removed) by (vm_compute; reflexivity).
  split.
  - apply (proj1 (removed_views_are_those_above_ten _ _ _ _ _ H)).
  - apply (proj2 (removed_views_are_those_above_ten _ _ _ _ _ H) 2 (mkView 2 [] Demo.camera));
      reflexivity.
Defined.

(** ** calibrate_camera.cc: where the views come from *)

Section ViewsOfTheLoop.

Import CalibrateCamera Calibration CalibrationFacts.

Variable norm3 : Vec3 -> Q.
Variable ProjectPoint : Camera -> Vec4 -> Vec2.
Variable norm : Vec2 -> Q.
Variable intrinsics_of : string -> InitResult -> Z -> Z -> list Q.

(** A view of the reconstruction the loop leaves was there at the start or
    was taken from one of the frames. *)
Lemma run_frames_views FLAGS board : forall frames st st',
  run_frames norm3 ProjectPoint norm intrinsics_of FLAGS board frames st = Break st' \/
  run_frames norm3 ProjectPoint norm intrinsics_of FLAGS board frames st = Return0 st' ->
  forall view_id view,
    In (view_id, view) (recon_views (recon_calib_dataset st')) ->
    In (view_id, view) (recon_views (recon_calib_dataset st)) \/
    exists f init,
      In f frames /\
      fr_read f = true /\
      (min_number_detected_corners <= length (fr_charuco f))%nat /\
      initialize (FLAGS_camera_model_to_calibrate FLAGS) f = Some init /\
      success_init init = true /\
      (inject_Z (Z.of_nat (length (fr_charuco f))) * (6 # 10)
         <= inject_Z (Z.of_nat (inliers init)))%Q /\
      fr_view_id f = Some view_id /\
      view_timestamp view = fr_timestamp f /\
      cam_position (view_camera view) = position init /\
      cam_orientation (view_camera view) = rotation init.
Proof.
  induction frames as [|f rest IH]; intros st st' Hrun view_id view Hin;
    cbn [run_frames] in Hrun.
  - destruct Hrun as [H|H]; [|discriminate H]. injection H as <-. left. exact Hin.
  - assert (Hstep : forall st1,
               reaches (frame_step norm3 ProjectPoint norm intrinsics_of FLAGS board st f) st1 ->
               In (view_id, view) (recon_views (recon_calib_dataset st1)) ->
               In (view_id, view) (recon_views (recon_calib_dataset st)) \/
               exists init,
                 fr_read f = true /\
                 (min_number_detected_corners <= length (fr_charuco f))%nat /\
                 initialize (FLAGS_camera_model_to_calibrate FLAGS) f = Some init /\
                 success_init init = true /\
                 (inject_Z (Z.of_nat (length (fr_charuco f))) * (6 # 10)
                    <= inject_Z (Z.of_nat (inliers init)))%Q /\
                 fr_view_id f = Some view_id /\
                 view_timestamp view = fr_timestamp f /\
                 cam_position (view_camera view) = position init /\
                 cam_orientation (view_camera view) = rotation init).
    { intros st1 Hreach Hin1.
      destruct (frame_step_cases norm3 ProjectPoint norm intrinsics_of
                  FLAGS board st f st1 Hreach) as [[[Hr _]|Htakes] _].
      - left. now rewrite <- Hr.
      - destruct Htakes as (init & id & v & Hread & Hinit & Hrej & Hlen & Hid & Hpos & Hrot
                            & Htime & Hviews & _).
        rewrite Hviews in Hin1. apply in_app_or in Hin1.
        destruct Hin1 as [Hold|[Hnew|[]]]; [left; exact Hold|].
        injection Hnew as <- <-. right. exists init.
        apply rejected_false in Hrej. destruct Hrej as (_ & Hok & Hinl). auto 10. }
    destruct (frame_step norm3 ProjectPoint norm intrinsics_of FLAGS board st f)
      as [st1|e] eqn:Hs.
    + destruct (IH st1 st' Hrun view_id view Hin) as [Hold|(f' & init & Hf' & Hrest)].
      * destruct (Hstep st1 (or_introl eq_refl) Hold) as [H|(init & H)].
        -- left. exact H.
        -- right. exists f, init. split; [left; reflexivity|exact H].
      * right. exists f', init. split; [right; exact Hf'|exact Hrest].
    + assert (Hreach : reaches (Stop e) st').
      { unfold reaches. destruct Hrun as [-> | ->]; auto. }
      destruct (Hstep st' Hreach Hin) as [H|(init & H)].
      * left. exact H.
      * right. exists f, init. split; [left; reflexivity|exact H].
Qed.

(** The loop returns for a frame for which there is no initialiser. *)
Lemma run_frames_return FLAGS board : forall frames st st',
  run_frames norm3 ProjectPoint norm intrinsics_of FLAGS board frames st = Return0 st' ->
  exists f,
    In f frames /\
    fr_read f = true /\
    (min_number_detected_corners <= length (fr_charuco f))%nat /\
    initialize (FLAGS_camera_model_to_calibrate FLAGS) f = None.
Proof.
  induction frames as [|f rest IH]; intros st st' Hrun; cbn [run_frames] in Hrun.
  - discriminate Hrun.
  - destruct (frame_step norm3 ProjectPoint norm intrinsics_of FLAGS board st f)
      as [st1|e] eqn:Hs.
    + destruct (IH st1 st' Hrun) as (f' & Hf' & H). exists f'. split; [now right|exact H].
    + subst e.
      destruct (frame_step_cases norm3 ProjectPoint norm intrinsics_of FLAGS board st f st')
        as [_ Hret]; [unfold reaches; auto|].
      destruct (Hret Hs) as (_ & Hinit & Hread & Hlen).
      exists f. split; [now left|auto].
Qed.

Lemma initialize_none model f :
  initialize model f = None -> ~ model_exists model.
Proof.
  unfold initialize, model_exists. intros H [-> | [-> | ->]]; discriminate H.
Qed.

End ViewsOfTheLoop.

(** X20.  Every view of the reconstruction the loop over the video leaves
    was made from a frame that was read, shows at least 30 charuco corners
    and passed the guard of lines 306-309: the initialiser of the camera
    model succeeded with inliers for at least 0.6 of the corners.  The view
    has the id [AddView] gave, the time of the frame as name and the pose of
    the initialiser. *)
Theorem views_come_from_accepted_frames
        (norm3 : Vec3 -> Q) (ProjectPoint : Camera -> Vec4 -> Vec2) (norm : Vec2 -> Q)
        (intrinsics_of : string -> Calibration.InitResult -> Z -> Z -> list Q)
        (FLAGS : Calibration.Flags) (board : Calibration.Board)
        (frames : list Calibration.Frame) (st : Calibration.LoopState)
        (view_id : ViewId) (view : View) :
  Calibration.run_frames norm3 ProjectPoint norm intrinsics_of FLAGS board frames
                         (Calibration.loop_start board) = Calibration.Break st ->
  In (view_id, view) (recon_views (Calibration.recon_calib_dataset st)) ->
  exists f init,
    In f frames /\
    Calibration.fr_read f = true /\
    (30 <= length (Calibration.fr_charuco f))%nat /\
    Calibration.initialize (Calibration.FLAGS_camera_model_to_calibrate FLAGS) f
      = Some init /\
    Calibration.success_init init = true /\
    (inject_Z (Z.of_nat (length (Calibration.fr_charuco f))) * (6 # 10)
       <= inject_Z (Z.of_nat (Calibration.inliers init)))%Q /\
    Calibration.fr_view_id f = Some view_id /\
    view_timestamp view = Calibration.fr_timestamp f /\
    cam_position (view_camera view) = Calibration.position init /\
    cam_orientation (view_camera view) = Calibration.rotation init.
Proof.
  intros Hrun Hin.
  destruct (run_frames_views norm3 ProjectPoint norm intrinsics_of FLAGS board frames _ st
              (or_introl Hrun) view_id view Hin) as [[]|H].
  exact H.
Qed.

(** X21.  [main] reports that the camera model does not exist only when the
    name is none of LINEAR_PINHOLE, DIVISION_UNDISTORTION and DOUBLE_SPHERE,
    and not before a frame was read that shows at least 30 charuco
    corners. *)
Theorem unknown_model_is_reported_at_a_detection
        (norm3 : Vec3 -> Q) (ProjectPoint : Camera -> Vec4 -> Vec2) (norm : Vec2 -> Q)
        (intrinsics_of : string -> Calibration.InitResult -> Z -> Z -> list Q)
        (BundleAdjustReconstruction :
           CalibrateCamera.BundleAdjustmentOptions -> Reconstruction -> Reconstruction)
        (RemoveView : Reconstruction -> ViewId -> Reconstruction)
        (E : CalibrateCamera.ModelTypeEnum)
        (fs : Files) (FLAGS : Calibration.Flags) (board : Calibration.Board) (fps : Q)
        (frames : list Calibration.Frame) :
  Calibration.main norm3 ProjectPoint norm intrinsics_of BundleAdjustReconstruction
                   RemoveView E fs FLAGS board fps frames
    = Returned Calibration.CameraModelDoesNotExist ->
  Calibration.FLAGS_camera_model_to_calibrate FLAGS <> "LINEAR_PINHOLE"%string /\
  Calibration.FLAGS_camera_model_to_calibrate FLAGS <> "DIVISION_UNDISTORTION"%string /\
  Calibration.FLAGS_camera_model_to_calibrate FLAGS <> "DOUBLE_SPHERE"%string /\
  exists f,
    In f frames /\ Calibration.fr_read f = true /\
    (30 <= length (Calibration.fr_charuco f))%nat.
Proof.
  unfold Calibration.main. destruct (negb _); [discriminate|].
  destruct (Qeq_bool fps 0); [discriminate|].
  destruct (Calibration.run_frames _ _ _ _ _ _ _ _) as [st|st|] eqn:Hrun;
    [|intros _|discriminate].
  { unfold Calibration.after_loop, mbind at 1 2 3 4 5, outcome_bind.
    destruct (NumViews _ <? 10)%nat; [discriminate|].
    destruct (Calibration.views_to_remove _ _ _ _ _); cbn [bind defined]; [|discriminate].
    destruct (NumViews _ <? 8)%nat; [discriminate|].
    destruct (head _); cbn [bind defined]; [|discriminate].
    destruct (GetView _ _); cbn [bind defined]; [|discriminate].
    destruct (Calibration.sum_errors _ _ _ _ _); cbn [bind defined]; [|discriminate].
    destruct (Calibration.written_model_type E _); [|discriminate].
    unfold mbind, outcome_bind.
    destruct (CalibrateCamera.CameraIDToString E _); cbn [bind defined]; discriminate. }
  destruct (run_frames_return _ _ _ _ _ _ _ _ _ Hrun) as (f & Hf & Hread & Hlen & Hinit).
  apply initialize_none in Hinit. unfold CalibrationFacts.model_exists in Hinit.
  split; [tauto|]. split; [tauto|]. split; [tauto|]. eauto.
Qed.

(** ** Runs on the small inputs *)

Lemma views_are_spaced_witness :
  Cases.calib_loop "DIVISION_UNDISTORTION" = Calibration.Break Cases.calib_loop_state /\
  NumViews (Calibration.recon_calib_dataset Cases.calib_loop_state)
    = length (Calibration.saved_poses Cases.calib_loop_state) /\
  CalibrationFacts.spaced Cases.norm3_1 (1 # 2)
                          (Calibration.saved_poses Cases.calib_loop_state).
Proof.
  split; [vm_compute; reflexivity|].
  destruct (views_are_spaced Cases.norm3_1 Demo.project Demo.norm1 Cases.calib_intrinsics
              (Cases.calib_flags "DIVISION_UNDISTORTION") Cases.calib_board
              Cases.calib_frames Cases.calib_loop_state ltac:(vm_compute; reflexivity))
    as (_ & Hn & Hs).
  split; [exact Hn|exact Hs].
Defined.

Lemma written_files_prefix_witness :
  Cases.calib_run "LINEAR_PINHOLE"
    = Returned (Calibration.Written (Cases.calib_output "LINEAR_PINHOLE")) /\
  Calibration.out_prefix (Cases.calib_output "LINEAR_PINHOLE") = ""%string.
Proof.
  split; [vm_compute; reflexivity|].
  destruct (written_files_prefix Cases.norm3_1 Demo.project Demo.norm1 Cases.calib_intrinsics
              Cases.calib_adjust Cases.calib_remove CalibrateCamera.theia_model_types
              (Demo.files Demo.telemetry_near) (Cases.calib_flags "LINEAR_PINHOLE")
              Cases.calib_board 30 Cases.calib_frames (Cases.calib_output "LINEAR_PINHOLE")
              ltac:(vm_compute; reflexivity))
    as [[_ Hp]|[[Hm _]|[Hm _]]]; [exact Hp|discriminate Hm|discriminate Hm].
Defined.

Lemma written_camera_type_witness :
  Cases.calib_run "LINEAR_PINHOLE"
    = Returned (Calibration.Written (Cases.calib_output "LINEAR_PINHOLE")) /\
  Calibration.json_camera_type (Cases.calib_output "LINEAR_PINHOLE")
    = Some "DIVISION_UNDISTORTION"%string.
Proof.
  split; [vm_compute; reflexivity|].
  exact (written_camera_type Cases.norm3_1 Demo.project Demo.norm1 Cases.calib_intrinsics
           Cases.calib_adjust Cases.calib_remove CalibrateCamera.theia_model_types
           (Demo.files Demo.telemetry_near) (Cases.calib_flags "LINEAR_PINHOLE")
           Cases.calib_board 30 Cases.calib_frames (Cases.calib_output "LINEAR_PINHOLE")
           ltac:(discriminate) ltac:(discriminate) ltac:(discriminate)
           ltac:(vm_compute; reflexivity)).
Defined.

Lemma written_view_counts_witness :
  Cases.calib_run "DOUBLE_SPHERE"
    = Returned (Calibration.Written (Cases.calib_output "DOUBLE_SPHERE")) /\
  (8 <= Calibration.json_nr_images_used (Cases.calib_output "DOUBLE_SPHERE"))%nat.
Proof.
  split; [vm_compute; reflexivity|].
  destruct (written_view_counts Cases.norm3_1 Demo.project Demo.norm1 Cases.calib_intrinsics
              Cases.calib_adjust Cases.calib_remove CalibrateCamera.theia_model_types
              (Demo.files Demo.telemetry_near) (Cases.calib_flags "DOUBLE_SPHERE")
              Cases.calib_board 30 Cases.calib_frames (Cases.calib_output "DOUBLE_SPHERE")
              (fun _ _ => eq_refl) ltac:(vm_compute; reflexivity))
    as (st & _ & _ & _ & H8).
  exact H8.
Defined.

Lemma views_come_from_accepted_frames_witness :
  Cases.calib_loop "DIVISION_UNDISTORTION" = Calibration.Break Cases.calib_loop_state /\
  In (3, Cases.calib_view)
     (recon_views (Calibration.recon_calib_dataset Cases.calib_loop_state)) /\
  exists f init,
    In f Cases.calib_frames /\
    Calibration.fr_read f = true /\
    (30 <= length (Calibration.fr_charuco f))%nat /\
    Calibration.initialize "DIVISION_UNDISTORTION" f = Some init /\
    Calibration.success_init init = true /\
    (inject_Z (Z.of_nat (length (Calibration.fr_charuco f))) * (6 # 10)
       <= inject_Z (Z.of_nat (Calibration.inliers init)))%Q /\
    Calibration.fr_view_id f = Some 3 /\
    view_timestamp Cases.calib_view = Calibration.fr_timestamp f /\
    cam_position (view_camera Cases.calib_view) = Calibration.position init /\
    cam_orientation (view_camera Cases.calib_view) = Calibration.rotation init.
Proof.
  assert (Hin : In (3, Cases.calib_view)
                   (recon_views (Calibration.recon_calib_dataset Cases.calib_loop_state))).
  { vm_compute. do 3 right. left. reflexivity. }
  split; [vm_compute; reflexivity|]. split; [exact Hin|].
  exact (views_come_from_accepted_frames Cases.norm3_1 Demo.project Demo.norm1
           Cases.calib_intrinsics (Cases.calib_flags "DIVISION_UNDISTORTION")
           Cases.calib_board Cases.calib_frames Cases.calib_loop_state 3 Cases.calib_view
           ltac:(vm_compute; reflexivity) Hin).
Defined.

Lemma unknown_model_is_reported_at_a_detection_witness :
  Cases.calib_run "FISHEYE" = Returned Calibration.CameraModelDoesNotExist /\
  exists f,
    In f Cases.calib_frames /\ Calibration.fr_read f = true /\
    (30 <= length (Calibration.fr_charuco f))%nat.
Proof.
  split; [vm_compute; reflexivity|].
  destruct (unknown_model_is_reported_at_a_detection Cases.norm3_1 Demo.project Demo.norm1
              Cases.calib_intrinsics Cases.calib_adjust Cases.calib_remove
              CalibrateCamera.theia_model_types (Demo.files Demo.telemetry_near)
              (Cases.calib_flags "FISHEYE") Cases.calib_board 30 Cases.calib_frames
              ltac:(vm_compute; reflexivity))
    as (_ & _ & _ & Hf).
  exact Hf.
Defined.

(** ** The landmarks through both programs *)

Section TrackPoints.

Import CalibrateCamera Calibration CalibrationFacts.

Variable norm3 : Vec3 -> Q.
Variable ProjectPoint : Camera -> Vec4 -> Vec2.
Variable norm : Vec2 -> Q.
Variable intrinsics_of : string -> InitResult -> Z -> Z -> list Q.




End TrackPoints.


